(** * The incremental Kotlin/dex development cycle of [uni-uts-v1/src/uvue/index.ts]

    A shallow embedding of [runKotlinDev] and of the functions it is built
    from: [resolveDexByKotlinFile], [parseKotlinChangedFiles], [syncDexList],
    [readKotlinManifestJson] and [writeKotlinManifestJson].

    - Paths are strings and follow Node's [path.posix] functions.
    - The disk is a finite map from the path of a regular file to its
      contents; directories are implicit.
    - Every function that touches the disk or the console runs in a small
      state-and-exception monad over a [World]; the world also keeps the
      chronological list of the effects performed, so that statements such
      as "the driver is never invoked" can be written down. *)

From Stdlib Require Import String Ascii List ZArith Bool Lia.
From stdpp Require Import base option gmap strings list fin_maps.

Local Open Scope string_scope.
Local Open Scope list_scope.

(** ** JavaScript strings *)

Module Str.

Definition isEmpty (s : string) : bool :=
  match s with EmptyString => true | String _ _ => false end.

(** [s.startsWith(p)] *)
Fixpoint startsWith (p s : string) : bool :=
  match p, s with
  | EmptyString, _ => true
  | String _ _, EmptyString => false
  | String a p', String b s' => if Ascii.eqb a b then startsWith p' s' else false
  end.

(** [s.slice(n)] *)
Fixpoint slice (n : nat) (s : string) : string :=
  match n, s with
  | O, _ => s
  | S n', String _ s' => slice n' s'
  | S _, EmptyString => EmptyString
  end.

(** [s.replace(pat, rep)] with a string pattern: only the FIRST occurrence
    of [pat], scanning from the left, is replaced. *)
Fixpoint replace (pat rep s : string) : string :=
  if startsWith pat s then rep +:+ slice (String.length pat) s
  else match s with
       | EmptyString => EmptyString
       | String c s' => String c (replace pat rep s')
       end.

(** [s.endsWith(p)] *)
Fixpoint endsWith (p s : string) : bool :=
  String.eqb p s ||
  match s with
  | EmptyString => false
  | String _ s' => endsWith p s'
  end.

(** [s.split(sep)] for a one-character separator. *)
Fixpoint split (sep : ascii) (s : string) : list string :=
  match s with
  | EmptyString => [EmptyString]
  | String c s' =>
      if Ascii.eqb c sep then EmptyString :: split sep s'
      else match split sep s' with
           | [] => [String c EmptyString]
           | seg :: segs => String c seg :: segs
           end
  end.

(** [segs.join(sep)] *)
Fixpoint join (sep : string) (segs : list string) : string :=
  match segs with
  | [] => EmptyString
  | [seg] => seg
  | seg :: rest => seg +:+ sep +:+ join sep rest
  end.

(** [l.includes(x)] on an array of strings. *)
Definition includes (l : list string) (x : string) : bool :=
  bool_decide (x ∈ l).

End Str.

(** ** Node's [path] module (POSIX flavour) *)

Module NodePath.

Definition isAbsolute (p : string) : bool :=
  match p with
  | String c _ => Ascii.eqb c "/"%char
  | EmptyString => false
  end.

(** One segment of [normalizeString]: empty segments and [.] are dropped,
    [..] removes the previous segment when there is one that is not itself
    [..]; above the root it is kept only when [allowAboveRoot]. The
    accumulator holds the segments kept so far, last one first. *)
Definition normalizeSegment (allowAboveRoot : bool)
    (res : list string) (seg : string) : list string :=
  if Str.isEmpty seg || String.eqb seg "." then res
  else if String.eqb seg ".." then
    match res with
    | last :: res' =>
        if String.eqb last ".."
        then (if allowAboveRoot then ".." :: res else res)
        else res'
    | [] => if allowAboveRoot then [".."] else []
    end
  else seg :: res.

Definition normalizeString (path : string) (allowAboveRoot : bool) : string :=
  Str.join "/"
    (rev (fold_left (normalizeSegment allowAboveRoot) (Str.split "/" path) [])).

(** The right-to-left loop of [path.resolve]: arguments are prepended until
    an absolute one is met; the working directory comes last. *)
Fixpoint resolveLoop (cwd : string) (revArgs : list string) (resolvedPath : string)
    : string * bool :=
  match revArgs with
  | [] =>
      if Str.isEmpty cwd then (resolvedPath, false)
      else (cwd +:+ "/" +:+ resolvedPath, isAbsolute cwd)
  | p :: rest =>
      if Str.isEmpty p then resolveLoop cwd rest resolvedPath
      else if isAbsolute p then (p +:+ "/" +:+ resolvedPath, true)
      else resolveLoop cwd rest (p +:+ "/" +:+ resolvedPath)
  end.

(** [path.resolve(...args)] in a process whose working directory is [cwd]. *)
Definition resolve (cwd : string) (args : list string) : string :=
  let '(resolvedPath, resolvedAbsolute) := resolveLoop cwd (rev args) EmptyString in
  let normalized := normalizeString resolvedPath (negb resolvedAbsolute) in
  if resolvedAbsolute then "/" +:+ normalized
  else if Str.isEmpty normalized then "." else normalized.

(** [path.normalize(p)] *)
Definition normalize (p : string) : string :=
  if Str.isEmpty p then "."
  else
    let isAbs := isAbsolute p in
    let trailingSeparator := Str.endsWith "/" p in
    let n := normalizeString p (negb isAbs) in
    if Str.isEmpty n then
      (if isAbs then "/" else if trailingSeparator then "./" else ".")
    else
      let n' := if trailingSeparator then n +:+ "/" else n in
      if isAbs then "/" +:+ n' else n'.

(** [path.join(...args)] *)
Definition join (args : list string) : string :=
  match filter (fun a => Str.isEmpty a = false) args with
  | [] => "."
  | joined => normalize (Str.join "/" joined)
  end.

End NodePath.

(** ** Data of the build pipeline *)

(** [CompileAppOptions]: the two directories [runKotlinDev] reads, and the
    fields passed through to the transpiler. *)
Module Options.
Record t := {
  inputDir : string;
  outputDir : string;
  package : string;
  sourceMap : bool;
  uni_modules : list string;
  split : option bool;
  disableSplitManifest : option bool
}.
End Options.

(** [RunKotlinDevResult]: the transpiler's result, mutated in place by the
    cycle. [filename] and [chunks] are optional in the source. *)
Module Result.
Record t := {
  filename : option string;
  changed : list string;
  chunks : option (list string);
  type : option string;
  kotlinc : bool
}.

Definition setType (v : string) (r : t) : t :=
  {| filename := filename r; changed := changed r; chunks := chunks r;
     type := Some v; kotlinc := kotlinc r |}.

Definition setKotlinc (v : bool) (r : t) : t :=
  {| filename := filename r; changed := changed r; chunks := chunks r;
     type := type r; kotlinc := v |}.

Definition setChanged (v : list string) (r : t) : t :=
  {| filename := filename r; changed := v; chunks := chunks r;
     type := type r; kotlinc := kotlinc r |}.
End Result.

(** The request handed to the compiler server's [compile]. The
    [stderrListener] callback is not part of the model. *)
Module CompileOptions.
Record t := {
  version : string;
  kotlinc : list string;
  d8 : list string;
  kotlinOutDir : string;
  dexOutDir : string;
  inputDir : string
}.
End CompileOptions.

(** The driver's answer [{ code, msg, data }]. *)
Module DexResult.
Record t := {
  code : Z;
  msg : option string;
  data : option (list string)   (* [data.dexList] when [data] is present *)
}.
End DexResult.

(** The manifest object, [Record<string, string>]. *)
Abbreviation Manifest := (gmap string string).

(** The disk: path of a regular file to its contents. *)
Abbreviation Files := (gmap string string).

(** ** Effects *)

Inductive Event :=
| EUnlink (p : string)                         (* fs.unlinkSync *)
| ECopy (src dest : string)                    (* fs.copySync *)
| EWriteFile (p data : string)                 (* fs.writeFileSync *)
| ECompile (o : CompileOptions.t) (dir : string) (* compilerServer.compile *)
| EConsoleError (m : string).                  (* console.error *)

Record World := {
  files : Files;
  events : list Event
}.

Inductive Fault :=
| ERR_INVALID_ARG_TYPE            (* path.resolve on undefined *)
| ENOENT (p : string)             (* missing file *)
| ESameFile (p : string)          (* fs-extra: source and destination are the same *)
| SyntaxError                     (* JSON.parse *)
| ExtensionNotInstalled.          (* the message thrown when the run extension is missing *)

Inductive Outcome (A : Type) :=
| Ok (a : A)
| Throw (f : Fault).
Arguments Ok {A} a.
Arguments Throw {A} f.

Definition M (A : Type) : Type := World -> Outcome A * World.

#[global] Instance M_ret : MRet M := fun A a w => (Ok a, w).
#[global] Instance M_bind : MBind M := fun A B f m w =>
  match m w with
  | (Ok a, w') => f a w'
  | (Throw e, w') => (Throw e, w')
  end.

Definition throw {A} (e : Fault) : M A := fun w => (Throw e, w).

Definition emit (e : Event) (w : World) : World :=
  {| files := files w; events := events w ++ [e] |}.

Definition setFiles (fs : Files) (w : World) : World :=
  {| files := fs; events := events w |}.

Module fs.

Definition existsSync (p : string) : M bool :=
  fun w => (Ok (bool_decide (is_Some (files w !! p))), w).

Definition unlinkSync (p : string) : M unit :=
  fun w =>
    match files w !! p with
    | Some _ => (Ok tt, emit (EUnlink p) (setFiles (delete p (files w)) w))
    | None => (Throw (ENOENT p), w)
    end.

(** fs-extra's [copySync] with its default options: the source must exist,
    source and destination must differ, an existing destination is
    overwritten. *)
Definition copySync (src dest : string) : M unit :=
  fun w =>
    match files w !! src with
    | None => (Throw (ENOENT src), w)
    | Some c =>
        if decide (src = dest) then (Throw (ESameFile src), w)
        else (Ok tt, emit (ECopy src dest) (setFiles (<[dest := c]> (files w)) w))
    end.

Definition readFileSync (p : string) : M string :=
  fun w =>
    match files w !! p with
    | Some c => (Ok c, w)
    | None => (Throw (ENOENT p), w)
    end.

Definition writeFileSync (p data : string) : M unit :=
  fun w => (Ok tt, emit (EWriteFile p data) (setFiles (<[p := data]> (files w)) w)).

End fs.

Definition console_error (m : string) : M unit :=
  fun w => (Ok tt, emit (EConsoleError m) w).

(** [array.map(f)] and [array.forEach(f)] with an effectful callback, run
    from left to right. *)
Fixpoint mapM_ {A B} (f : A -> M B) (l : list A) : M (list B) :=
  match l with
  | [] => mret []
  | x :: l' => y ← f x; ys ← mapM_ f l'; mret (y :: ys)
  end.

Fixpoint forEachAcc {A S} (f : S -> A -> M S) (l : list A) (acc : S) : M S :=
  match l with
  | [] => mret acc
  | x :: l' => acc' ← f acc x; forEachAcc f l' acc'
  end.

(** ** The platform the module runs on

    What [index.ts] imports or reads from its process: the working
    directory, two environment variables, the built-in JSON codec, and the
    collaborators of ['../kotlin'] and ['../utils']. *)

Record KotlinCompilerServer := {
  getDefaultJar : Z -> list string;
  getKotlincHome : string;
  (** [compile(options, inputDir)]: answers and may write to the disk. *)
  compile : CompileOptions.t -> string -> Files -> DexResult.t * Files
}.

Record Platform := {
  cwd : string;
  UNI_APP_X_CACHE_DIR : option string;
  HX_DEPENDENCIES_DIR : option string;
  (** [JSON.parse] at type [Record<string, string>], [None] when it throws;
      the declared return type of [readKotlinManifestJson] is taken at its
      word. *)
  JSON_parse : string -> option Manifest;
  JSON_stringify : Manifest -> string;
  (** [getCompilerServer('uniapp-runextension')] *)
  getCompilerServer : option KotlinCompilerServer;
  resolveKotlincArgs : list string -> string -> string -> list string -> list string;
  getUniModulesCacheJars : string -> list string;
  getUniModulesJars : string -> list string;
  D8_DEFAULT_ARGS : list string;
  (** [+Date.now()] rendered in a template string *)
  Date_now : string
}.

(** Truthiness of the JavaScript values that are tested in conditions. *)
Definition truthyString (s : option string) : bool :=
  match s with
  | Some s => negb (Str.isEmpty s)
  | None => false
  end.

Definition truthyNumber (n : Z) : bool := negb (Z.eqb n 0).

Definition truthyObject {A} (o : option A) : bool :=
  match o with Some _ => true | None => false end.

(** [a || b] on optional strings. *)
Definition orElse (a : option string) (b : string) : string :=
  match a with
  | Some s => if Str.isEmpty s then b else s
  | None => b
  end.

Section Uvue.

Variable P : Platform.

Definition path_resolve (args : list string) : string :=
  NodePath.resolve (cwd P) args.

Definition kotlinDir (outputDir : string) : string :=
  orElse (UNI_APP_X_CACHE_DIR P) (path_resolve [outputDir; "../.kotlin"]).

Definition kotlinSrcDir (kotlinDir : string) : string :=
  path_resolve [kotlinDir; "src"].

Definition kotlinDexDir (kotlinDir : string) : string :=
  path_resolve [kotlinDir; "dex"].

Definition kotlinClassDir (kotlinDir : string) : string :=
  path_resolve [kotlinDir; "class"].

Definition resolveDexByKotlinFile (kotlinDexOutDir kotlinFile : string) : string :=
  NodePath.join
    [Str.replace ".kt" EmptyString (path_resolve [kotlinDexOutDir; kotlinFile]);
     "classes.dex"].

(** The callback of [result.changed.map]. *)
Definition changedFile (kotlinSrcOutDir kotlinDexOutDir file : string) : M string :=
  let dexFile := resolveDexByKotlinFile kotlinDexOutDir file in
  stale ← fs.existsSync dexFile;
  (if stale : bool then fs.unlinkSync dexFile else mret tt);;
  mret (path_resolve [kotlinSrcOutDir; file]).

(** The callback of [['index.kt', ...chunks].forEach]; the array
    [kotlinChangedFiles] it pushes to is the accumulator. *)
Definition chunkFileStep (kotlinSrcOutDir kotlinDexOutDir outputDir : string)
    (kotlinChangedFiles : list string) (chunk : string) : M (list string) :=
  let chunkFile := path_resolve [kotlinSrcOutDir; chunk] in
  if Str.includes kotlinChangedFiles chunkFile then mret kotlinChangedFiles
  else
    let dexFile := resolveDexByKotlinFile kotlinDexOutDir chunk in
    cached ← fs.existsSync dexFile;
    if cached : bool then
      let targetDexFile := resolveDexByKotlinFile outputDir chunk in
      present ← fs.existsSync targetDexFile;
      (if present : bool then mret tt else fs.copySync dexFile targetDexFile);;
      mret kotlinChangedFiles
    else mret (kotlinChangedFiles ++ [chunkFile]).

Definition chunkList (result : Result.t) : list string :=
  "index.kt" :: default [] (Result.chunks result).

Definition parseKotlinChangedFiles (result : Result.t)
    (kotlinSrcOutDir kotlinDexOutDir outputDir : string) : M (list string) :=
  kotlinChangedFiles ←
    mapM_ (changedFile kotlinSrcOutDir kotlinDexOutDir) (Result.changed result);
  forEachAcc (chunkFileStep kotlinSrcOutDir kotlinDexOutDir outputDir)
    (chunkList result) kotlinChangedFiles.

Definition syncDex (kotlinDexOutDir outputDir dex : string) : M unit :=
  let dexFile := path_resolve [kotlinDexOutDir; dex] in
  let targetDexFile := path_resolve [outputDir; dex] in
  fs.copySync dexFile targetDexFile.

Definition syncDexList (dexList : list string) (kotlinDexOutDir outputDir : string)
    : M unit :=
  forEachAcc (fun _ dex => syncDex kotlinDexOutDir outputDir dex) dexList tt.

Definition manifestFile (kotlinSrcOutDir : string) : string :=
  path_resolve [kotlinSrcOutDir; ".manifest.json"].

Definition readKotlinManifestJson (kotlinSrcOutDir : string) : M (option Manifest) :=
  let file := manifestFile kotlinSrcOutDir in
  found ← fs.existsSync file;
  if found : bool then
    text ← fs.readFileSync file;
    match JSON_parse P text with
    | Some manifest => mret (Some manifest)
    | None => throw SyntaxError
    end
  else mret None.

Definition writeKotlinManifestJson (kotlinSrcOutDir : string) (manifest : Manifest)
    : M unit :=
  fs.writeFileSync (manifestFile kotlinSrcOutDir) (JSON_stringify P manifest).

(** [result.changed.forEach((file) => { delete manifest[file] })] *)
Definition deleteKeys (keys : list string) (manifest : Manifest) : Manifest :=
  fold_left (fun m file => delete file m) keys manifest.

Definition compileOptions (server : KotlinCompilerServer)
    (kotlinChangedFiles : list string)
    (kotlinRootOutDir kotlinSrcOutDir kotlinDexOutDir outputDir : string)
    : CompileOptions.t :=
  let cacheDir := orElse (HX_DEPENDENCIES_DIR P) EmptyString in
  let kotlinClassOutDir := kotlinClassDir kotlinRootOutDir in
  {| CompileOptions.version := "v2";
     CompileOptions.kotlinc :=
       resolveKotlincArgs P kotlinChangedFiles kotlinClassOutDir
         (getKotlincHome server)
         ([kotlinClassOutDir] ++
            (getDefaultJar server 2 ++ getUniModulesCacheJars P cacheDir
               ++ getUniModulesJars P outputDir))
       ++ ["-module-name"; "main-" +:+ Date_now P];
     CompileOptions.d8 := D8_DEFAULT_ARGS P;
     CompileOptions.kotlinOutDir := kotlinClassOutDir;
     CompileOptions.dexOutDir := kotlinDexOutDir;
     CompileOptions.inputDir := kotlinSrcOutDir |}.

(** [await compileDex(options, inputDir)] *)
Definition compileDex (server : KotlinCompilerServer)
    (o : CompileOptions.t) (inputDir : string) : M DexResult.t :=
  fun w =>
    let '(r, fs') := compile server o inputDir (files w) in
    (Ok r, setFiles fs' (emit (ECompile o inputDir) w)).

(** The condition [!code && data] of the source. *)
Definition dexSucceeded (r : DexResult.t) : bool :=
  negb (truthyNumber (DexResult.code r)) && truthyObject (DexResult.data r).

(** The [else] branch of [if (!code && data)]. *)
Definition dexFailure (kotlinSrcOutDir : string) (r : DexResult.t)
    (result : Result.t) : M Result.t :=
  result ←
    (if negb (Nat.eqb (length (Result.changed result)) 0) then
       manifest ← readKotlinManifestJson kotlinSrcOutDir;
       match manifest with
       | Some manifest =>
           writeKotlinManifestJson kotlinSrcOutDir
             (deleteKeys (Result.changed result) manifest)
       | None => mret tt
       end;;
       mret (Result.setChanged [] result)
     else mret result);
  match DexResult.msg r with
  | Some m => if truthyString (Some m) then console_error m else mret tt
  | None => mret tt
  end;;
  mret result.

Definition runKotlinDev (options : Options.t) (result : Result.t) : M Result.t :=
  let result := Result.setType "kotlin" result in
  let inputDir := Options.inputDir options in
  let outputDir := Options.outputDir options in
  let kotlinRootOutDir := kotlinDir outputDir in
  let kotlinDexOutDir := kotlinDexDir kotlinRootOutDir in
  let kotlinSrcOutDir := kotlinSrcDir kotlinRootOutDir in
  kotlinChangedFiles ←
    parseKotlinChangedFiles result kotlinSrcOutDir kotlinDexOutDir outputDir;
  match Result.filename result with
  | None => throw ERR_INVALID_ARG_TYPE
  | Some filename =>
      let kotlinMainFile := path_resolve [kotlinSrcOutDir; filename] in
      mainExists ← fs.existsSync kotlinMainFile;
      if negb (Nat.eqb (length kotlinChangedFiles) 0) && mainExists then
        match getCompilerServer P with
        | None => throw ExtensionNotInstalled
        | Some compilerServer =>
            let o := compileOptions compilerServer kotlinChangedFiles
                       kotlinRootOutDir kotlinSrcOutDir kotlinDexOutDir outputDir in
            let result := Result.setKotlinc true result in
            r ← compileDex compilerServer o inputDir;
            if dexSucceeded r then
              let dexList := default [] (DexResult.data r) in
              let result := Result.setChanged dexList result in
              syncDexList dexList kotlinDexOutDir outputDir;;
              mret result
            else dexFailure kotlinSrcOutDir r result
        end
      else mret result
  end.

End Uvue.

(** ** A concrete platform, for running the model

    The theorems below hold for every [Platform]. To evaluate the model on
    concrete inputs a platform is fixed here: a JSON codec for flat objects
    of strings, a working directory, and two compiler servers. *)

Module FlatJSON.

Definition dq : ascii := "034"%char.
Definition bs : ascii := "092"%char.

Fixpoint escape (s : string) : string :=
  match s with
  | EmptyString => EmptyString
  | String c s' =>
      if Ascii.eqb c dq || Ascii.eqb c bs then String bs (String c (escape s'))
      else String c (escape s')
  end.

Definition quote (s : string) : string :=
  String dq (escape s) +:+ String dq EmptyString.

Definition member (kv : string * string) : string :=
  quote kv.1 +:+ ":" +:+ quote kv.2.

Definition stringify (m : Manifest) : string :=
  "{" +:+ Str.join "," (map member (map_to_list m)) +:+ "}".

Definition isSpace (c : ascii) : bool :=
  Ascii.eqb c " "%char || Ascii.eqb c "009"%char
  || Ascii.eqb c "010"%char || Ascii.eqb c "013"%char.

(** Parser states; keys and values under construction are kept reversed. *)
Inductive state :=
| Start | KeyOrClose | Key (k : string) | KeyEsc (k : string)
| Colon (k : string) | Value (k : string)
| Val (k v : string) | ValEsc (k v : string)
| CommaOrClose | NextKey | Done | Error.

Definition step (st : state * Manifest) (c : ascii) : state * Manifest :=
  let '(s, m) := st in
  match s with
  | Start => if isSpace c then (Start, m)
             else if Ascii.eqb c "{"%char then (KeyOrClose, m) else (Error, m)
  | KeyOrClose => if isSpace c then (KeyOrClose, m)
                  else if Ascii.eqb c dq then (Key EmptyString, m)
                  else if Ascii.eqb c "}"%char then (Done, m) else (Error, m)
  | NextKey => if isSpace c then (NextKey, m)
               else if Ascii.eqb c dq then (Key EmptyString, m) else (Error, m)
  | Key k => if Ascii.eqb c dq then (Colon k, m)
             else if Ascii.eqb c bs then (KeyEsc k, m) else (Key (String c k), m)
  | KeyEsc k => if Ascii.eqb c dq || Ascii.eqb c bs then (Key (String c k), m)
                else (Error, m)
  | Colon k => if isSpace c then (Colon k, m)
               else if Ascii.eqb c ":"%char then (Value k, m) else (Error, m)
  | Value k => if isSpace c then (Value k, m)
               else if Ascii.eqb c dq then (Val k EmptyString, m) else (Error, m)
  | Val k v => if Ascii.eqb c dq
               then (CommaOrClose, <[String.rev k := String.rev v]> m)
               else if Ascii.eqb c bs then (ValEsc k v, m) else (Val k (String c v), m)
  | ValEsc k v => if Ascii.eqb c dq || Ascii.eqb c bs then (Val k (String c v), m)
                  else (Error, m)
  | CommaOrClose => if isSpace c then (CommaOrClose, m)
                    else if Ascii.eqb c ","%char then (NextKey, m)
                    else if Ascii.eqb c "}"%char then (Done, m) else (Error, m)
  | Done => if isSpace c then (Done, m) else (Error, m)
  | Error => (Error, m)
  end.

Definition parse (text : string) : option Manifest :=
  match fold_left step (list_ascii_of_string text) (Start, ∅) with
  | (Done, m) => Some m
  | _ => None
  end.

End FlatJSON.

Module Demo.

(** A driver that rejects every request. *)
Definition failingServer : KotlinCompilerServer :=
  {| getDefaultJar := fun _ => ["/sdk/android.jar"];
     getKotlincHome := "/sdk/kotlinc";
     compile := fun _ _ disk =>
       ({| DexResult.code := 1; DexResult.msg := Some "type error";
           DexResult.data := None |}, disk) |}.

(** A driver that rejects every request, with an empty message. *)
Definition silentServer : KotlinCompilerServer :=
  {| getDefaultJar := fun _ => ["/sdk/android.jar"];
     getKotlincHome := "/sdk/kotlinc";
     compile := fun _ _ disk =>
       ({| DexResult.code := 1; DexResult.msg := Some EmptyString;
           DexResult.data := None |}, disk) |}.

(** A driver that writes one dex artifact into its dex directory and
    reports it. *)
Definition workingServer : KotlinCompilerServer :=
  {| getDefaultJar := fun _ => ["/sdk/android.jar"];
     getKotlincHome := "/sdk/kotlinc";
     compile := fun o _ disk =>
       ({| DexResult.code := 0; DexResult.msg := None;
           DexResult.data := Some ["index/classes.dex"] |},
        <[CompileOptions.dexOutDir o +:+ "/index/classes.dex" := "dex:index"]> disk) |}.

Definition platform (cacheDir : option string) (server : option KotlinCompilerServer)
    : Platform :=
  {| cwd := "/work";
     UNI_APP_X_CACHE_DIR := cacheDir;
     HX_DEPENDENCIES_DIR := None;
     JSON_parse := FlatJSON.parse;
     JSON_stringify := FlatJSON.stringify;
     getCompilerServer := server;
     resolveKotlincArgs := fun files classDir home classpath =>
       ["-kotlin-home"; home; "-d"; classDir; "-cp"; Str.join ":" classpath] ++ files;
     getUniModulesCacheJars := fun _ => [];
     getUniModulesJars := fun _ => [];
     D8_DEFAULT_ARGS := ["--min-api"; "19"];
     Date_now := "1700000000000" |}.

Definition options : Options.t :=
  {| Options.inputDir := "/p/src";
     Options.outputDir := "/p/dist/dev";
     Options.package := "uni.app";
     Options.sourceMap := false;
     Options.uni_modules := [];
     Options.split := Some true;
     Options.disableSplitManifest := None |}.


Definition result (changed : list string) (chunks : option (list string)) : Result.t :=
  {| Result.filename := Some "index.kt";
     Result.changed := changed;
     Result.chunks := chunks;
     Result.type := None;
     Result.kotlinc := false |}.

Definition world (disk : list (string * string)) : World :=
  {| files := list_to_map disk; events := [] |}.

End Demo.

(** ** Derived notions used in the statements *)

Section Derived.

Variable P : Platform.

(** What [changedFile] does to the world: the cached artifact at [p], if
    there is one, is unlinked. *)
Definition dropStale (p : string) (w : World) : World :=
  match files w !! p with
  | Some _ => emit (EUnlink p) (setFiles (delete p (files w)) w)
  | None => w
  end.

Definition staleSweep (kotlinDexOutDir : string) (changed : list string) (w : World)
    : World :=
  fold_left (fun w file => dropStale (resolveDexByKotlinFile P kotlinDexOutDir file) w)
    changed w.

(** The directories [runKotlinDev] derives from [options.outputDir]. *)
Definition rootOutDir (options : Options.t) : string :=
  kotlinDir P (Options.outputDir options).
Definition dexOutDir (options : Options.t) : string :=
  kotlinDexDir P (rootOutDir options).
Definition srcOutDir (options : Options.t) : string :=
  kotlinSrcDir P (rootOutDir options).

(** The resolver as [runKotlinDev] calls it. *)
Definition resolveChangeSet (options : Options.t) (result : Result.t) : M (list string) :=
  parseKotlinChangedFiles P (Result.setType "kotlin" result)
    (srcOutDir options) (dexOutDir options) (Options.outputDir options).

(** The first half of [runKotlinDev], up to and including the call of the
    driver: [Some (changeSet, answer, world)] when the driver is reached,
    [None] when the cycle stops before. *)
Definition driverCall (options : Options.t) (result : Result.t) (w : World)
    : option (list string * DexResult.t * World) :=
  match resolveChangeSet options result w with
  | (Ok kotlinChangedFiles, w1) =>
      match Result.filename result, getCompilerServer P with
      | Some filename, Some server =>
          if negb (Nat.eqb (length kotlinChangedFiles) 0)
             && bool_decide (is_Some (files w1 !! path_resolve P [srcOutDir options; filename]))
          then
            match compileDex server
                    (compileOptions P server kotlinChangedFiles (rootOutDir options)
                       (srcOutDir options) (dexOutDir options) (Options.outputDir options))
                    (Options.inputDir options) w1 with
            | (Ok r, w2) => Some (kotlinChangedFiles, r, w2)
            | (Throw _, _) => None
            end
          else None
      | _, _ => None
      end
  | (Throw _, _) => None
  end.

(** The second half: what the cycle does with the driver's answer. *)
Definition afterDriver (options : Options.t) (result : Result.t) (r : DexResult.t)
    : M Result.t :=
  let result := Result.setKotlinc true (Result.setType "kotlin" result) in
  if dexSucceeded r then
    let dexList := default [] (DexResult.data r) in
    syncDexList P dexList (dexOutDir options) (Options.outputDir options);;
    mret (Result.setChanged dexList result)
  else dexFailure P (srcOutDir options) r result.

(** What the loop over [index.kt] and the chunks keeps true, relative to
    the state [(acc0, w0)] it starts from: the list only grows at its end,
    by source paths of chunks, and stays duplicate-free; files are only
    added, at promotion targets that were absent; the only effects are
    copies to such targets. *)
Definition chunkInv (kotlinSrcOutDir kotlinDexOutDir outputDir : string)
    (chunks : list string) (acc0 : list string) (w0 : World)
    (acc : list string) (w : World) : Prop :=
  (exists extra, acc = acc0 ++ extra
     /\ Forall (fun p => exists c, c ∈ chunks /\ p = path_resolve P [kotlinSrcOutDir; c]) extra
     /\ (NoDup acc0 -> NoDup acc))
  /\ (forall p content, files w0 !! p = Some content -> files w !! p = Some content)
  /\ (forall p, files w0 !! p = None -> is_Some (files w !! p) ->
        exists c, c ∈ chunks /\ p = resolveDexByKotlinFile P outputDir c)
  /\ (exists evs, events w = events w0 ++ evs
        /\ Forall (fun e => exists c, c ∈ chunks /\ e = ECopy (resolveDexByKotlinFile P kotlinDexOutDir c)
                                       (resolveDexByKotlinFile P outputDir c)
                               /\ files w0 !! resolveDexByKotlinFile P outputDir c = None) evs).

(** What [if (msg) console.error(msg)] does to the world. *)
Definition logMessage (r : DexResult.t) (w : World) : World :=
  match DexResult.msg r with
  | Some m => if Str.isEmpty m then w else emit (EConsoleError m) w
  | None => w
  end.

Definition isCompile (e : Event) : bool :=
  match e with ECompile _ _ => true | _ => false end.

(** The messages printed with [console.error], oldest first. *)
Definition consoleErrors (evs : list Event) : list string :=
  omap (fun e => match e with EConsoleError m => Some m | _ => None end) evs.

(** The spec's [artifactPathFor], written from its words: the [.kt]
    extension is the suffix of the relative path. *)
Definition stripKtExtension (kotlinFilePath : string) : string :=
  if Str.endsWith ".kt" kotlinFilePath
  then String.substring 0 (String.length kotlinFilePath - 3) kotlinFilePath
  else kotlinFilePath.

Definition artifactPathFor (baseDir kotlinFilePath : string) : string :=
  NodePath.join [path_resolve P [baseDir; stripKtExtension kotlinFilePath]; "classes.dex"].

End Derived.

(** ** More of the sources

    The rest of [uvue/index.ts] ([compileApp], [runKotlinBuild]) and the
    mini-program plugin bundled after it ([uniad_app_json], [transformAd],
    [normalizeName]). *)

(** The last character of a string, to tell file names apart. *)
Fixpoint lastChar (s : string) : option ascii :=
  match s with
  | EmptyString => None
  | String c EmptyString => Some c
  | String _ s' => lastChar s'
  end.

(** A plain file name: not empty, not [.] or [..], and without a slash. *)
Definition plainName (name : string) : Prop :=
  Str.split "/" name = [name]
  /\ Str.isEmpty name = false
  /\ String.eqb name "." = false
  /\ String.eqb name ".." = false.

(** [s.indexOf(pat)], [None] standing for [-1]. *)
Fixpoint indexOf (pat s : string) : option nat :=
  if Str.startsWith pat s then Some 0
  else match s with
       | EmptyString => None
       | String _ s' => S <$> indexOf pat s'
       end.

(** *** [compileApp] *)

(** What [compileApp] hands to the transpiler; the fields that are
    literals in the source are left out. *)
Module BundleOptions.
Record t := {
  root : string;
  filename : string;
  uniModules : list string;
  env_NODE_ENV : option string;
  env_UNI_AUTOMATOR_WS_ENDPOINT : string;
  outDir : string;
  package : string;
  sourceMap : option string;      (* [false] is [None] *)
  imports : list string;
  split : bool;
  disableSplitManifest : option bool
}.
End BundleOptions.

Definition DEFAULT_IMPORTS : list string :=
  ["kotlinx.coroutines.async";
   "kotlinx.coroutines.CoroutineScope";
   "kotlinx.coroutines.Deferred";
   "kotlinx.coroutines.Dispatchers";
   "io.dcloud.uts.Map";
   "io.dcloud.uts.Set";
   "io.dcloud.uts.UTSAndroid";
   "io.dcloud.uts.*";
   "io.dcloud.uniapp.framework.*";
   "io.dcloud.uniapp.vue.*";
   "io.dcloud.uniapp.vue.shared.*";
   "io.dcloud.uniapp.runtime.*";
   "io.dcloud.uniapp.extapi.*"].

(** What [bundle] resolves to, when it resolves to something. *)
Inductive BundleAnswer :=
| BundleError (error : string)      (* [result.error] is set *)
| BundleResult (result : Result.t).

(** The transpiler and the process environment [compileApp] reads. *)
Record Transpiler := {
  NODE_ENV : option string;
  UNI_AUTOMATOR_WS_ENDPOINT : option string;
  resolveUniAppXSourceMapPath : string -> string;
  (** [bundle(UTSTarget.KOTLIN, options)]: answers and writes the Kotlin
      sources to the disk. *)
  bundle : BundleOptions.t -> Files -> option BundleAnswer * Files
}.

(** What [compileApp] throws. *)
Inductive AppFault :=
| UTSSyntaxError (error inputDir : string)   (* [parseUTSSyntaxError(error, inputDir)] *)
| CycleFault (f : Fault).

Inductive AppOutcome :=
| Returned (result : option Result.t)
| Raised (f : AppFault).

Section CompileApp.

Variable P : Platform.
Variable T : Transpiler.

Definition isProd : bool :=
  negb (bool_decide (NODE_ENV T = Some "development")).

Definition bundleOptions (entry : string) (options : Options.t) : BundleOptions.t :=
  let outputDir := Options.outputDir options in
  {| BundleOptions.root := Options.inputDir options;
     BundleOptions.filename := entry;
     BundleOptions.uniModules := Options.uni_modules options;
     BundleOptions.env_NODE_ENV := NODE_ENV T;
     BundleOptions.env_UNI_AUTOMATOR_WS_ENDPOINT :=
       orElse (UNI_AUTOMATOR_WS_ENDPOINT T) EmptyString;
     BundleOptions.outDir :=
       if isProd
       then kotlinSrcDir P (path_resolve P [outputDir; ".uniappx/android/"])
       else kotlinSrcDir P (kotlinDir P outputDir);
     BundleOptions.package := Options.package options;
     BundleOptions.sourceMap :=
       if Options.sourceMap options
       then Some (resolveUniAppXSourceMapPath T (kotlinDir P outputDir))
       else None;
     BundleOptions.imports := DEFAULT_IMPORTS;
     BundleOptions.split :=
       match Options.split options with Some true => true | _ => false end;
     BundleOptions.disableSplitManifest := Options.disableSplitManifest options |}.

(** [runKotlinBuild] is a stub: it resolves to [undefined]. *)
Definition runKotlinBuild (options : Options.t) (result : Result.t) : M unit :=
  mret tt.

Definition compileApp (entry : string) (options : Options.t)
    : World -> AppOutcome * World :=
  fun w =>
    let '(answer, disk) := bundle T (bundleOptions entry options) (files w) in
    let w := setFiles disk w in
    match answer with
    | None => (Returned None, w)
    | Some (BundleError error) => (Raised (UTSSyntaxError error (Options.inputDir options)), w)
    | Some (BundleResult result) =>
        if isProd then
          match runKotlinBuild options result w with
          | (Ok _, w') => (Returned None, w')
          | (Throw e, w') => (Raised (CycleFault e), w')
          end
        else
          match runKotlinDev P options result w with
          | (Ok result', w') => (Returned (Some result'), w')
          | (Throw e, w') => (Raised (CycleFault e), w')
          end
    end.

End CompileApp.

(** *** The mini-program plugin: [uniad_app_json] *)

Module AppJson.

Record Plugin := {
  version : string;
  provider : string
}.

(** The two fields of [app.json] the function reads and writes. *)
Record t := {
  plugins : option (gmap string Plugin);
  usingComponents : option (gmap string string)
}.

End AppJson.

(** [if (!obj[key]) obj[key] = value] on an object of objects. *)
Definition ensurePlugin (key : string) (value : AppJson.Plugin)
    (obj : gmap string AppJson.Plugin) : gmap string AppJson.Plugin :=
  match obj !! key with
  | Some _ => obj
  | None => <[key := value]> obj
  end.

(** The same on an object of strings, where the empty string is falsy. *)
Definition ensureComponent (key value : string) (obj : gmap string string)
    : gmap string string :=
  if truthyString (obj !! key) then obj else <[key := value]> obj.

Definition uniad_app_json (appJson : AppJson.t) : AppJson.t :=
  let plugins := default ∅ (AppJson.plugins appJson) in
  let plugins :=
    ensurePlugin "uni-ad"
      {| AppJson.version := "1.0.3"; AppJson.provider := "wx999bf02c8e05dfc9" |} plugins in
  let plugins :=
    ensurePlugin "coral-adv"
      {| AppJson.version := "1.0.7"; AppJson.provider := "wx0e203209e27b1e66" |} plugins in
  let usingComponents := default ∅ (AppJson.usingComponents appJson) in
  let usingComponents :=
    ensureComponent "uniad-plugin" "plugin://uni-ad/ad" usingComponents in
  {| AppJson.plugins := Some plugins; AppJson.usingComponents := Some usingComponents |}.

(** *** The mini-program plugin: [transformAd] *)

Definition AD_COMPONENTS : list string :=
  ["uniad"; "ad-rewarded-video"; "ad-fullscreen-video"; "ad-interstitial"].

(** A template node, as far as [transformAd] looks at it: whether it is an
    element node, its tag and tag type, and whether [findProp(node, 'adpid')]
    finds a prop. *)
Module Node.
Record t := {
  isElementNode : bool;
  tag : string;
  tagType : Z;
  adpidProp : bool
}.
End Node.

(** The module-level flag and the [app.json] object that
    [findJsonFile('app')] hands out. *)
Record AdState := {
  appJsonUniadFlag : bool;
  appJson : AppJson.t
}.

Definition transformAd (node : Node.t) (st : AdState) : Node.t * AdState :=
  if negb (Node.isElementNode node) then (node, st)
  else
    let node :=
      if String.eqb (Node.tag node) "ad" && Node.adpidProp node
      then {| Node.isElementNode := Node.isElementNode node;
              Node.tag := "uniad";
              Node.tagType := 1;
              Node.adpidProp := Node.adpidProp node |}
      else node in
    if appJsonUniadFlag st then (node, st)
    else if bool_decide (Node.tag node ∈ AD_COMPONENTS)
    then (node, {| appJsonUniadFlag := true; appJson := uniad_app_json (appJson st) |})
    else (node, st).

(** The transform applied to the nodes of a traversal, in order. *)
Fixpoint transformAds (nodes : list Node.t) (st : AdState) : list Node.t * AdState :=
  match nodes with
  | [] => ([], st)
  | node :: rest =>
      let '(node', st') := transformAd node st in
      let '(rest', st'') := transformAds rest st' in
      (node' :: rest', st'')
  end.

(** Whether a node makes [transformAd] declare the ad plugins: an element
    node whose tag, after the renaming of [ad], is an ad component. *)
Definition isAdNode (node : Node.t) : bool :=
  Node.isElementNode node
  && (bool_decide (Node.tag node ∈ AD_COMPONENTS)
      || (String.eqb (Node.tag node) "ad" && Node.adpidProp node)).

(** *** The mini-program plugin: [component.normalizeName] *)

Definition normalizeName (name : string) : string :=
  if Str.startsWith "wx-" name then Str.replace "wx-" "weixin-" name else name.

(** * Properties *)

(** ** The path functions on a few inputs *)

Example resolve_ex1 :
  NodePath.resolve "/home/u" ["/p/dist/dev"; "../.kotlin"] = "/p/dist/.kotlin".
Proof. reflexivity. Qed.

Example resolve_ex2 :
  NodePath.resolve "/home/u" ["out"; "a/./b//c.kt"] = "/home/u/out/a/b/c.kt".
Proof. reflexivity. Qed.

Example join_ex1 :
  NodePath.join ["/k/dex/pages/a"; "classes.dex"] = "/k/dex/pages/a/classes.dex".
Proof. reflexivity. Qed.

Example replace_ex1 : Str.replace ".kt" EmptyString "/k.kt/a.kt" = "/k/a.kt".
Proof. reflexivity. Qed.

(** ** [String.prototype.replace] with a string pattern

    The pattern is looked for from the left: when [pat] occurs after [before]
    and at no earlier position, that occurrence is the one replaced. *)

Lemma startsWith_app pat s : Str.startsWith pat (pat +:+ s) = true.
Proof.
  induction pat as [|c pat IH]; simpl; [reflexivity|].
  now rewrite Ascii.eqb_refl.
Qed.

Lemma slice_app pat s : Str.slice (String.length pat) (pat +:+ s) = s.
Proof. induction pat as [|c pat IH]; simpl; auto. Qed.

Lemma replace_unfold pat rep s :
  Str.replace pat rep s
  = if Str.startsWith pat s then rep +:+ Str.slice (String.length pat) s
    else match s with
         | EmptyString => EmptyString
         | String c s' => String c (Str.replace pat rep s')
         end.
Proof. destruct s; reflexivity. Qed.

Lemma replace_first_occurrence pat rep before after :
  (forall a1 c a2, before = a1 +:+ String c a2 ->
     Str.startsWith pat (String c a2 +:+ pat +:+ after) = false) ->
  Str.replace pat rep (before +:+ pat +:+ after) = before +:+ rep +:+ after.
Proof.
  induction before as [|c before IH]; intros Hfirst.
  - change (EmptyString +:+ pat +:+ after) with (pat +:+ after).
    change (EmptyString +:+ rep +:+ after) with (rep +:+ after).
    now rewrite replace_unfold, startsWith_app, slice_app.
  - rewrite replace_unfold. rewrite (Hfirst EmptyString c before eq_refl).
    change (String c before +:+ pat +:+ after) with (String c (before +:+ pat +:+ after)).
    change (String c before +:+ rep +:+ after) with (String c (before +:+ rep +:+ after)).
    cbv iota. f_equal. apply IH. intros a1 c' a2 Heq.
    apply (Hfirst (String c a1) c' a2). cbn [String.append]. now rewrite Heq.
Qed.

(** ** Running the monad *)

Ltac run :=
  unfold mbind, mret, M_bind, M_ret, throw, fs.existsSync, fs.unlinkSync,
    fs.copySync, fs.readFileSync, fs.writeFileSync, console_error in *;
  simpl in *.

Lemma bind_ok {A B} (m : M A) (k : A -> M B) w a w' :
  m w = (Ok a, w') -> (m ≫= k) w = k a w'.
Proof. intros H. unfold mbind, M_bind. now rewrite H. Qed.

Lemma bind_throw {A B} (m : M A) (k : A -> M B) w e w' :
  m w = (Throw e, w') -> (m ≫= k) w = (Throw e, w').
Proof. intros H. unfold mbind, M_bind. now rewrite H. Qed.

Lemma forEachAcc_app {A S} (f : S -> A -> M S) l1 l2 acc w :
  forEachAcc f (l1 ++ l2) acc w
  = (acc' ← forEachAcc f l1 acc; forEachAcc f l2 acc') w.
Proof.
  revert acc w. induction l1 as [|x l1 IH]; intros acc w; simpl.
  - reflexivity.
  - unfold mbind, M_bind in *. destruct (f acc x w) as [[a|e] w1]; [apply IH|reflexivity].
Qed.

(** A Hoare-style rule for [forEach]: an invariant kept by every callback
    that returns normally is kept by the loop, which then returns normally. *)
Lemma forEachAcc_invariant {A S} (f : S -> A -> M S) (Inv : S -> World -> Prop) l :
  (forall acc w x, x ∈ l -> Inv acc w ->
     exists acc' w', f acc x w = (Ok acc', w') /\ Inv acc' w') ->
  forall acc w, Inv acc w ->
    exists acc' w', forEachAcc f l acc w = (Ok acc', w') /\ Inv acc' w'.
Proof.
  induction l as [|x l IH]; intros Hstep acc w HI; simpl.
  - eauto.
  - destruct (Hstep acc w x) as (acc1 & w1 & E1 & HI1); [left|assumption|].
    destruct (IH (fun a w0 y Hy => Hstep a w0 y (list_elem_of_further _ _ _ Hy)) acc1 w1 HI1)
      as (acc2 & w2 & E2 & HI2).
    exists acc2, w2. split; [|assumption].
    rewrite (bind_ok _ _ _ _ _ E1). exact E2.
Qed.

(** ** Paths *)

Lemma resolveLoop_absolute cwd revArgs acc :
  NodePath.isAbsolute cwd = true ->
  (NodePath.resolveLoop cwd revArgs acc).2 = true.
Proof.
  intros Habs. revert acc. induction revArgs as [|p rest IH]; intros acc; simpl.
  - destruct cwd; [discriminate|]. simpl. exact Habs.
  - destruct (Str.isEmpty p); [apply IH|].
    destruct (NodePath.isAbsolute p); [reflexivity|apply IH].
Qed.

Lemma resolve_absolute cwd args :
  NodePath.isAbsolute cwd = true ->
  NodePath.isAbsolute (NodePath.resolve cwd args) = true.
Proof.
  intros Habs. unfold NodePath.resolve.
  pose proof (resolveLoop_absolute cwd (rev args) EmptyString Habs) as H.
  destruct (NodePath.resolveLoop cwd (rev args) EmptyString) as [p b].
  simpl in H. subst b. reflexivity.
Qed.

(** ** The changed-list step of the resolver *)

Section Resolver.

Variable P : Platform.
Variables kotlinSrcOutDir kotlinDexOutDir outputDir : string.

Abbreviation src := (fun file => path_resolve P [kotlinSrcOutDir; file]).
Abbreviation dex := (resolveDexByKotlinFile P kotlinDexOutDir).
Abbreviation target := (resolveDexByKotlinFile P outputDir).

Lemma changedFile_run file w :
  changedFile P kotlinSrcOutDir kotlinDexOutDir file w
  = (Ok (src file), dropStale (dex file) w).
Proof.
  unfold changedFile, dropStale. run.
  destruct (files w !! dex file) as [c|] eqn:E.
  - rewrite bool_decide_true by eauto. now rewrite E.
  - rewrite bool_decide_false; [reflexivity|]. intros [? ?]; discriminate.
Qed.

Lemma mapM_changedFile_run changed w :
  mapM_ (changedFile P kotlinSrcOutDir kotlinDexOutDir) changed w
  = (Ok (map src changed), staleSweep P kotlinDexOutDir changed w).
Proof.
  revert w. induction changed as [|f l IH]; intros w; simpl.
  - reflexivity.
  - rewrite (bind_ok _ _ _ _ _ (changedFile_run f w)).
    rewrite (bind_ok _ _ _ _ _ (IH _)). reflexivity.
Qed.

Lemma files_dropStale p w q :
  files (dropStale p w) !! q = if decide (p = q) then None else files w !! q.
Proof.
  unfold dropStale. destruct (files w !! p) as [c|] eqn:E; simpl.
  - rewrite lookup_delete. reflexivity.
  - destruct (decide (p = q)); subst; auto.
Qed.

Lemma files_staleSweep changed w q :
  files (staleSweep P kotlinDexOutDir changed w) !! q
  = if decide (q ∈ map dex changed) then None else files w !! q.
Proof.
  revert w. induction changed as [|f l IH]; intros w; simpl.
  - destruct (decide (q ∈ [])) as [H|H]; [inversion H|reflexivity].
  - unfold staleSweep in *. simpl. rewrite IH. rewrite files_dropStale.
    destruct (decide (q ∈ map dex l)) as [H|H].
    + rewrite decide_True; [reflexivity|]. now right.
    + destruct (decide (dex f = q)) as [->|Hne].
      * rewrite decide_True; [reflexivity|]. left.
      * rewrite decide_False; [reflexivity|].
        intros Hin. apply elem_of_cons in Hin as [->|Hin]; congruence.
Qed.

(** The changed-list step only unlinks, and it unlinks every cached
    artifact of a changed file that was on the disk. *)
Lemma events_staleSweep changed w :
  exists evs,
    events (staleSweep P kotlinDexOutDir changed w) = events w ++ evs
    /\ Forall (fun e => exists f, f ∈ changed /\ e = EUnlink (dex f)) evs
    /\ (forall f, f ∈ changed -> is_Some (files w !! dex f) -> EUnlink (dex f) ∈ evs).
Proof.
  revert w. induction changed as [|f l IH]; intros w.
  - exists []. simpl. rewrite app_nil_r. repeat split; [constructor|].
    intros f Hf. inversion Hf.
  - unfold staleSweep in *. simpl.
    destruct (IH (dropStale (dex f) w)) as (evs & Hev & Hall & Hin).
    unfold dropStale in *.
    destruct (files w !! dex f) as [c|] eqn:E.
    + exists (EUnlink (dex f) :: evs). simpl in Hev. rewrite Hev.
      rewrite <- app_assoc. simpl. split; [reflexivity|]. split.
      * constructor; [exists f; split; [left|reflexivity]|].
        eapply Forall_impl; [exact Hall|]. intros e (g & Hg & ->).
        exists g. split; [now right|reflexivity].
      * intros g Hg Hsome. destruct (decide (dex g = dex f)) as [->|Hne]; [left|].
        right. apply elem_of_cons in Hg as [->|Hg]; [congruence|].
        apply Hin; [assumption|]. simpl. now rewrite lookup_delete_ne by congruence.
    + exists evs. split; [assumption|]. split.
      * eapply Forall_impl; [exact Hall|]. intros e (g & Hg & ->).
        exists g. split; [now right|reflexivity].
      * intros g Hg Hsome. apply elem_of_cons in Hg as [->|Hg].
        -- rewrite E in Hsome. destruct Hsome; discriminate.
        -- now apply Hin.
Qed.

(** *** The entry-and-chunks step *)

Lemma chunkFileStep_run acc chunk w :
  chunkFileStep P kotlinSrcOutDir kotlinDexOutDir outputDir acc chunk w
  = if bool_decide (src chunk ∈ acc) then (Ok acc, w)
    else match files w !! dex chunk with
         | Some content =>
             (Ok acc,
              match files w !! target chunk with
              | Some _ => w
              | None => emit (ECopy (dex chunk) (target chunk))
                          (setFiles (<[target chunk := content]> (files w)) w)
              end)
         | None => (Ok (acc ++ [src chunk]), w)
         end.
Proof.
  unfold chunkFileStep, Str.includes.
  destruct (bool_decide (src chunk ∈ acc)); [reflexivity|]. run.
  destruct (files w !! dex chunk) as [content|] eqn:Ed.
  - rewrite bool_decide_true by eauto.
    destruct (files w !! target chunk) as [t|] eqn:Et.
    + rewrite bool_decide_true by eauto. reflexivity.
    + rewrite bool_decide_false by (intros [? ?]; discriminate).
      rewrite Ed. rewrite decide_False; [reflexivity|].
      intros Heq. rewrite Heq in Ed. congruence.
  - rewrite bool_decide_false by (intros [? ?]; discriminate). reflexivity.
Qed.

Lemma chunkInv_refl chunks acc0 w0 : chunkInv P kotlinSrcOutDir kotlinDexOutDir outputDir chunks acc0 w0 acc0 w0.
Proof.
  repeat split.
  - exists []. rewrite app_nil_r. repeat split; [constructor|auto].
  - auto.
  - intros p Hn [x Hs]. congruence.
  - exists []. rewrite app_nil_r. split; [reflexivity|constructor].
Qed.

Lemma chunkInv_step chunks acc0 w0 acc w chunk :
  chunk ∈ chunks -> chunkInv P kotlinSrcOutDir kotlinDexOutDir outputDir chunks acc0 w0 acc w ->
  exists acc' w',
    chunkFileStep P kotlinSrcOutDir kotlinDexOutDir outputDir acc chunk w = (Ok acc', w')
    /\ chunkInv P kotlinSrcOutDir kotlinDexOutDir outputDir chunks acc0 w0 acc' w'.
Proof.
  intros Hc ((extra & -> & Hex & Hnd) & Hmono & Hnew & (evs & Hev & Hevs)).
  rewrite chunkFileStep_run.
  destruct (bool_decide (src chunk ∈ acc0 ++ extra)) eqn:Ein.
  { do 2 eexists. split; [reflexivity|].
    repeat split; eauto. }
  apply bool_decide_eq_false in Ein.
  destruct (files w !! dex chunk) as [content|] eqn:Ed.
  - destruct (files w !! target chunk) as [t|] eqn:Et.
    { do 2 eexists. split; [reflexivity|]. repeat split; eauto. }
    do 2 eexists. split; [reflexivity|].
    assert (Ht0 : files w0 !! target chunk = None).
    { destruct (files w0 !! target chunk) as [t0|] eqn:E0; [|reflexivity].
      apply Hmono in E0. congruence. }
    repeat split; simpl.
    + eauto.
    + intros p c0 Hp. destruct (decide (target chunk = p)) as [<-|Hne]; [congruence|].
      rewrite lookup_insert_ne by assumption. now apply Hmono.
    + intros p Hp Hs. destruct (decide (target chunk = p)) as [<-|Hne]; [eauto|].
      rewrite lookup_insert_ne in Hs by assumption. now apply Hnew.
    + exists (evs ++ [ECopy (dex chunk) (target chunk)]).
      rewrite Hev, app_assoc. split; [reflexivity|].
      apply Forall_app. split; [assumption|]. constructor; [|constructor]. eauto.
  - do 2 eexists. split; [reflexivity|].
    repeat split; eauto.
    exists (extra ++ [src chunk]). rewrite app_assoc. split; [reflexivity|]. split.
    + apply Forall_app. split; [assumption|]. constructor; [eauto|constructor].
    + intros Hnd0. apply NoDup_app. split; [now apply Hnd|]. split.
      * intros x Hx Hx'. apply list_elem_of_singleton in Hx'. subst. contradiction.
      * apply NoDup_singleton.
Qed.

Lemma chunkLoop_run chunks acc0 w0 :
  exists acc w,
    forEachAcc (chunkFileStep P kotlinSrcOutDir kotlinDexOutDir outputDir) chunks acc0 w0
    = (Ok acc, w)
    /\ chunkInv P kotlinSrcOutDir kotlinDexOutDir outputDir chunks acc0 w0 acc w.
Proof.
  apply (forEachAcc_invariant _ (chunkInv P kotlinSrcOutDir kotlinDexOutDir outputDir chunks acc0 w0)).
  - intros acc w x Hx HI. now apply chunkInv_step.
  - apply chunkInv_refl.
Qed.

End Resolver.

(** *** The resolver as a whole *)

Lemma parseKotlinChangedFiles_run P result kotlinSrcOutDir kotlinDexOutDir outputDir w :
  exists cs w',
    parseKotlinChangedFiles P result kotlinSrcOutDir kotlinDexOutDir outputDir w = (Ok cs, w')
    /\ chunkInv P kotlinSrcOutDir kotlinDexOutDir outputDir (chunkList result)
         (map (fun file => path_resolve P [kotlinSrcOutDir; file]) (Result.changed result))
         (staleSweep P kotlinDexOutDir (Result.changed result) w) cs w'.
Proof.
  unfold parseKotlinChangedFiles.
  destruct (chunkLoop_run P kotlinSrcOutDir kotlinDexOutDir outputDir (chunkList result)
              (map (fun file => path_resolve P [kotlinSrcOutDir; file]) (Result.changed result))
              (staleSweep P kotlinDexOutDir (Result.changed result) w))
    as (cs & w' & E & HI).
  exists cs, w'. split; [|exact HI].
  rewrite (bind_ok _ _ _ _ _ (mapM_changedFile_run P _ _ _ w)). exact E.
Qed.

(** The effects of the resolver: unlinks of stale cached artifacts, then
    promotions; it never calls the driver and never prints. *)
Lemma parseKotlinChangedFiles_events P result kotlinSrcOutDir kotlinDexOutDir outputDir w cs w' :
  parseKotlinChangedFiles P result kotlinSrcOutDir kotlinDexOutDir outputDir w = (Ok cs, w') ->
  exists evs,
    events w' = events w ++ evs
    /\ Forall (fun e => isCompile e = false) evs
    /\ consoleErrors evs = []
    /\ (forall file, file ∈ Result.changed result ->
          is_Some (files w !! resolveDexByKotlinFile P kotlinDexOutDir file) ->
          EUnlink (resolveDexByKotlinFile P kotlinDexOutDir file) ∈ evs).
Proof.
  intros E.
  destruct (parseKotlinChangedFiles_run P result kotlinSrcOutDir kotlinDexOutDir outputDir w)
    as (cs0 & w0 & E0 & (_ & _ & _ & (evs2 & Hev2 & Hall2))).
  rewrite E in E0. injection E0 as <- <-.
  destruct (events_staleSweep P kotlinDexOutDir (Result.changed result) w)
    as (evs1 & Hev1 & Hall1 & Hin1).
  exists (evs1 ++ evs2). rewrite Hev2, Hev1, app_assoc. split; [reflexivity|].
  split; [|split].
  - apply Forall_app. split.
    + eapply Forall_impl; [exact Hall1|]. intros e (f & _ & ->). reflexivity.
    + eapply Forall_impl; [exact Hall2|]. intros e (c & _ & -> & _). reflexivity.
  - unfold consoleErrors. rewrite omap_app.
    assert (H1 : omap (fun e => match e with EConsoleError m => Some m | _ => None end) evs1 = []).
    { clear -Hall1. induction Hall1 as [|e l (f & _ & ->) _ IH]; [reflexivity|exact IH]. }
    assert (H2 : omap (fun e => match e with EConsoleError m => Some m | _ => None end) evs2 = []).
    { clear -Hall2. induction Hall2 as [|e l (c & _ & -> & _) _ IH]; [reflexivity|exact IH]. }
    now rewrite H1, H2.
  - intros f Hf Hs. apply elem_of_app. left. now apply Hin1.
Qed.

(** ** The cycle *)

Section Cycle.

Variable P : Platform.
Variable options : Options.t.
Variable result : Result.t.

Abbreviation mainFile filename := (path_resolve P [srcOutDir P options; filename]).

(** [runKotlinDev] is its resolver, then the guard, then the driver, then
    [afterDriver]. *)
Lemma runKotlinDev_unfold w :
  runKotlinDev P options result w
  = match resolveChangeSet P options result w with
    | (Throw e, w1) => (Throw e, w1)
    | (Ok cs, w1) =>
        match Result.filename result with
        | None => (Throw ERR_INVALID_ARG_TYPE, w1)
        | Some filename =>
            if negb (Nat.eqb (length cs) 0)
               && bool_decide (is_Some (files w1 !! mainFile filename))
            then match getCompilerServer P with
                 | None => (Throw ExtensionNotInstalled, w1)
                 | Some server =>
                     let '(r, disk) :=
                       compile server
                         (compileOptions P server cs (rootOutDir P options)
                            (srcOutDir P options) (dexOutDir P options)
                            (Options.outputDir options))
                         (Options.inputDir options) (files w1) in
                     afterDriver P options result r
                       (setFiles disk
                          (emit (ECompile
                                   (compileOptions P server cs (rootOutDir P options)
                                      (srcOutDir P options) (dexOutDir P options)
                                      (Options.outputDir options))
                                   (Options.inputDir options)) w1))
                 end
            else (Ok (Result.setType "kotlin" result), w1)
        end
    end.
Proof.
  unfold runKotlinDev, resolveChangeSet, srcOutDir, dexOutDir, rootOutDir.
  unfold mbind at 1. unfold M_bind at 1.
  destruct (parseKotlinChangedFiles P _ _ _ _ w) as [[cs|e] w1]; [|reflexivity].
  change (Result.filename (Result.setType "kotlin" result)) with (Result.filename result).
  destruct (Result.filename result) as [filename|]; [|reflexivity].
  unfold mbind at 1. unfold M_bind at 1. unfold fs.existsSync at 1.
  destruct (negb (length cs =? 0)%nat
            && bool_decide (is_Some (files w1 !! path_resolve P
                 [kotlinSrcDir P (kotlinDir P (Options.outputDir options)); filename])));
    [|reflexivity].
  destruct (getCompilerServer P) as [server|]; [|reflexivity].
  unfold mbind at 1. unfold M_bind at 1. unfold compileDex at 1.
  destruct (compile server _ _ (files w1)) as [r disk].
  unfold afterDriver, srcOutDir, dexOutDir, rootOutDir.
  destruct (dexSucceeded r); reflexivity.
Qed.

Lemma runKotlinDev_driverCall w cs r w2 :
  driverCall P options result w = Some (cs, r, w2) ->
  runKotlinDev P options result w = afterDriver P options result r w2.
Proof.
  rewrite runKotlinDev_unfold. unfold driverCall.
  destruct (resolveChangeSet P options result w) as [[cs0|e] w1]; [|discriminate].
  destruct (Result.filename result) as [filename|]; [|discriminate].
  destruct (getCompilerServer P) as [server|]; [|discriminate].
  destruct (negb (length cs0 =? 0)%nat && _); [|discriminate].
  unfold compileDex. destruct (compile server _ _ (files w1)) as [r0 disk].
  intros [= <- <- <-]. reflexivity.
Qed.

(** When the driver is reached, it is reached after the resolver, with a
    non-empty change set and an existing entry file, and the call is the
    one new effect. *)
Lemma driverCall_Some w cs r w2 :
  driverCall P options result w = Some (cs, r, w2) ->
  exists w1 filename server,
    resolveChangeSet P options result w = (Ok cs, w1)
    /\ Result.filename result = Some filename
    /\ getCompilerServer P = Some server
    /\ cs <> []
    /\ is_Some (files w1 !! mainFile filename)
    /\ (let o := compileOptions P server cs (rootOutDir P options)
                   (srcOutDir P options) (dexOutDir P options)
                   (Options.outputDir options) in
        compile server o (Options.inputDir options) (files w1) = (r, files w2)
        /\ events w2 = events w1 ++ [ECompile o (Options.inputDir options)]).
Proof.
  unfold driverCall.
  destruct (resolveChangeSet P options result w) as [[cs0|e] w1]; [|discriminate].
  destruct (Result.filename result) as [filename|]; [|discriminate].
  destruct (getCompilerServer P) as [server|]; [|discriminate].
  destruct (negb (length cs0 =? 0)%nat) eqn:Elen; [|discriminate].
  destruct (bool_decide (is_Some (files w1 !! mainFile filename))) eqn:Emain; [|discriminate].
  simpl. unfold compileDex.
  destruct (compile server _ _ (files w1)) as [r0 disk] eqn:Ec.
  intros [= <- <- <-].
  exists w1, filename, server. repeat split; try reflexivity.
  - intros ->. discriminate.
  - now apply bool_decide_eq_true in Emain.
  - exact Ec.
Qed.

(** *** The failure branch *)

Lemma dexFailure_run kotlinSrcOutDir r res w :
  dexFailure P kotlinSrcOutDir r res w
  = match Result.changed res with
    | [] => (Ok res, logMessage r w)
    | _ :: _ =>
        match files w !! manifestFile P kotlinSrcOutDir with
        | None => (Ok (Result.setChanged [] res), logMessage r w)
        | Some text =>
            match JSON_parse P text with
            | None => (Throw SyntaxError, w)
            | Some manifest =>
                let data := JSON_stringify P (deleteKeys (Result.changed res) manifest) in
                (Ok (Result.setChanged [] res),
                 logMessage r
                   (emit (EWriteFile (manifestFile P kotlinSrcOutDir) data)
                      (setFiles (<[manifestFile P kotlinSrcOutDir := data]> (files w)) w)))
            end
        end
    end.
Proof.
  assert (Hlog : forall (res' : Result.t) w0,
    ((match DexResult.msg r with
      | Some m => if truthyString (Some m) then console_error m else mret tt
      | None => mret tt
      end) ≫= (fun _ : unit => mret res')) w0 = (Ok res', logMessage r w0)).
  { intros res' w0. unfold logMessage. destruct (DexResult.msg r) as [m|]; [|reflexivity].
    simpl. destruct (Str.isEmpty m); reflexivity. }
  unfold dexFailure.
  destruct (Result.changed res) as [|f l] eqn:Ech.
  - simpl. unfold mbind at 1. unfold M_bind at 1. simpl. apply Hlog.
  - simpl negb. cbv iota.
    unfold mbind at 1. unfold M_bind at 1.
    unfold readKotlinManifestJson, writeKotlinManifestJson. run.
    destruct (files w !! manifestFile P kotlinSrcOutDir) as [text|] eqn:Em.
    + rewrite bool_decide_true by eauto. rewrite Em.
      destruct (JSON_parse P text) as [manifest|]; [|reflexivity].
      simpl. apply Hlog.
    + rewrite bool_decide_false by (intros [? ?]; discriminate). apply Hlog.
Qed.

End Cycle.

(** *** The success branch: mirroring the produced artifacts *)

Section Sync.

Variable P : Platform.
Variables kotlinDexOutDir outputDir : string.

Abbreviation cached d := (path_resolve P [kotlinDexOutDir; d]).
Abbreviation deployed d := (path_resolve P [outputDir; d]).

Lemma syncDexList_cons d dexList w :
  syncDexList P (d :: dexList) kotlinDexOutDir outputDir w
  = match files w !! cached d with
    | None => (Throw (ENOENT (cached d)), w)
    | Some content =>
        if decide (cached d = deployed d) then (Throw (ESameFile (cached d)), w)
        else syncDexList P dexList kotlinDexOutDir outputDir
               (emit (ECopy (cached d) (deployed d))
                  (setFiles (<[deployed d := content]> (files w)) w))
    end.
Proof.
  unfold syncDexList. simpl. unfold mbind at 1. unfold M_bind at 1.
  unfold syncDex, fs.copySync.
  destruct (files w !! cached d) as [content|]; [|reflexivity].
  destruct (decide (cached d = deployed d)); reflexivity.
Qed.

(** After a mirroring that returned, every listed artifact is on the disk
    under both directories and was copied from the first to the second;
    nothing that was on the disk has been removed. *)
Lemma syncDexList_post dexList w w' :
  syncDexList P dexList kotlinDexOutDir outputDir w = (Ok tt, w') ->
  (forall p, is_Some (files w !! p) -> is_Some (files w' !! p))
  /\ (exists evs, events w' = events w ++ evs
        /\ Forall (fun e => isCompile e = false) evs
        /\ consoleErrors evs = []
        /\ forall d, d ∈ dexList -> ECopy (cached d) (deployed d) ∈ evs)
  /\ (forall d, d ∈ dexList ->
        is_Some (files w' !! cached d) /\ is_Some (files w' !! deployed d)).
Proof.
  revert w. induction dexList as [|d l IH]; intros w.
  - intros [= <-]. split; [auto|]. split.
    + exists []. rewrite app_nil_r. repeat split; [constructor|].
      intros d Hd. inversion Hd.
    + intros d Hd. inversion Hd.
  - rewrite syncDexList_cons.
    destruct (files w !! cached d) as [content|] eqn:Ec; [|discriminate].
    destruct (decide (cached d = deployed d)) as [|Hne]; [discriminate|].
    intros E. apply IH in E as (Hkeep & (evs & Hev & Hnc & Hce & Hcopy) & Hboth).
    simpl in Hkeep, Hev.
    assert (Hkeep' : forall p, is_Some (files w !! p) -> is_Some (files w' !! p)).
    { intros p Hp. apply Hkeep. destruct (decide (deployed d = p)) as [<-|Hn].
      - rewrite lookup_insert_eq. eauto.
      - now rewrite lookup_insert_ne. }
    split; [exact Hkeep'|]. split.
    + exists (ECopy (cached d) (deployed d) :: evs).
      rewrite Hev, <- app_assoc. repeat split.
      * constructor; [reflexivity|assumption].
      * exact Hce.
      * intros d' Hd'. apply elem_of_cons in Hd' as [->|Hd']; [left|right; auto].
    + intros d' Hd'. apply elem_of_cons in Hd' as [->|Hd']; [|auto].
      split.
      * apply Hkeep'. eauto.
      * apply Hkeep. rewrite lookup_insert_eq. eauto.
Qed.

(** The mirroring returns when every listed artifact is in the cache and
    its two paths differ. *)
Lemma syncDexList_returns dexList w :
  (forall d, d ∈ dexList -> is_Some (files w !! cached d) /\ cached d <> deployed d) ->
  exists w', syncDexList P dexList kotlinDexOutDir outputDir w = (Ok tt, w').
Proof.
  revert w. induction dexList as [|d l IH]; intros w Hall.
  - eexists. reflexivity.
  - rewrite syncDexList_cons.
    destruct (Hall d) as ([content Ec] & Hne); [left|].
    rewrite Ec. rewrite decide_False by assumption.
    apply IH. intros d' Hd'. destruct (Hall d') as (Hs & Hn); [now right|].
    split; [|assumption]. simpl.
    destruct (decide (deployed d = cached d')) as [<-|Hx].
    + rewrite lookup_insert_eq. eauto.
    + now rewrite lookup_insert_ne.
Qed.

End Sync.

(** *** Deleting keys from the manifest *)

Lemma lookup_deleteKeys keys (manifest : Manifest) k :
  deleteKeys keys manifest !! k = if decide (k ∈ keys) then None else manifest !! k.
Proof.
  unfold deleteKeys. revert manifest.
  induction keys as [|f keys IH]; intros manifest.
  - destruct (decide (k ∈ [])) as [Hin|_]; [inversion Hin|reflexivity].
  - cbn [fold_left]. rewrite IH.
    destruct (decide (k ∈ keys)) as [Hin|Hnin].
    + destruct (decide (k ∈ f :: keys)) as [_|Hn]; [reflexivity|].
      exfalso. apply Hn. now right.
    + destruct (decide (f = k)) as [->|Hne].
      * destruct (decide (k ∈ k :: keys)) as [_|Hn]; [apply lookup_delete_eq|].
        exfalso. apply Hn. left.
      * destruct (decide (k ∈ f :: keys)) as [Hin|_].
        -- apply elem_of_cons in Hin as [->|Hin]; congruence.
        -- now apply lookup_delete_ne.
Qed.

(** * The properties of the specification *)

(** ** C2: the path of a dex artifact *)

(** Where [.kt] occurs only as the extension, the source and the spec's
    derivation agree. *)
Example resolveDexByKotlinFile_plain :
  resolveDexByKotlinFile (Demo.platform None None) "/p/dist/.kotlin/dex" "pages/a.kt"
  = "/p/dist/.kotlin/dex/pages/a/classes.dex"
  /\ artifactPathFor (Demo.platform None None) "/p/dist/.kotlin/dex" "pages/a.kt"
     = "/p/dist/.kotlin/dex/pages/a/classes.dex".
Proof. split; reflexivity. Qed.

(** C2. The dex artifact path is meant to be the relative path without its
    [.kt] extension, under the base directory, followed by [classes.dex].
    [resolveDexByKotlinFile] calls [replace('.kt', '')] on the resolved path,
    which removes the FIRST occurrence of [.kt] anywhere in it: with a base
    directory under [/home/dev/demo.kt], or with a relative path through a
    directory [v1.kts], the extension stays and another part of the path is
    cut, so the two derivations differ. *)
Theorem resolveDexByKotlinFile_cuts_first_occurrence :
  (resolveDexByKotlinFile (Demo.platform None None)
     "/home/dev/demo.kt/unpackage/.kotlin/dex" "index.kt"
   = "/home/dev/demo/unpackage/.kotlin/dex/index.kt/classes.dex"
   /\ artifactPathFor (Demo.platform None None)
        "/home/dev/demo.kt/unpackage/.kotlin/dex" "index.kt"
      = "/home/dev/demo.kt/unpackage/.kotlin/dex/index/classes.dex")
  /\ (resolveDexByKotlinFile (Demo.platform None None)
        "/p/dist/.kotlin/dex" "pages/v1.kts/index.kt"
      = "/p/dist/.kotlin/dex/pages/v1s/index.kt/classes.dex"
      /\ artifactPathFor (Demo.platform None None)
           "/p/dist/.kotlin/dex" "pages/v1.kts/index.kt"
         = "/p/dist/.kotlin/dex/pages/v1.kts/index/classes.dex").
Proof. repeat split; reflexivity. Qed.

(** ** C10: reading the manifest *)

(** C10. When [.manifest.json] exists in the Kotlin source output directory
    and its text is not valid JSON, [readKotlinManifestJson] throws the
    parse error and leaves the world as it was; it returns [undefined] when
    the file does not exist, and only then. *)
Theorem readKotlinManifestJson_invalid_json_throws
    (P : Platform) (kotlinSrcOutDir : string) (w : World) (text : string) :
  files w !! path_resolve P [kotlinSrcOutDir; ".manifest.json"] = Some text ->
  JSON_parse P text = None ->
  readKotlinManifestJson P kotlinSrcOutDir w = (Throw SyntaxError, w)
  /\ (forall w0 w0',
        readKotlinManifestJson P kotlinSrcOutDir w0 = (Ok None, w0') <->
        files w0 !! path_resolve P [kotlinSrcOutDir; ".manifest.json"] = None /\ w0' = w0).
Proof.
  intros Hfile Hparse. split.
  - unfold readKotlinManifestJson, manifestFile. run.
    rewrite bool_decide_true by eauto. rewrite Hfile, Hparse. reflexivity.
  - intros w0 w0'. unfold readKotlinManifestJson, manifestFile. run.
    destruct (files w0 !! path_resolve P [kotlinSrcOutDir; ".manifest.json"])
      as [t|] eqn:E.
    + rewrite bool_decide_true by eauto. rewrite E.
      destruct (JSON_parse P t); split; intros H; try discriminate; destruct H; discriminate.
    + rewrite bool_decide_false by (intros [? ?]; discriminate).
      split; [intros [= <-]; auto|intros [_ ->]; reflexivity].
Qed.

Lemma readKotlinManifestJson_invalid_json_throws_witness :
  readKotlinManifestJson (Demo.platform None None) "/p/dist/.kotlin/src"
    (Demo.world [("/p/dist/.kotlin/src/.manifest.json", "{ broken")])
  = (Throw SyntaxError,
     Demo.world [("/p/dist/.kotlin/src/.manifest.json", "{ broken")]).
Proof.
  apply (readKotlinManifestJson_invalid_json_throws (Demo.platform None None)
           "/p/dist/.kotlin/src"
           (Demo.world [("/p/dist/.kotlin/src/.manifest.json", "{ broken")])
           "{ broken").
  - vm_compute. reflexivity.
  - vm_compute. reflexivity.
Defined.

(** ** C3: the change set *)

(** C3, as stated, fails: a file named twice in [changed] is twice in the
    change set. *)
Lemma changeSet_duplicates_counterexample :
  exists w',
    parseKotlinChangedFiles (Demo.platform None None) (Demo.result ["a.kt"; "a.kt"] None)
      "/p/dist/.kotlin/src" "/p/dist/.kotlin/dex" "/p/dist/dev" (Demo.world [])
    = (Ok ["/p/dist/.kotlin/src/a.kt"; "/p/dist/.kotlin/src/a.kt";
           "/p/dist/.kotlin/src/index.kt"], w')
    /\ ~ NoDup ["/p/dist/.kotlin/src/a.kt"; "/p/dist/.kotlin/src/a.kt";
                "/p/dist/.kotlin/src/index.kt"].
Proof.
  eexists. split; [vm_compute; reflexivity|].
  intros H. apply NoDup_cons in H as [H _]. apply H. left.
Qed.

(** C3, amended. When no two entries of [changed] resolve to the same source
    path, the resolver returns a duplicate-free list. In every case the list
    is ordered: the resolved [changed] entries first, in their order, then
    entry and chunk files; and in a process whose working directory is
    absolute every element is an absolute path, the resolution of a
    [changed] entry, of [index.kt] or of a chunk against the Kotlin source
    output directory. *)
Theorem changeSet_NoDup
    (P : Platform) (result : Result.t)
    (kotlinSrcOutDir kotlinDexOutDir outputDir : string) (w : World) :
  NodePath.isAbsolute (cwd P) = true ->
  NoDup (map (fun file => path_resolve P [kotlinSrcOutDir; file]) (Result.changed result)) ->
  exists cs w',
    parseKotlinChangedFiles P result kotlinSrcOutDir kotlinDexOutDir outputDir w = (Ok cs, w')
    /\ NoDup cs
    /\ (exists extra,
          cs = map (fun file => path_resolve P [kotlinSrcOutDir; file]) (Result.changed result)
               ++ extra)
    /\ Forall (fun p => NodePath.isAbsolute p = true
                        /\ exists file, file ∈ Result.changed result ++ chunkList result
                                        /\ p = path_resolve P [kotlinSrcOutDir; file]) cs.
Proof.
  intros Habs Hnd.
  destruct (parseKotlinChangedFiles_run P result kotlinSrcOutDir kotlinDexOutDir outputDir w)
    as (cs & w' & E & ((extra & -> & Hextra & Hnd') & _)).
  eexists. exists w'. split; [exact E|]. split; [now apply Hnd'|]. split; [now exists extra|].
  apply Forall_app. split.
  - apply Forall_forall. intros p Hp. apply list_elem_of_fmap in Hp as (f & -> & Hf).
    split; [now apply resolve_absolute|]. exists f. split; [|reflexivity].
    apply elem_of_app. now left.
  - eapply Forall_impl; [exact Hextra|]. intros p (c & Hc & ->).
    split; [now apply resolve_absolute|]. exists c. split; [|reflexivity].
    apply elem_of_app. now right.
Qed.

Lemma changeSet_NoDup_witness :
  exists cs w',
    parseKotlinChangedFiles (Demo.platform None None) (Demo.result ["b.kt"] (Some ["a.kt"; "a.kt"]))
      "/p/dist/.kotlin/src" "/p/dist/.kotlin/dex" "/p/dist/dev" (Demo.world [])
    = (Ok cs, w')
    /\ NoDup cs
    /\ (exists extra, cs = ["/p/dist/.kotlin/src/b.kt"] ++ extra)
    /\ Forall (fun p => NodePath.isAbsolute p = true
                        /\ exists file, file ∈ ["b.kt"] ++ ["index.kt"; "a.kt"; "a.kt"]
                                        /\ p = path_resolve (Demo.platform None None)
                                                 ["/p/dist/.kotlin/src"; file]) cs.
Proof.
  apply (changeSet_NoDup (Demo.platform None None) (Demo.result ["b.kt"] (Some ["a.kt"; "a.kt"]))
           "/p/dist/.kotlin/src" "/p/dist/.kotlin/dex" "/p/dist/dev" (Demo.world [])).
  - reflexivity.
  - vm_compute. apply NoDup_singleton.
Defined.

(** ** C5: the cache is authoritative *)

(** The resolver, seen from the moment it examines one file of [index.kt]
    and the chunks. *)
Lemma parseKotlinChangedFiles_at_chunk
    (P : Platform) (result : Result.t)
    (kotlinSrcOutDir kotlinDexOutDir outputDir : string) (w : World)
    (earlier later : list string) (chunk : string) (acc : list string) (wc : World) :
  chunkList result = earlier ++ chunk :: later ->
  forEachAcc (chunkFileStep P kotlinSrcOutDir kotlinDexOutDir outputDir) earlier
    (map (fun file => path_resolve P [kotlinSrcOutDir; file]) (Result.changed result))
    (staleSweep P kotlinDexOutDir (Result.changed result) w) = (Ok acc, wc) ->
  parseKotlinChangedFiles P result kotlinSrcOutDir kotlinDexOutDir outputDir w
  = (acc1 ← chunkFileStep P kotlinSrcOutDir kotlinDexOutDir outputDir acc chunk;
     forEachAcc (chunkFileStep P kotlinSrcOutDir kotlinDexOutDir outputDir) later acc1) wc.
Proof.
  intros Hsplit Hpre. unfold parseKotlinChangedFiles.
  rewrite (bind_ok _ _ _ _ _ (mapM_changedFile_run P _ _ _ w)).
  rewrite Hsplit, forEachAcc_app. rewrite (bind_ok _ _ _ _ _ Hpre). reflexivity.
Qed.

(** A file examined while it has no cached artifact is in the list after its
    step, and the step leaves the world alone. *)
Lemma chunkFileStep_without_artifact
    (P : Platform) (kotlinSrcOutDir kotlinDexOutDir outputDir : string)
    (acc : list string) (chunk : string) (wc : World) :
  files wc !! resolveDexByKotlinFile P kotlinDexOutDir chunk = None ->
  exists acc1,
    chunkFileStep P kotlinSrcOutDir kotlinDexOutDir outputDir acc chunk wc = (Ok acc1, wc)
    /\ path_resolve P [kotlinSrcOutDir; chunk] ∈ acc1.
Proof.
  intros Hnone. rewrite chunkFileStep_run, Hnone.
  destruct (bool_decide (path_resolve P [kotlinSrcOutDir; chunk] ∈ acc)) eqn:Ein.
  - apply bool_decide_eq_true in Ein. eauto.
  - eexists. split; [reflexivity|]. apply elem_of_app. right. left.
Qed.



(** Two consequences. First, as a postcondition: when the resolver returns,
    every file of [index.kt] and the chunks is in the change set or has a
    cached artifact on the disk. *)
Corollary cache_authority_post
    (P : Platform) (result : Result.t)
    (kotlinSrcOutDir kotlinDexOutDir outputDir : string) (w : World) (chunk : string) :
  chunk ∈ chunkList result ->
  exists cs w',
    parseKotlinChangedFiles P result kotlinSrcOutDir kotlinDexOutDir outputDir w = (Ok cs, w')
    /\ (path_resolve P [kotlinSrcOutDir; chunk] ∈ cs
        \/ is_Some (files w' !! resolveDexByKotlinFile P kotlinDexOutDir chunk)).
Proof.
  intros Hin. apply list_elem_of_split in Hin as (earlier & later & Hsplit).
  destruct (chunkLoop_run P kotlinSrcOutDir kotlinDexOutDir outputDir earlier
              (map (fun file => path_resolve P [kotlinSrcOutDir; file]) (Result.changed result))
              (staleSweep P kotlinDexOutDir (Result.changed result) w))
    as (acc & wc & Epre & _).
  rewrite (parseKotlinChangedFiles_at_chunk _ _ _ _ _ _ _ _ _ _ _ Hsplit Epre).
  destruct (files wc !! resolveDexByKotlinFile P kotlinDexOutDir chunk) as [content|] eqn:Ed.
  - destruct (chunkLoop_run P kotlinSrcOutDir kotlinDexOutDir outputDir (chunk :: later) acc wc)
      as (cs & w' & E2 & (_ & Hmono & _)).
    exists cs, w'. split; [exact E2|]. right. rewrite (Hmono _ _ Ed). eauto.
  - destruct (chunkFileStep_without_artifact P kotlinSrcOutDir kotlinDexOutDir outputDir
                acc chunk wc Ed) as (acc1 & E1 & Hin1).
    rewrite (bind_ok _ _ _ _ _ E1).
    destruct (chunkLoop_run P kotlinSrcOutDir kotlinDexOutDir outputDir later acc1 wc)
      as (cs & w' & E2 & ((extra & Hcs & _) & _)).
    exists cs, w'. split; [exact E2|]. left. rewrite Hcs. apply elem_of_app. now left.
Qed.

(** Second, from the disk the resolver starts with: a file of [index.kt] and
    the chunks with no cached artifact at the start is in the change set,
    provided no promotion writes to its cache path, that is, the output
    directory's artifacts are kept apart from the cache's. *)
Corollary cache_authority_initial_disk
    (P : Platform) (result : Result.t)
    (kotlinSrcOutDir kotlinDexOutDir outputDir : string) (w : World) (chunk : string) :
  chunk ∈ chunkList result ->
  files w !! resolveDexByKotlinFile P kotlinDexOutDir chunk = None ->
  (forall c, c ∈ chunkList result ->
     resolveDexByKotlinFile P outputDir c <> resolveDexByKotlinFile P kotlinDexOutDir chunk) ->
  exists cs w',
    parseKotlinChangedFiles P result kotlinSrcOutDir kotlinDexOutDir outputDir w = (Ok cs, w')
    /\ path_resolve P [kotlinSrcOutDir; chunk] ∈ cs.
Proof.
  intros Hin Hnone Hapart.
  destruct (parseKotlinChangedFiles_run P result kotlinSrcOutDir kotlinDexOutDir outputDir w)
    as (cs & w' & E & (_ & _ & Hnew & _)).
  destruct (cache_authority_post P result kotlinSrcOutDir kotlinDexOutDir outputDir w chunk Hin)
    as (cs0 & w0 & E0 & Hor).
  rewrite E in E0. injection E0 as <- <-.
  exists cs, w'. split; [exact E|].
  destruct Hor as [Hcs|Hsome]; [exact Hcs|]. exfalso.
  destruct (Hnew (resolveDexByKotlinFile P kotlinDexOutDir chunk)) as (c & Hc & Heq).
  - rewrite files_staleSweep. destruct (decide _); [reflexivity|exact Hnone].
  - exact Hsome.
  - eapply Hapart; eauto.
Qed.

(** ** C6: files the transpiler reports as changed *)



(** ** What follows the driver's answer *)

Section AfterDriver.

Variable P : Platform.
Variable options : Options.t.
Variable result : Result.t.

Lemma afterDriver_failure r w2 :
  dexSucceeded r = false ->
  afterDriver P options result r w2
  = dexFailure P (srcOutDir P options) r
      (Result.setKotlinc true (Result.setType "kotlin" result)) w2.
Proof. intros H. unfold afterDriver. now rewrite H. Qed.

Lemma dexSucceeded_true r :
  dexSucceeded r = true <->
  DexResult.code r = 0%Z /\ exists dexList, DexResult.data r = Some dexList.
Proof.
  unfold dexSucceeded, truthyNumber, truthyObject.
  destruct (Z.eqb_spec (DexResult.code r) 0) as [->|Hne];
    destruct (DexResult.data r) as [d|]; simpl; split;
    try (intros ?; discriminate); try (intros [? [? ?]]; congruence); eauto.
Qed.

Lemma afterDriver_success r w2 dexList :
  DexResult.code r = 0%Z -> DexResult.data r = Some dexList ->
  afterDriver P options result r w2
  = match syncDexList P dexList (dexOutDir P options) (Options.outputDir options) w2 with
    | (Ok _, w') =>
        (Ok (Result.setChanged dexList
               (Result.setKotlinc true (Result.setType "kotlin" result))), w')
    | (Throw e, w') => (Throw e, w')
    end.
Proof.
  intros Hc Hd. unfold afterDriver.
  assert (Hs : dexSucceeded r = true) by (apply dexSucceeded_true; eauto).
  rewrite Hs, Hd. simpl. unfold mbind, M_bind.
  destruct (syncDexList P dexList _ _ w2) as [[[]|e] w']; reflexivity.
Qed.

(** Whatever its outcome, the mirroring only appends copies to the trace. *)
Lemma syncDexList_events dexList kotlinDexOutDir outputDir w o w' :
  syncDexList P dexList kotlinDexOutDir outputDir w = (o, w') ->
  exists evs, events w' = events w ++ evs.
Proof.
  revert w. induction dexList as [|d l IH]; intros w.
  - intros [= <- <-]. exists []. now rewrite app_nil_r.
  - rewrite syncDexList_cons.
    destruct (files w !! _) as [content|].
    + destruct (decide _).
      * intros [= <- <-]. exists []. now rewrite app_nil_r.
      * intros E. apply IH in E as (evs & ->). simpl.
        eexists. rewrite <- app_assoc. reflexivity.
    + intros [= <- <-]. exists []. now rewrite app_nil_r.
Qed.

Lemma logMessage_files r w : files (logMessage r w) = files w.
Proof.
  unfold logMessage. destruct (DexResult.msg r) as [m|]; [|reflexivity].
  destruct (Str.isEmpty m); reflexivity.
Qed.

Lemma logMessage_events r w :
  events (logMessage r w)
  = events w ++ match DexResult.msg r with
                | Some m => if Str.isEmpty m then [] else [EConsoleError m]
                | None => []
                end.
Proof.
  unfold logMessage. destruct (DexResult.msg r) as [m|]; [|now rewrite app_nil_r].
  destruct (Str.isEmpty m); [now rewrite app_nil_r|reflexivity].
Qed.

Lemma afterDriver_events r w2 o w' :
  afterDriver P options result r w2 = (o, w') ->
  exists evs, events w' = events w2 ++ evs.
Proof.
  destruct (dexSucceeded r) eqn:Es.
  - apply dexSucceeded_true in Es as (Hc & dexList & Hd).
    rewrite (afterDriver_success _ _ _ Hc Hd).
    destruct (syncDexList P dexList _ _ w2) as [[[]|e] w3] eqn:E; intros [= <- <-];
      eapply syncDexList_events; eauto.
  - rewrite (afterDriver_failure _ _ Es), dexFailure_run.
    destruct (Result.changed _) as [|f l].
    { intros [= <- <-]. rewrite logMessage_events. eauto. }
    destruct (files w2 !! _) as [text|].
    + destruct (JSON_parse P text) as [manifest|].
      * intros [= <- <-]. rewrite logMessage_events. simpl.
        rewrite <- app_assoc. eauto.
      * intros [= <- <-]. exists []. now rewrite app_nil_r.
    + intros [= <- <-]. rewrite logMessage_events. eauto.
Qed.

End AfterDriver.

(** ** C4: when the cycle skips compilation *)

(** C4, as stated, fails: with nothing reported as changed, no cached
    artifact and no entry file on the disk, the change set holds the entry
    file, yet the cycle returns without calling the driver and without the
    toolchain error. *)
Lemma skip_rule_counterexample :
  exists w1,
    resolveChangeSet (Demo.platform None (Some Demo.workingServer)) Demo.options
      (Demo.result [] None) (Demo.world [])
    = (Ok ["/p/dist/.kotlin/src/index.kt"], w1)
    /\ runKotlinDev (Demo.platform None (Some Demo.workingServer)) Demo.options
         (Demo.result [] None) (Demo.world [])
       = (Ok (Result.setType "kotlin" (Demo.result [] None)), w1)
    /\ events w1 = []
    /\ ~ (existsb isCompile (events w1) = false
          <-> (["/p/dist/.kotlin/src/index.kt"] = []
               /\ files w1 !! "/p/dist/.kotlin/src/index.kt" = None)).
Proof.
  eexists. split; [vm_compute; reflexivity|]. split; [vm_compute; reflexivity|].
  split; [reflexivity|]. intros [H _]. destruct (H eq_refl) as [Hnil _]. discriminate.
Qed.

(** C4, amended. The cycle skips bytecode compilation precisely when the
    resolved change set is empty OR the entry Kotlin file does not exist on
    the disk: then it returns the result unchanged but for its type tag,
    the driver is not called and no toolchain error is raised. In the other
    case, a non-empty change set and an existing entry file, the cycle fails
    with the toolchain-unavailable error when no compiler server is
    installed and calls the driver when one is. *)
Theorem compile_skipped_iff
    (P : Platform) (options : Options.t) (result : Result.t) (w : World)
    (filename : string) (cs : list string) (w1 : World) :
  Result.filename result = Some filename ->
  resolveChangeSet P options result w = (Ok cs, w1) ->
  exists outcome w' evs,
    runKotlinDev P options result w = (outcome, w')
    /\ events w' = events w ++ evs
    /\ ((existsb isCompile evs = false /\ outcome <> Throw ExtensionNotInstalled)
        <-> (cs = [] \/ files w1 !! path_resolve P [srcOutDir P options; filename] = None))
    /\ (cs = [] \/ files w1 !! path_resolve P [srcOutDir P options; filename] = None ->
        outcome = Ok (Result.setType "kotlin" result) /\ w' = w1)
    /\ (cs <> [] ->
        is_Some (files w1 !! path_resolve P [srcOutDir P options; filename]) ->
        match getCompilerServer P with
        | None => outcome = Throw ExtensionNotInstalled /\ w' = w1
        | Some server =>
            ECompile (compileOptions P server cs (rootOutDir P options)
                        (srcOutDir P options) (dexOutDir P options)
                        (Options.outputDir options))
              (Options.inputDir options) ∈ evs
        end).
Proof.
  intros Hfn Hres.
  pose proof (parseKotlinChangedFiles_events P _ _ _ _ _ _ _ Hres) as (evs1 & Hev1 & Hnc1 & _).
  assert (Hno1 : existsb isCompile evs1 = false).
  { clear -Hnc1. induction Hnc1 as [|e l He _ IH]; [reflexivity|]. simpl. now rewrite He. }
  rewrite runKotlinDev_unfold, Hres, Hfn.
  destruct (decide (cs = [])) as [->|Hcs].
  { (* empty change set *)
    simpl. exists (Ok (Result.setType "kotlin" result)), w1, evs1.
    split; [reflexivity|]. split; [exact Hev1|]. split; [|split].
    - split; [auto|]. intros _. split; [exact Hno1|discriminate].
    - auto.
    - intros H. now contradiction H. }
  assert (Hlen : negb (length cs =? 0)%nat = true) by (destruct cs; [contradiction|reflexivity]).
  rewrite Hlen. simpl andb.
  destruct (files w1 !! path_resolve P [srcOutDir P options; filename]) as [content|] eqn:Emain.
  2:{ (* no entry file *)
    rewrite bool_decide_false by (intros [? ?]; discriminate).
    exists (Ok (Result.setType "kotlin" result)), w1, evs1.
    split; [reflexivity|]. split; [exact Hev1|]. split; [|split].
    - split; [auto|]. intros _. split; [exact Hno1|discriminate].
    - auto.
    - intros _ [x Hx]. discriminate. }
  rewrite bool_decide_true by eauto.
  destruct (getCompilerServer P) as [server|].
  2:{ (* no compiler server *)
    exists (Throw ExtensionNotInstalled), w1, evs1.
    split; [reflexivity|]. split; [exact Hev1|]. split; [|split].
    - split.
      + intros [_ H]. now contradiction H.
      + intros [H|H]; [contradiction|discriminate].
    - intros [H|H]; [contradiction|discriminate].
    - auto. }
  (* the driver is called *)
  set (o := compileOptions P server cs (rootOutDir P options) (srcOutDir P options)
              (dexOutDir P options) (Options.outputDir options)).
  destruct (compile server o (Options.inputDir options) (files w1)) as [r disk].
  destruct (afterDriver P options result r
              (setFiles disk (emit (ECompile o (Options.inputDir options)) w1)))
    as [outcome w'] eqn:Eafter.
  apply afterDriver_events in Eafter as (evs3 & Hev3). simpl in Hev3.
  exists outcome, w', (evs1 ++ [ECompile o (Options.inputDir options)] ++ evs3).
  split; [reflexivity|]. split.
  { rewrite Hev3, Hev1. now rewrite <- !app_assoc. }
  split; [|split].
  - split.
    + intros [H _]. rewrite existsb_app in H. apply orb_false_iff in H as [_ H].
      simpl in H. discriminate.
    + intros [H|H]; [contradiction|discriminate].
  - intros [H|H]; [contradiction|discriminate].
  - intros _ _. apply elem_of_app. right. left.
Qed.

Lemma compile_skipped_iff_witness :
  exists outcome w' evs,
    runKotlinDev (Demo.platform None (Some Demo.failingServer)) Demo.options
      (Demo.result [] None)
      (Demo.world [("/p/dist/.kotlin/src/index.kt", "fun main() {}")])
    = (outcome, w')
    /\ events w' = [] ++ evs
    /\ existsb isCompile evs = true.
Proof.
  destruct (compile_skipped_iff (Demo.platform None (Some Demo.failingServer)) Demo.options
              (Demo.result [] None)
              (Demo.world [("/p/dist/.kotlin/src/index.kt", "fun main() {}")])
              "index.kt" ["/p/dist/.kotlin/src/index.kt"]
              (Demo.world [("/p/dist/.kotlin/src/index.kt", "fun main() {}")]))
    as (outcome & w' & evs & E & Hev & Hiff & _).
  - reflexivity.
  - vm_compute. reflexivity.
  - exists outcome, w', evs. split; [exact E|]. split; [exact Hev|].
    destruct (existsb isCompile evs) eqn:Ex; [reflexivity|]. exfalso.
    assert (Ho : outcome <> Throw ExtensionNotInstalled).
    { intros ->. vm_compute in E. discriminate. }
    destruct (proj1 Hiff (conj eq_refl Ho)) as [H|H]; [discriminate|].
    vm_compute in H. discriminate.
Defined.

(** ** C1: rollback of the manifest *)

(** C1, as stated, fails: [index.kt] enters the change set because it has no
    cached artifact, the driver rejects the request, and after the cycle the
    manifest file still holds its entries for that file, under the relative
    key and under the resolved path alike; the file was not rewritten. *)
Lemma manifest_rollback_counterexample :
  exists r w2 result' w' manifest,
    driverCall (Demo.platform None (Some Demo.failingServer)) Demo.options
      (Demo.result [] None)
      (Demo.world
         [("/p/dist/.kotlin/src/index.kt", "fun main() {}");
          ("/p/dist/.kotlin/src/.manifest.json",
           FlatJSON.stringify
             {[ "index.kt" := "h1"; "/p/dist/.kotlin/src/index.kt" := "h1" ]})])
    = Some (["/p/dist/.kotlin/src/index.kt"], r, w2)
    /\ dexSucceeded r = false
    /\ runKotlinDev (Demo.platform None (Some Demo.failingServer)) Demo.options
         (Demo.result [] None)
         (Demo.world
            [("/p/dist/.kotlin/src/index.kt", "fun main() {}");
             ("/p/dist/.kotlin/src/.manifest.json",
              FlatJSON.stringify
                {[ "index.kt" := "h1"; "/p/dist/.kotlin/src/index.kt" := "h1" ]})])
       = (Ok result', w')
    /\ path_resolve (Demo.platform None (Some Demo.failingServer))
         ["/p/dist/.kotlin/src"; "index.kt"] = "/p/dist/.kotlin/src/index.kt"
    /\ (JSON_parse (Demo.platform None (Some Demo.failingServer))
          <$> files w' !! "/p/dist/.kotlin/src/.manifest.json") = Some (Some manifest)
    /\ manifest !! "index.kt" = Some "h1"
    /\ manifest !! "/p/dist/.kotlin/src/index.kt" = Some "h1"
    /\ Forall (fun e => match e with EWriteFile _ _ => False | _ => True end) (events w').
Proof.
  do 5 eexists.
  split; [vm_compute; reflexivity|].
  split; [reflexivity|].
  split; [vm_compute; reflexivity|].
  split; [reflexivity|].
  split; [vm_compute; reflexivity|].
  split; [reflexivity|].
  split; [reflexivity|].
  repeat constructor.
Qed.

(** C1, amended. If the driver fails a cycle whose transpiler result has a
    non-empty [changed] list, and the manifest file exists and parses, then
    the cycle returns and the manifest file then holds the serialization of
    the parsed manifest with the key of every entry of [changed] deleted, the
    keys being the relative paths as the transpiler reported them; every
    other key keeps its value. *)
Theorem manifest_rollback
    (P : Platform) (options : Options.t) (result : Result.t) (w : World)
    (cs : list string) (r : DexResult.t) (w2 : World) (text : string)
    (manifest : Manifest) :
  driverCall P options result w = Some (cs, r, w2) ->
  dexSucceeded r = false ->
  Result.changed result <> [] ->
  files w2 !! manifestFile P (srcOutDir P options) = Some text ->
  JSON_parse P text = Some manifest ->
  exists result' w',
    runKotlinDev P options result w = (Ok result', w')
    /\ files w' !! manifestFile P (srcOutDir P options)
       = Some (JSON_stringify P (deleteKeys (Result.changed result) manifest))
    /\ EWriteFile (manifestFile P (srcOutDir P options))
         (JSON_stringify P (deleteKeys (Result.changed result) manifest)) ∈ events w'
    /\ (forall file, file ∈ Result.changed result ->
          deleteKeys (Result.changed result) manifest !! file = None)
    /\ (forall key, key ∉ Result.changed result ->
          deleteKeys (Result.changed result) manifest !! key = manifest !! key).
Proof.
  intros Hcall Hfail Hch Hfile Hparse.
  rewrite (runKotlinDev_driverCall _ _ _ _ _ _ _ Hcall).
  rewrite (afterDriver_failure _ _ _ _ _ Hfail), dexFailure_run.
  change (Result.changed (Result.setKotlinc true (Result.setType "kotlin" result)))
    with (Result.changed result).
  destruct (Result.changed result) as [|f l] eqn:Ech; [contradiction|].
  rewrite Hfile, Hparse. cbv zeta.
  do 2 eexists. split; [reflexivity|]. split; [|split; [|split]].
  - rewrite logMessage_files. simpl. apply lookup_insert_eq.
  - rewrite logMessage_events. apply elem_of_app. left. simpl.
    apply elem_of_app. right. left.
  - intros file Hin. rewrite lookup_deleteKeys. now rewrite decide_True.
  - intros key Hnin. rewrite lookup_deleteKeys. now rewrite decide_False.
Qed.

Lemma manifest_rollback_witness :
  exists result' w',
    runKotlinDev (Demo.platform None (Some Demo.failingServer)) Demo.options
      (Demo.result ["c.kt"] None)
      (Demo.world
         [("/p/dist/.kotlin/src/index.kt", "fun main() {}");
          ("/p/dist/.kotlin/src/c.kt", "class C");
          ("/p/dist/.kotlin/src/.manifest.json",
           FlatJSON.stringify {[ "index.kt" := "h1"; "c.kt" := "h2" ]})])
    = (Ok result', w')
    /\ files w' !! "/p/dist/.kotlin/src/.manifest.json"
       = Some (FlatJSON.stringify {[ "index.kt" := "h1" ]}).
Proof.
  destruct (manifest_rollback (Demo.platform None (Some Demo.failingServer)) Demo.options
              (Demo.result ["c.kt"] None)
              (Demo.world
                 [("/p/dist/.kotlin/src/index.kt", "fun main() {}");
                  ("/p/dist/.kotlin/src/c.kt", "class C");
                  ("/p/dist/.kotlin/src/.manifest.json",
                   FlatJSON.stringify {[ "index.kt" := "h1"; "c.kt" := "h2" ]})])
              ["/p/dist/.kotlin/src/c.kt"; "/p/dist/.kotlin/src/index.kt"]
              {| DexResult.code := 1; DexResult.msg := Some "type error";
                 DexResult.data := None |}
              (setFiles
                 (list_to_map
                    [("/p/dist/.kotlin/src/index.kt", "fun main() {}");
                     ("/p/dist/.kotlin/src/c.kt", "class C");
                     ("/p/dist/.kotlin/src/.manifest.json",
                      FlatJSON.stringify {[ "index.kt" := "h1"; "c.kt" := "h2" ]})])
                 (emit
                    (ECompile
                       (compileOptions (Demo.platform None (Some Demo.failingServer))
                          Demo.failingServer
                          ["/p/dist/.kotlin/src/c.kt"; "/p/dist/.kotlin/src/index.kt"]
                          "/p/dist/.kotlin" "/p/dist/.kotlin/src" "/p/dist/.kotlin/dex"
                          "/p/dist/dev")
                       "/p/src")
                    (Demo.world [])))
              (FlatJSON.stringify {[ "index.kt" := "h1"; "c.kt" := "h2" ]})
              {[ "index.kt" := "h1"; "c.kt" := "h2" ]})
    as (result' & w' & E & Hfile & _).
  - vm_compute. reflexivity.
  - reflexivity.
  - discriminate.
  - vm_compute. reflexivity.
  - vm_compute. reflexivity.
  - exists result', w'. split; [exact E|].
    refine (eq_trans Hfile _). vm_compute. reflexivity.
Defined.

(** ** C7: a failing driver *)

Lemma consoleErrors_app evs1 evs2 :
  consoleErrors (evs1 ++ evs2) = consoleErrors evs1 ++ consoleErrors evs2.
Proof. unfold consoleErrors. apply omap_app. Qed.

(** Up to the driver's answer nothing is printed. *)
Lemma driverCall_consoleErrors P options result w cs r w2 :
  driverCall P options result w = Some (cs, r, w2) ->
  consoleErrors (events w2) = consoleErrors (events w).
Proof.
  intros Hcall.
  apply driverCall_Some in Hcall as (w1 & fn & server & E & _ & _ & _ & _ & _ & Hev2).
  apply parseKotlinChangedFiles_events in E as (evs & Hev & _ & Hce & _).
  rewrite Hev2, Hev, !consoleErrors_app, Hce. simpl. now rewrite !app_nil_r.
Qed.

(** C7, as stated, fails. The driver answers with code 1 and the message
    [type error], the transpiler's [changed] list is not empty and the
    manifest file holds text that does not parse: the failure branch reads
    the manifest before it prints, so the cycle throws the parse error and
    the message has not been printed. And with a driver whose message is the
    empty string the cycle completes and has printed nothing: the source
    tests [if (msg)], which an empty string fails. *)
Lemma driver_failure_message_counterexample :
  (exists cs r w2 w',
     driverCall (Demo.platform None (Some Demo.failingServer)) Demo.options
       (Demo.result ["c.kt"] None)
       (Demo.world
          [("/p/dist/.kotlin/src/index.kt", "fun main() {}");
           ("/p/dist/.kotlin/src/.manifest.json", "{ broken")])
     = Some (cs, r, w2)
     /\ dexSucceeded r = false
     /\ DexResult.msg r = Some "type error"
     /\ runKotlinDev (Demo.platform None (Some Demo.failingServer)) Demo.options
          (Demo.result ["c.kt"] None)
          (Demo.world
             [("/p/dist/.kotlin/src/index.kt", "fun main() {}");
              ("/p/dist/.kotlin/src/.manifest.json", "{ broken")])
        = (Throw SyntaxError, w')
     /\ consoleErrors (events w') = [])
  /\ (exists cs r w2 result' w',
        driverCall (Demo.platform None (Some Demo.silentServer)) Demo.options
          (Demo.result [] None)
          (Demo.world [("/p/dist/.kotlin/src/index.kt", "fun main() {}")])
        = Some (cs, r, w2)
        /\ dexSucceeded r = false
        /\ DexResult.msg r = Some EmptyString
        /\ runKotlinDev (Demo.platform None (Some Demo.silentServer)) Demo.options
             (Demo.result [] None)
             (Demo.world [("/p/dist/.kotlin/src/index.kt", "fun main() {}")])
           = (Ok result', w')
        /\ consoleErrors (events w') = []).
Proof.
  split.
  - do 4 eexists. split; [vm_compute; reflexivity|].
    split; [reflexivity|]. split; [reflexivity|].
    split; [vm_compute; reflexivity|]. reflexivity.
  - do 5 eexists. split; [vm_compute; reflexivity|].
    split; [reflexivity|]. split; [reflexivity|].
    split; [vm_compute; reflexivity|]. reflexivity.
Qed.

(** C7, amended. The driver's answer is treated as a failure exactly when
    its status code is nonzero or its data is absent. On a failure, provided
    the manifest can be read (the [changed] list is empty, or the manifest
    file does not exist, or its text parses), the cycle completes, the
    returned result's [changed] list is empty, and the message, if present
    and not the empty string, has been printed with [console.error], and
    nothing else has. In the remaining case, a non-empty [changed] list and
    a manifest file whose text does not parse, the cycle throws the parse
    error and has printed nothing. *)
Theorem driver_failure_handling
    (P : Platform) (options : Options.t) (result : Result.t) (w : World)
    (cs : list string) (r : DexResult.t) (w2 : World) :
  driverCall P options result w = Some (cs, r, w2) ->
  (dexSucceeded r = false <-> DexResult.code r <> 0%Z \/ DexResult.data r = None)
  /\ (dexSucceeded r = false ->
      (Result.changed result = []
       \/ files w2 !! manifestFile P (srcOutDir P options) = None
       \/ (exists text manifest,
             files w2 !! manifestFile P (srcOutDir P options) = Some text
             /\ JSON_parse P text = Some manifest) ->
       exists result' w',
         runKotlinDev P options result w = (Ok result', w')
         /\ Result.changed result' = []
         /\ consoleErrors (events w')
            = consoleErrors (events w)
              ++ match DexResult.msg r with
                 | Some m => if Str.isEmpty m then [] else [m]
                 | None => []
                 end)
      /\ (forall text,
            Result.changed result <> [] ->
            files w2 !! manifestFile P (srcOutDir P options) = Some text ->
            JSON_parse P text = None ->
            exists w',
              runKotlinDev P options result w = (Throw SyntaxError, w')
              /\ consoleErrors (events w') = consoleErrors (events w))).
Proof.
  intros Hcall. split.
  - unfold dexSucceeded, truthyNumber, truthyObject.
    destruct (Z.eqb_spec (DexResult.code r) 0) as [Hz|Hnz];
      destruct (DexResult.data r) as [d|]; simpl;
      (split; [intros H; try discriminate; auto
              |intros [H|H]; try reflexivity; try contradiction; try discriminate]).
  - intros Hfail.
    rewrite (runKotlinDev_driverCall _ _ _ _ _ _ _ Hcall).
    rewrite (afterDriver_failure _ _ _ _ _ Hfail), dexFailure_run.
    change (Result.changed (Result.setKotlinc true (Result.setType "kotlin" result)))
      with (Result.changed result).
    pose proof (driverCall_consoleErrors _ _ _ _ _ _ _ Hcall) as Hce.
    assert (Hlog : forall w0, consoleErrors (events w0) = consoleErrors (events w) ->
              consoleErrors (events (logMessage r w0))
              = consoleErrors (events w)
                ++ match DexResult.msg r with
                   | Some m => if Str.isEmpty m then [] else [m]
                   | None => []
                   end).
    { intros w0 H0. rewrite logMessage_events, consoleErrors_app, H0. f_equal.
      destruct (DexResult.msg r) as [m|]; [|reflexivity].
      destruct (Str.isEmpty m); reflexivity. }
    destruct (Result.changed result) as [|f l] eqn:Ech.
    { split.
      - intros _. do 2 eexists. split; [reflexivity|]. split; [exact Ech|]. now apply Hlog.
      - intros text Hne. now destruct Hne. }
    destruct (files w2 !! manifestFile P (srcOutDir P options)) as [text|] eqn:Em.
    + destruct (JSON_parse P text) as [manifest|] eqn:Ep.
      * split.
        -- intros _. do 2 eexists. split; [reflexivity|]. split; [reflexivity|].
           apply Hlog. simpl. rewrite consoleErrors_app, Hce. simpl. apply app_nil_r.
        -- intros text' _ [= <-] Hp. congruence.
      * split.
        -- intros [H|[H|(t & m & [= <-] & Hm)]]; [discriminate|discriminate|congruence].
        -- intros text' _ _ _. eexists. split; [reflexivity|exact Hce].
    + split.
      * intros _. do 2 eexists. split; [reflexivity|]. split; [reflexivity|]. now apply Hlog.
      * intros text' _ [=].
Qed.

Lemma driver_failure_handling_witness :
  exists result' w',
    runKotlinDev (Demo.platform None (Some Demo.failingServer)) Demo.options
      (Demo.result ["c.kt"] None)
      (Demo.world
         [("/p/dist/.kotlin/src/index.kt", "fun main() {}");
          ("/p/dist/.kotlin/src/.manifest.json",
           FlatJSON.stringify {[ "c.kt" := "h2" ]})])
    = (Ok result', w')
    /\ Result.changed result' = []
    /\ consoleErrors (events w') = ["type error"].
Proof.
  destruct (driver_failure_handling (Demo.platform None (Some Demo.failingServer))
              Demo.options (Demo.result ["c.kt"] None)
              (Demo.world
                 [("/p/dist/.kotlin/src/index.kt", "fun main() {}");
                  ("/p/dist/.kotlin/src/.manifest.json",
                   FlatJSON.stringify {[ "c.kt" := "h2" ]})])
              ["/p/dist/.kotlin/src/c.kt"; "/p/dist/.kotlin/src/index.kt"]
              {| DexResult.code := 1; DexResult.msg := Some "type error";
                 DexResult.data := None |}
              (setFiles
                 (list_to_map
                    [("/p/dist/.kotlin/src/index.kt", "fun main() {}");
                     ("/p/dist/.kotlin/src/.manifest.json",
                      FlatJSON.stringify {[ "c.kt" := "h2" ]})])
                 (emit
                    (ECompile
                       (compileOptions (Demo.platform None (Some Demo.failingServer))
                          Demo.failingServer
                          ["/p/dist/.kotlin/src/c.kt"; "/p/dist/.kotlin/src/index.kt"]
                          "/p/dist/.kotlin" "/p/dist/.kotlin/src" "/p/dist/.kotlin/dex"
                          "/p/dist/dev")
                       "/p/src")
                    (Demo.world []))))
    as (_ & Hfail).
  - vm_compute. reflexivity.
  - destruct (Hfail eq_refl) as (Hreadable & _).
    destruct Hreadable as (result' & w' & E & Hch & Hlog).
    + right. right. do 2 eexists. split; vm_compute; reflexivity.
    + exists result', w'. split; [exact E|]. split; [exact Hch|exact Hlog].
Defined.

(** ** C8: a succeeding driver *)

(** C8. When the driver answers with a zero status code and data, a cycle
    that completes returns the driver's dex list as the result's [changed]
    list, and every artifact of that list has been copied from the dex cache
    directory to the output directory and is on the disk under both. The
    cycle does complete when the driver left every listed artifact in the
    cache (and the two directories do not resolve it to one path). *)
Theorem driver_success_mirrors
    (P : Platform) (options : Options.t) (result : Result.t) (w : World)
    (cs : list string) (r : DexResult.t) (w2 : World) (dexList : list string) :
  driverCall P options result w = Some (cs, r, w2) ->
  DexResult.code r = 0%Z ->
  DexResult.data r = Some dexList ->
  (forall result' w',
     runKotlinDev P options result w = (Ok result', w') ->
     Result.changed result' = dexList
     /\ exists evs,
          events w' = events w2 ++ evs
          /\ forall dex, dex ∈ dexList ->
               ECopy (path_resolve P [dexOutDir P options; dex])
                 (path_resolve P [Options.outputDir options; dex]) ∈ evs
               /\ is_Some (files w' !! path_resolve P [dexOutDir P options; dex])
               /\ is_Some (files w' !! path_resolve P [Options.outputDir options; dex]))
  /\ ((forall dex, dex ∈ dexList ->
         is_Some (files w2 !! path_resolve P [dexOutDir P options; dex])
         /\ path_resolve P [dexOutDir P options; dex]
            <> path_resolve P [Options.outputDir options; dex]) ->
      exists result' w', runKotlinDev P options result w = (Ok result', w')).
Proof.
  intros Hcall Hcode Hdata.
  rewrite (runKotlinDev_driverCall _ _ _ _ _ _ _ Hcall).
  rewrite (afterDriver_success _ _ _ _ _ _ Hcode Hdata).
  split.
  - intros result' w'.
    destruct (syncDexList P dexList (dexOutDir P options) (Options.outputDir options) w2)
      as [[[]|e] w3] eqn:Esync; [|discriminate].
    intros [= <- <-]. split; [reflexivity|].
    apply syncDexList_post in Esync as (_ & (evs & Hev & _ & _ & Hcopy) & Hboth).
    exists evs. split; [exact Hev|]. intros dex Hdex.
    destruct (Hboth dex Hdex). auto.
  - intros Hall.
    destruct (syncDexList_returns P _ _ dexList w2 Hall) as (w3 & ->). eauto.
Qed.

Lemma driver_success_mirrors_witness :
  exists result' w',
    runKotlinDev (Demo.platform None (Some Demo.workingServer)) Demo.options
      (Demo.result ["index.kt"] None)
      (Demo.world [("/p/dist/.kotlin/src/index.kt", "fun main() {}")])
    = (Ok result', w')
    /\ Result.changed result' = ["index/classes.dex"]
    /\ files w' !! "/p/dist/.kotlin/dex/index/classes.dex" = Some "dex:index"
    /\ files w' !! "/p/dist/dev/index/classes.dex" = Some "dex:index".
Proof.
  destruct (driver_success_mirrors (Demo.platform None (Some Demo.workingServer))
              Demo.options (Demo.result ["index.kt"] None)
              (Demo.world [("/p/dist/.kotlin/src/index.kt", "fun main() {}")])
              ["/p/dist/.kotlin/src/index.kt"]
              {| DexResult.code := 0; DexResult.msg := None;
                 DexResult.data := Some ["index/classes.dex"] |}
              (setFiles
                 (list_to_map
                    [("/p/dist/.kotlin/dex/index/classes.dex", "dex:index");
                     ("/p/dist/.kotlin/src/index.kt", "fun main() {}")])
                 (emit
                    (ECompile
                       (compileOptions (Demo.platform None (Some Demo.workingServer))
                          Demo.workingServer ["/p/dist/.kotlin/src/index.kt"]
                          "/p/dist/.kotlin" "/p/dist/.kotlin/src" "/p/dist/.kotlin/dex"
                          "/p/dist/dev")
                       "/p/src")
                    (Demo.world [])))
              ["index/classes.dex"])
    as (Hpost & Hret).
  - vm_compute. reflexivity.
  - reflexivity.
  - reflexivity.
  - destruct Hret as (result' & w' & E).
    + intros dex Hdex. apply list_elem_of_singleton in Hdex as ->.
      split; [vm_compute; eauto|vm_compute; discriminate].
    + exists result', w'. split; [exact E|].
      destruct (Hpost result' w' E) as (Hch & _). split; [exact Hch|].
      vm_compute in E. injection E as _ <-. split; vm_compute; reflexivity.
Defined.

(** ** C9: a failed cycle and the output directory *)

(** The resolver keeps every file that is not the cached artifact of a
    changed file, and it promotes only to paths where no file is. *)
Lemma parseKotlinChangedFiles_frame P result kotlinSrcOutDir kotlinDexOutDir outputDir w cs w' :
  parseKotlinChangedFiles P result kotlinSrcOutDir kotlinDexOutDir outputDir w = (Ok cs, w') ->
  (forall p content,
     files w !! p = Some content ->
     (forall file, file ∈ Result.changed result ->
        resolveDexByKotlinFile P kotlinDexOutDir file <> p) ->
     files w' !! p = Some content)
  /\ exists evs,
       events w' = events w ++ evs
       /\ forall e, e ∈ evs ->
            (exists file, file ∈ Result.changed result
               /\ e = EUnlink (resolveDexByKotlinFile P kotlinDexOutDir file))
            \/ (exists chunk, chunk ∈ chunkList result
                  /\ e = ECopy (resolveDexByKotlinFile P kotlinDexOutDir chunk)
                         (resolveDexByKotlinFile P outputDir chunk)
                  /\ (files w !! resolveDexByKotlinFile P outputDir chunk = None
                      \/ exists file, file ∈ Result.changed result
                           /\ resolveDexByKotlinFile P kotlinDexOutDir file
                              = resolveDexByKotlinFile P outputDir chunk)).
Proof.
  intros E.
  destruct (parseKotlinChangedFiles_run P result kotlinSrcOutDir kotlinDexOutDir outputDir w)
    as (cs0 & w0 & E0 & (_ & Hmono & _ & (evs2 & Hev2 & Hall2))).
  rewrite E in E0. injection E0 as <- <-.
  split.
  - intros p content Hp Hne. apply Hmono. rewrite files_staleSweep.
    rewrite decide_False; [exact Hp|].
    intros Hin. apply list_elem_of_fmap in Hin as (f & -> & Hf). now apply (Hne f).
  - destruct (events_staleSweep P kotlinDexOutDir (Result.changed result) w)
      as (evs1 & Hev1 & Hall1 & _).
    exists (evs1 ++ evs2). rewrite Hev2, Hev1, app_assoc. split; [reflexivity|].
    intros e He. apply elem_of_app in He as [He|He].
    + left. rewrite Forall_forall in Hall1. now apply Hall1.
    + right. rewrite Forall_forall in Hall2.
      destruct (Hall2 e He) as (c & Hc & -> & Hnone).
      exists c. split; [exact Hc|]. split; [reflexivity|].
      rewrite files_staleSweep in Hnone.
      destruct (decide _) as [Hin|_]; [|now left].
      right. apply list_elem_of_fmap in Hin as (f & Heq & Hf). eauto.
Qed.




(** * Further properties of the resolver *)

(** Whenever the resolver returns, its only effects are unlinks of cached
    artifacts of changed files and copies of a chunk's cached artifact to
    its place in the output directory: it writes no manifest, calls no
    driver and prints nothing. *)
Theorem resolver_effects
    (P : Platform) (result : Result.t)
    (kotlinSrcOutDir kotlinDexOutDir outputDir : string) (w : World)
    (cs : list string) (w' : World) :
  parseKotlinChangedFiles P result kotlinSrcOutDir kotlinDexOutDir outputDir w = (Ok cs, w') ->
  exists evs,
    events w' = events w ++ evs
    /\ forall e, e ∈ evs ->
         (exists file, file ∈ Result.changed result
            /\ e = EUnlink (resolveDexByKotlinFile P kotlinDexOutDir file))
         \/ (exists chunk, chunk ∈ chunkList result
               /\ e = ECopy (resolveDexByKotlinFile P kotlinDexOutDir chunk)
                      (resolveDexByKotlinFile P outputDir chunk)).
Proof.
  intros E.
  destruct (parseKotlinChangedFiles_frame P _ _ _ _ _ _ _ E) as (_ & evs & Hev & Hevs).
  exists evs. split; [exact Hev|].
  intros e He. destruct (Hevs e He) as [H|(c & Hc & Heq & _)]; [now left|right; eauto].
Qed.

Lemma resolver_effects_witness :
  exists evs,
    evs = [EUnlink "/p/dist/.kotlin/dex/c/classes.dex";
           ECopy "/p/dist/.kotlin/dex/a/classes.dex" "/p/dist/dev/a/classes.dex"]
    /\ forall e, e ∈ evs ->
         (exists file, file ∈ ["c.kt"]
            /\ e = EUnlink (resolveDexByKotlinFile (Demo.platform None None)
                              "/p/dist/.kotlin/dex" file))
         \/ (exists chunk, chunk ∈ ["index.kt"; "a.kt"]
               /\ e = ECopy (resolveDexByKotlinFile (Demo.platform None None)
                               "/p/dist/.kotlin/dex" chunk)
                      (resolveDexByKotlinFile (Demo.platform None None)
                         "/p/dist/dev" chunk)).
Proof.
  destruct (resolver_effects (Demo.platform None None) (Demo.result ["c.kt"] (Some ["a.kt"]))
              "/p/dist/.kotlin/src" "/p/dist/.kotlin/dex" "/p/dist/dev"
              (Demo.world
                 [("/p/dist/.kotlin/dex/c/classes.dex", "dex:c");
                  ("/p/dist/.kotlin/dex/a/classes.dex", "dex:a")])
              ["/p/dist/.kotlin/src/c.kt"; "/p/dist/.kotlin/src/index.kt"]
              (setFiles
                 (list_to_map
                    [("/p/dist/.kotlin/dex/a/classes.dex", "dex:a");
                     ("/p/dist/dev/a/classes.dex", "dex:a")])
                 {| files := ∅;
                    events :=
                      [EUnlink "/p/dist/.kotlin/dex/c/classes.dex";
                       ECopy "/p/dist/.kotlin/dex/a/classes.dex"
                         "/p/dist/dev/a/classes.dex"] |}))
    as (evs & Hev & Hall).
  - vm_compute. reflexivity.
  - exists evs. split; [symmetry; exact Hev|exact Hall].
Defined.



(** The change set holds nothing it need not: each of its paths is the
    source of a file the transpiler reported as changed, or of a file of
    [index.kt] and the chunks whose cached artifact was missing at the start
    or has just been unlinked as stale. *)
Theorem change_set_minimal
    (P : Platform) (result : Result.t)
    (kotlinSrcOutDir kotlinDexOutDir outputDir : string) (w : World)
    (cs : list string) (w' : World) (p : string) :
  parseKotlinChangedFiles P result kotlinSrcOutDir kotlinDexOutDir outputDir w = (Ok cs, w') ->
  p ∈ cs ->
  (exists file, file ∈ Result.changed result /\ p = path_resolve P [kotlinSrcOutDir; file])
  \/ (exists chunk, chunk ∈ chunkList result
        /\ p = path_resolve P [kotlinSrcOutDir; chunk]
        /\ (files w !! resolveDexByKotlinFile P kotlinDexOutDir chunk = None
            \/ exists file, file ∈ Result.changed result
                 /\ resolveDexByKotlinFile P kotlinDexOutDir file
                    = resolveDexByKotlinFile P kotlinDexOutDir chunk)).
Proof.
  intros E Hp.
  set (acc0 := map (fun file => path_resolve P [kotlinSrcOutDir; file]) (Result.changed result)).
  set (w0 := staleSweep P kotlinDexOutDir (Result.changed result) w).
  destruct (forEachAcc_invariant
              (chunkFileStep P kotlinSrcOutDir kotlinDexOutDir outputDir)
              (fun acc wc =>
                 (forall q content, files w0 !! q = Some content -> files wc !! q = Some content)
                 /\ forall q, q ∈ acc ->
                      q ∈ acc0
                      \/ exists c, c ∈ chunkList result
                           /\ q = path_resolve P [kotlinSrcOutDir; c]
                           /\ files w0 !! resolveDexByKotlinFile P kotlinDexOutDir c = None)
              (chunkList result)) with (acc := acc0) (w := w0)
    as (cs1 & w1 & E1 & _ & Hall).
  - intros acc wc c Hc (Hmono & Hacc). rewrite chunkFileStep_run.
    destruct (bool_decide _); [eauto|].
    destruct (files wc !! resolveDexByKotlinFile P kotlinDexOutDir c) as [content|] eqn:Ed.
    + destruct (files wc !! resolveDexByKotlinFile P outputDir c) as [t|] eqn:Et; [eauto|].
      do 2 eexists. split; [reflexivity|]. split; [|exact Hacc].
      intros q content0 Hq. simpl.
      destruct (decide (resolveDexByKotlinFile P outputDir c = q)) as [<-|Hne].
      * apply Hmono in Hq. congruence.
      * rewrite lookup_insert_ne by assumption. now apply Hmono.
    + do 2 eexists. split; [reflexivity|]. split; [exact Hmono|].
      intros q Hq. apply elem_of_app in Hq as [Hq|Hq]; [now apply Hacc|].
      apply list_elem_of_singleton in Hq as ->. right. exists c.
      split; [exact Hc|]. split; [reflexivity|].
      destruct (files w0 !! resolveDexByKotlinFile P kotlinDexOutDir c) as [x|] eqn:E0;
        [|reflexivity].
      apply Hmono in E0. congruence.
  - split; [auto|]. intros q Hq. now left.
  - unfold parseKotlinChangedFiles in E.
    rewrite (bind_ok _ _ _ _ _ (mapM_changedFile_run P _ _ _ w)) in E.
    fold acc0 w0 in E. rewrite E1 in E. injection E as <- <-.
    destruct (Hall p Hp) as [Hin|(c & Hc & -> & Hnone)].
    + left. apply list_elem_of_fmap in Hin as (f & -> & Hf). eauto.
    + right. exists c. split; [exact Hc|]. split; [reflexivity|].
      unfold w0 in Hnone. rewrite files_staleSweep in Hnone.
      destruct (decide _) as [Hin|_]; [|now left].
      right. apply list_elem_of_fmap in Hin as (f & Heq & Hf). eauto.
Qed.

Lemma change_set_minimal_witness :
  (exists file, file ∈ ["b.kt"]
     /\ "/p/dist/.kotlin/src/index.kt"
        = path_resolve (Demo.platform None None) ["/p/dist/.kotlin/src"; file])
  \/ (exists chunk, chunk ∈ ["index.kt"; "a.kt"]
        /\ "/p/dist/.kotlin/src/index.kt"
           = path_resolve (Demo.platform None None) ["/p/dist/.kotlin/src"; chunk]
        /\ (files (Demo.world [("/p/dist/.kotlin/dex/a/classes.dex", "dex:a")])
              !! resolveDexByKotlinFile (Demo.platform None None) "/p/dist/.kotlin/dex" chunk
            = None
            \/ exists file, file ∈ ["b.kt"]
                 /\ resolveDexByKotlinFile (Demo.platform None None) "/p/dist/.kotlin/dex" file
                    = resolveDexByKotlinFile (Demo.platform None None)
                        "/p/dist/.kotlin/dex" chunk)).
Proof.
  eapply (change_set_minimal (Demo.platform None None) (Demo.result ["b.kt"] (Some ["a.kt"]))
            "/p/dist/.kotlin/src" "/p/dist/.kotlin/dex" "/p/dist/dev"
            (Demo.world [("/p/dist/.kotlin/dex/a/classes.dex", "dex:a")])).
  - vm_compute. reflexivity.
  - right. left.
Defined.

(** *** Running the resolver again *)

(** The loop over [index.kt] and the chunks, run a second time on a disk that
    holds at least the files the first run left and no cached artifact the
    first run did not see, takes the same decisions and touches nothing. *)
Lemma chunkLoop_again
    (P : Platform) (kotlinSrcOutDir kotlinDexOutDir outputDir : string)
    (chunks : list string) :
  forall acc w acc' w' w'',
    forEachAcc (chunkFileStep P kotlinSrcOutDir kotlinDexOutDir outputDir) chunks acc w
    = (Ok acc', w') ->
    (forall p, is_Some (files w' !! p) -> is_Some (files w'' !! p)) ->
    (forall c, c ∈ chunks ->
       is_Some (files w'' !! resolveDexByKotlinFile P kotlinDexOutDir c) ->
       is_Some (files w !! resolveDexByKotlinFile P kotlinDexOutDir c)) ->
    forEachAcc (chunkFileStep P kotlinSrcOutDir kotlinDexOutDir outputDir) chunks acc w''
    = (Ok acc', w'').
Proof.
  induction chunks as [|c chunks IH]; intros acc w acc' w' w'' E Hsup Hsame.
  - simpl in E |- *. injection E as <- _. reflexivity.
  - cbn [forEachAcc] in E |- *. unfold mbind, M_bind in E |- *.
    rewrite chunkFileStep_run in E. rewrite chunkFileStep_run.
    assert (Hrest : forall acc1 w1,
              forEachAcc (chunkFileStep P kotlinSrcOutDir kotlinDexOutDir outputDir)
                chunks acc1 w1 = (Ok acc', w') ->
              forall p, is_Some (files w1 !! p) -> is_Some (files w'' !! p)).
    { intros acc1 w1 E1 p [x Hx]. apply Hsup.
      destruct (chunkLoop_run P kotlinSrcOutDir kotlinDexOutDir outputDir chunks acc1 w1)
        as (a & b & E0 & (_ & Hmono & _)).
      rewrite E1 in E0. injection E0 as <- <-. rewrite (Hmono _ _ Hx). eauto. }
    assert (Hsame' : forall c0, c0 ∈ chunks ->
              is_Some (files w'' !! resolveDexByKotlinFile P kotlinDexOutDir c0) ->
              is_Some (files w !! resolveDexByKotlinFile P kotlinDexOutDir c0)).
    { intros c0 Hc0. apply Hsame. now right. }
    destruct (bool_decide (path_resolve P [kotlinSrcOutDir; c] ∈ acc)).
    { eapply IH; eauto. }
    destruct (files w !! resolveDexByKotlinFile P kotlinDexOutDir c) as [content|] eqn:Ed.
    + destruct (files w !! resolveDexByKotlinFile P outputDir c) as [t|] eqn:Et.
      * destruct (Hrest _ _ E _ (ex_intro _ content Ed)) as [x ->].
        destruct (Hrest _ _ E _ (ex_intro _ t Et)) as [y ->].
        eapply IH; eauto.
      * assert (Hne : resolveDexByKotlinFile P outputDir c
                      <> resolveDexByKotlinFile P kotlinDexOutDir c) by congruence.
        destruct (Hrest _ _ E (resolveDexByKotlinFile P kotlinDexOutDir c)) as [x ->].
        { simpl. rewrite lookup_insert_ne by assumption. eauto. }
        destruct (Hrest _ _ E (resolveDexByKotlinFile P outputDir c)) as [y ->].
        { simpl. rewrite lookup_insert_eq. eauto. }
        eapply IH; [exact E|exact Hsup|].
        intros c0 Hc0 Hs. destruct (Hsame' c0 Hc0 Hs) as [z Hz]. simpl.
        destruct (decide (resolveDexByKotlinFile P outputDir c
                          = resolveDexByKotlinFile P kotlinDexOutDir c0)) as [->|Hn].
        -- rewrite lookup_insert_eq. eauto.
        -- rewrite lookup_insert_ne by assumption. eauto.
    + destruct (files w'' !! resolveDexByKotlinFile P kotlinDexOutDir c) as [x|] eqn:Ed''.
      * destruct (Hsame c) as [z Hz]; [left|eauto|]. congruence.
      * eapply IH; eauto.
Qed.

(** With nothing reported as changed, and the output directory's artifacts
    kept apart from the cache's, the resolver is idempotent: run again on the
    world it left, it returns the same change set and touches nothing. *)
Theorem resolver_idempotent
    (P : Platform) (result : Result.t)
    (kotlinSrcOutDir kotlinDexOutDir outputDir : string) (w : World)
    (cs : list string) (w' : World) :
  Result.changed result = [] ->
  (forall c c', c ∈ chunkList result -> c' ∈ chunkList result ->
     resolveDexByKotlinFile P outputDir c' <> resolveDexByKotlinFile P kotlinDexOutDir c) ->
  parseKotlinChangedFiles P result kotlinSrcOutDir kotlinDexOutDir outputDir w = (Ok cs, w') ->
  parseKotlinChangedFiles P result kotlinSrcOutDir kotlinDexOutDir outputDir w' = (Ok cs, w').
Proof.
  intros Hch Hapart E.
  destruct (parseKotlinChangedFiles_run P result kotlinSrcOutDir kotlinDexOutDir outputDir w)
    as (cs0 & w0 & E0 & (_ & _ & Hnew & _)).
  rewrite E in E0. injection E0 as <- <-.
  unfold parseKotlinChangedFiles in E |- *.
  rewrite (bind_ok _ _ _ _ _ (mapM_changedFile_run P _ _ _ w)) in E.
  rewrite (bind_ok _ _ _ _ _ (mapM_changedFile_run P _ _ _ w')).
  rewrite Hch in *. cbn [map staleSweep fold_left] in *.
  eapply chunkLoop_again; [exact E|auto|].
  intros c Hc Hs.
  destruct (files w !! resolveDexByKotlinFile P kotlinDexOutDir c) as [x|] eqn:Ed; [eauto|].
  exfalso. destruct (Hnew _ Ed Hs) as (c' & Hc' & Heq).
  apply (Hapart c c' Hc Hc'). now rewrite Heq.
Qed.

Lemma resolver_idempotent_witness :
  exists cs w',
    parseKotlinChangedFiles (Demo.platform None None) (Demo.result [] (Some ["a.kt"]))
      "/p/dist/.kotlin/src" "/p/dist/.kotlin/dex" "/p/dist/dev"
      (Demo.world [("/p/dist/.kotlin/dex/a/classes.dex", "dex:a")]) = (Ok cs, w')
    /\ parseKotlinChangedFiles (Demo.platform None None) (Demo.result [] (Some ["a.kt"]))
         "/p/dist/.kotlin/src" "/p/dist/.kotlin/dex" "/p/dist/dev" w' = (Ok cs, w').
Proof.
  set (w0 := Demo.world _).
  destruct (parseKotlinChangedFiles (Demo.platform None None) (Demo.result [] (Some ["a.kt"]))
              "/p/dist/.kotlin/src" "/p/dist/.kotlin/dex" "/p/dist/dev" w0)
    as [[cs|e] w'] eqn:E; [|vm_compute in E; discriminate].
  exists cs, w'. split; [reflexivity|].
  apply (resolver_idempotent (Demo.platform None None) (Demo.result [] (Some ["a.kt"]))
           "/p/dist/.kotlin/src" "/p/dist/.kotlin/dex" "/p/dist/dev" w0 cs w').
  - reflexivity.
  - intros c c' Hc Hc'.
    apply elem_of_cons in Hc as [->|Hc]; [|apply list_elem_of_singleton in Hc as ->];
      (apply elem_of_cons in Hc' as [->|Hc']; [|apply list_elem_of_singleton in Hc' as ->]);
      vm_compute; discriminate.
  - exact E.
Defined.

(** *** A cycle with nothing to do *)

Lemma chunkLoop_all_deployed
    (P : Platform) (kotlinSrcOutDir kotlinDexOutDir outputDir : string)
    (chunks : list string) (w : World) :
  (forall c, c ∈ chunks ->
     is_Some (files w !! resolveDexByKotlinFile P kotlinDexOutDir c)
     /\ is_Some (files w !! resolveDexByKotlinFile P outputDir c)) ->
  forEachAcc (chunkFileStep P kotlinSrcOutDir kotlinDexOutDir outputDir) chunks [] w
  = (Ok [], w).
Proof.
  induction chunks as [|c chunks IH]; intros Hall; [reflexivity|].
  cbn [forEachAcc]. unfold mbind, M_bind. rewrite chunkFileStep_run.
  rewrite bool_decide_false by apply not_elem_of_nil.
  destruct (Hall c) as ([x ->] & [y ->]); [left|].
  apply IH. intros c0 Hc0. apply Hall. now right.
Qed.

(** When the transpiler reports nothing as changed and [index.kt] and every
    chunk have their artifact in the cache and in the output directory, the
    cycle does nothing: the change set is empty, the driver is not called,
    no file is touched, and the result comes back with only its type set. *)
Theorem up_to_date_cycle_is_a_no_op
    (P : Platform) (options : Options.t) (result : Result.t) (w : World)
    (filename : string) :
  Result.filename result = Some filename ->
  Result.changed result = [] ->
  (forall c, c ∈ chunkList result ->
     is_Some (files w !! resolveDexByKotlinFile P (dexOutDir P options) c)
     /\ is_Some (files w !! resolveDexByKotlinFile P (Options.outputDir options) c)) ->
  resolveChangeSet P options result w = (Ok [], w)
  /\ runKotlinDev P options result w = (Ok (Result.setType "kotlin" result), w).
Proof.
  intros Hfn Hch Hall.
  assert (E : resolveChangeSet P options result w = (Ok [], w)).
  { unfold resolveChangeSet, parseKotlinChangedFiles.
    rewrite (bind_ok _ _ _ _ _ (mapM_changedFile_run P _ _ _ w)).
    change (Result.changed (Result.setType "kotlin" result)) with (Result.changed result).
    rewrite Hch. cbn [map staleSweep fold_left].
    now apply chunkLoop_all_deployed. }
  split; [exact E|].
  rewrite runKotlinDev_unfold, E, Hfn. reflexivity.
Qed.

Lemma up_to_date_cycle_is_a_no_op_witness :
  runKotlinDev (Demo.platform None (Some Demo.workingServer)) Demo.options
    (Demo.result [] (Some ["a.kt"]))
    (Demo.world
       [("/p/dist/.kotlin/dex/index/classes.dex", "dex:index");
        ("/p/dist/.kotlin/dex/a/classes.dex", "dex:a");
        ("/p/dist/dev/index/classes.dex", "dex:index");
        ("/p/dist/dev/a/classes.dex", "dex:a")])
  = (Ok (Result.setType "kotlin" (Demo.result [] (Some ["a.kt"]))),
     Demo.world
       [("/p/dist/.kotlin/dex/index/classes.dex", "dex:index");
        ("/p/dist/.kotlin/dex/a/classes.dex", "dex:a");
        ("/p/dist/dev/index/classes.dex", "dex:index");
        ("/p/dist/dev/a/classes.dex", "dex:a")]).
Proof.
  eapply proj2.
  apply (up_to_date_cycle_is_a_no_op (Demo.platform None (Some Demo.workingServer))
           Demo.options (Demo.result [] (Some ["a.kt"])) _ "index.kt").
  - reflexivity.
  - reflexivity.
  - intros c Hc.
    apply elem_of_cons in Hc as [->|Hc]; [|apply list_elem_of_singleton in Hc as ->];
      split; vm_compute; eauto.
Defined.

(** * Further properties of the mirroring *)

(** When the cached artifacts and their places in the output directory are
    kept apart, the mirroring returns and is exact: every listed artifact is
    in the output directory with the contents it has in the cache, and no
    other file has changed. *)
Theorem syncDexList_exact
    (P : Platform) (kotlinDexOutDir outputDir : string) (dexList : list string) :
  forall w : World,
    (forall d, d ∈ dexList -> is_Some (files w !! path_resolve P [kotlinDexOutDir; d])) ->
    (forall d d', d ∈ dexList -> d' ∈ dexList ->
       path_resolve P [outputDir; d] <> path_resolve P [kotlinDexOutDir; d']) ->
    (forall d d', d ∈ dexList -> d' ∈ dexList ->
       path_resolve P [outputDir; d] = path_resolve P [outputDir; d'] ->
       path_resolve P [kotlinDexOutDir; d] = path_resolve P [kotlinDexOutDir; d']) ->
    exists w',
      syncDexList P dexList kotlinDexOutDir outputDir w = (Ok tt, w')
      /\ (forall d, d ∈ dexList ->
            files w' !! path_resolve P [outputDir; d]
            = files w !! path_resolve P [kotlinDexOutDir; d])
      /\ (forall p, (forall d, d ∈ dexList -> path_resolve P [outputDir; d] <> p) ->
            files w' !! p = files w !! p).
Proof.
  induction dexList as [|d l IH]; intros w Hsrc Hapart Hsame.
  - exists w. split; [reflexivity|]. split; [|auto]. intros d Hd. inversion Hd.
  - rewrite syncDexList_cons.
    destruct (Hsrc d) as [content Ec]; [left|]. rewrite Ec.
    rewrite decide_False by (intros Heq; apply (Hapart d d); [left|left|now symmetry]).
    set (w1 := emit _ _).
    assert (Hw1 : forall d', d' ∈ d :: l ->
              files w1 !! path_resolve P [kotlinDexOutDir; d']
              = files w !! path_resolve P [kotlinDexOutDir; d']).
    { intros d' Hd'. simpl. apply lookup_insert_ne. apply Hapart; [left|exact Hd']. }
    destruct (IH w1) as (w' & E & Hcopy & Hframe).
    + intros d' Hd'. rewrite Hw1 by now right. apply Hsrc. now right.
    + intros a b Ha Hb. apply Hapart; now right.
    + intros a b Ha Hb. apply Hsame; now right.
    + exists w'. split; [exact E|]. split.
      * intros d' Hd'. apply elem_of_cons in Hd' as [->|Hd'].
        -- destruct (decide (path_resolve P [outputDir; d]
                             ∈ map (fun x => path_resolve P [outputDir; x]) l)) as [Hin|Hnin].
           ++ apply list_elem_of_fmap in Hin as (d' & Heq & Hd').
              rewrite Heq, (Hcopy d' Hd'), Hw1 by now right.
              now rewrite (Hsame d d') by (try left; try (now right); exact Heq).
           ++ rewrite Hframe.
              ** simpl. rewrite lookup_insert_eq. now rewrite Ec.
              ** intros d' Hd' Heq. apply Hnin. apply list_elem_of_fmap. eauto.
        -- rewrite (Hcopy d' Hd'). apply Hw1. now right.
      * intros p Hp. rewrite Hframe.
        -- simpl. apply lookup_insert_ne. apply Hp. left.
        -- intros d' Hd'. apply Hp. now right.
Qed.

Lemma syncDexList_exact_witness :
  exists w',
    syncDexList (Demo.platform None None) ["index/classes.dex"]
      "/p/dist/.kotlin/dex" "/p/dist/dev"
      (Demo.world [("/p/dist/.kotlin/dex/index/classes.dex", "dex:index")]) = (Ok tt, w')
    /\ files w' !! "/p/dist/dev/index/classes.dex" = Some "dex:index".
Proof.
  destruct (syncDexList_exact (Demo.platform None None)
              "/p/dist/.kotlin/dex" "/p/dist/dev" ["index/classes.dex"]
              (Demo.world [("/p/dist/.kotlin/dex/index/classes.dex", "dex:index")]))
    as (w' & E & Hcopy & _).
  - intros d Hd. apply list_elem_of_singleton in Hd as ->. vm_compute. eauto.
  - intros d d' Hd Hd'. apply list_elem_of_singleton in Hd as ->.
    apply list_elem_of_singleton in Hd' as ->. vm_compute. discriminate.
  - intros d d' Hd Hd' _. apply list_elem_of_singleton in Hd as ->.
    apply list_elem_of_singleton in Hd' as ->. reflexivity.
  - exists w'. split; [exact E|].
    refine (eq_trans (Hcopy "index/classes.dex" _) _); [left|vm_compute; reflexivity].
Defined.

(** The mirroring stops at the first listed artifact that is missing from
    the cache: it throws [ENOENT] for it, the artifacts listed before it
    stay copied, and those listed after it are not looked at. *)
Lemma syncDexList_missing
    (P : Platform) (kotlinDexOutDir outputDir : string) (copied : list string)
    (d : string) (rest : list string) :
  forall w : World,
    (forall d', d' ∈ copied ->
       is_Some (files w !! path_resolve P [kotlinDexOutDir; d'])
       /\ path_resolve P [kotlinDexOutDir; d'] <> path_resolve P [outputDir; d']
       /\ path_resolve P [outputDir; d'] <> path_resolve P [kotlinDexOutDir; d]) ->
    files w !! path_resolve P [kotlinDexOutDir; d] = None ->
    exists w',
      syncDexList P (copied ++ d :: rest) kotlinDexOutDir outputDir w
      = (Throw (ENOENT (path_resolve P [kotlinDexOutDir; d])), w')
      /\ (forall p, is_Some (files w !! p) -> is_Some (files w' !! p))
      /\ (forall d', d' ∈ copied -> is_Some (files w' !! path_resolve P [outputDir; d']))
      /\ (forall p, (forall d', d' ∈ copied -> path_resolve P [outputDir; d'] <> p) ->
            files w' !! p = files w !! p).
Proof.
  induction copied as [|c l IH]; intros w Hall Hnone.
  - cbn [app]. rewrite syncDexList_cons, Hnone. exists w.
    split; [reflexivity|]. split; [auto|]. split; [|auto]. intros d' Hd'. inversion Hd'.
  - cbn [app]. rewrite syncDexList_cons.
    destruct (Hall c) as ([content Ec] & Hne & Hnd); [left|]. rewrite Ec.
    rewrite decide_False by assumption.
    set (w1 := emit _ _).
    assert (Hkeep1 : forall p, is_Some (files w !! p) -> is_Some (files w1 !! p)).
    { intros p Hp. simpl. destruct (decide (path_resolve P [outputDir; c] = p)) as [<-|Hn].
      - rewrite lookup_insert_eq. eauto.
      - now rewrite lookup_insert_ne. }
    destruct (IH w1) as (w' & E & Hkeep & Hdone & Hframe).
    + intros d' Hd'. destruct (Hall d') as (Hs & Hn1 & Hn2); [now right|]. auto.
    + simpl. now rewrite lookup_insert_ne.
    + exists w'. split; [exact E|]. split; [auto|]. split.
      * intros d' Hd'. apply elem_of_cons in Hd' as [->|Hd']; [|auto].
        apply Hkeep. simpl. rewrite lookup_insert_eq. eauto.
      * intros p Hp. rewrite Hframe.
        -- simpl. apply lookup_insert_ne. apply Hp. left.
        -- intros d' Hd'. apply Hp. now right.
Qed.

(** A driver that reports success but lists an artifact it did not leave in
    the cache makes the cycle throw [ENOENT] for that artifact, after the
    artifacts listed before it have been copied to the output directory; the
    result, with the new [changed] list, is not returned. *)
Theorem cycle_throws_on_missing_artifact
    (P : Platform) (options : Options.t) (result : Result.t) (w : World)
    (cs : list string) (r : DexResult.t) (w2 : World)
    (copied : list string) (d : string) (rest : list string) :
  driverCall P options result w = Some (cs, r, w2) ->
  DexResult.code r = 0%Z ->
  DexResult.data r = Some (copied ++ d :: rest) ->
  (forall d', d' ∈ copied ->
     is_Some (files w2 !! path_resolve P [dexOutDir P options; d'])
     /\ path_resolve P [dexOutDir P options; d']
        <> path_resolve P [Options.outputDir options; d']
     /\ path_resolve P [Options.outputDir options; d']
        <> path_resolve P [dexOutDir P options; d]) ->
  files w2 !! path_resolve P [dexOutDir P options; d] = None ->
  exists w',
    runKotlinDev P options result w
    = (Throw (ENOENT (path_resolve P [dexOutDir P options; d])), w')
    /\ (forall d', d' ∈ copied ->
          is_Some (files w' !! path_resolve P [Options.outputDir options; d']))
    /\ (forall p, (forall d', d' ∈ copied ->
                     path_resolve P [Options.outputDir options; d'] <> p) ->
          files w' !! p = files w2 !! p).
Proof.
  intros Hcall Hcode Hdata Hall Hnone.
  rewrite (runKotlinDev_driverCall _ _ _ _ _ _ _ Hcall).
  rewrite (afterDriver_success _ _ _ _ _ _ Hcode Hdata).
  destruct (syncDexList_missing P (dexOutDir P options) (Options.outputDir options)
              copied d rest w2 Hall Hnone) as (w' & E & _ & Hdone & Hframe).
  rewrite E. eauto.
Qed.

Lemma cycle_throws_on_missing_artifact_witness :
  exists w',
    runKotlinDev
      (Demo.platform None
         (Some {| getDefaultJar := fun _ => [];
                  getKotlincHome := "/sdk/kotlinc";
                  compile := fun o _ disk =>
                    ({| DexResult.code := 0; DexResult.msg := None;
                        DexResult.data := Some ["a/classes.dex"; "index/classes.dex"] |},
                     <[CompileOptions.dexOutDir o +:+ "/a/classes.dex" := "dex:a"]> disk) |}))
      Demo.options (Demo.result ["index.kt"] None)
      (Demo.world [("/p/dist/.kotlin/src/index.kt", "fun main() {}")])
    = (Throw (ENOENT "/p/dist/.kotlin/dex/index/classes.dex"), w')
    /\ is_Some (files w' !! "/p/dist/dev/a/classes.dex")
    /\ files w' !! "/p/dist/dev/index/classes.dex" = None.
Proof.
  set (P0 := Demo.platform None _).
  set (w0 := Demo.world _).
  destruct (driverCall P0 Demo.options (Demo.result ["index.kt"] None) w0)
    as [[[cs r] w2]|] eqn:Ecall; [|vm_compute in Ecall; discriminate].
  destruct (cycle_throws_on_missing_artifact P0 Demo.options (Demo.result ["index.kt"] None)
              w0 cs r w2 ["a/classes.dex"] "index/classes.dex" [] Ecall)
    as (w' & E & Hdone & Hframe).
  - vm_compute in Ecall. injection Ecall as _ <- _. reflexivity.
  - vm_compute in Ecall. injection Ecall as _ <- _. reflexivity.
  - vm_compute in Ecall. injection Ecall as _ _ <-.
    intros d' Hd'. apply list_elem_of_singleton in Hd' as ->.
    split_and!; [vm_compute; eauto|vm_compute; discriminate|vm_compute; discriminate].
  - vm_compute in Ecall. injection Ecall as _ _ <-. vm_compute. reflexivity.
  - exists w'. split; [exact E|]. split.
    + refine (Hdone "a/classes.dex" _). left.
    + refine (eq_trans (Hframe "/p/dist/dev/index/classes.dex" _) _).
      * intros d' Hd'. apply list_elem_of_singleton in Hd' as ->. vm_compute. discriminate.
      * vm_compute in Ecall. injection Ecall as _ _ <-. vm_compute. reflexivity.
Defined.

(** * Further properties of the manifest store *)

Lemma readKotlinManifestJson_run (P : Platform) (kotlinSrcOutDir : string) (w : World) :
  readKotlinManifestJson P kotlinSrcOutDir w
  = match files w !! manifestFile P kotlinSrcOutDir with
    | None => (Ok None, w)
    | Some text =>
        match JSON_parse P text with
        | Some manifest => (Ok (Some manifest), w)
        | None => (Throw SyntaxError, w)
        end
    end.
Proof.
  unfold readKotlinManifestJson. run.
  destruct (files w !! manifestFile P kotlinSrcOutDir) as [text|] eqn:E.
  - rewrite bool_decide_true by eauto. rewrite E.
    destruct (JSON_parse P text); reflexivity.
  - rewrite bool_decide_false by (intros [? ?]; discriminate). reflexivity.
Qed.

(** Writing a manifest and reading it back returns it, for every manifest
    the JSON codec round-trips; the write replaces whatever the file held
    and changes no other file, and the read changes nothing. *)
Theorem manifest_write_read
    (P : Platform) (kotlinSrcOutDir : string) (manifest : Manifest) (w : World) :
  JSON_parse P (JSON_stringify P manifest) = Some manifest ->
  exists w',
    (writeKotlinManifestJson P kotlinSrcOutDir manifest;;
     readKotlinManifestJson P kotlinSrcOutDir) w = (Ok (Some manifest), w')
    /\ files w'
       = <[manifestFile P kotlinSrcOutDir := JSON_stringify P manifest]> (files w)
    /\ events w'
       = events w ++ [EWriteFile (manifestFile P kotlinSrcOutDir) (JSON_stringify P manifest)].
Proof.
  intros Hrt. eexists. split.
  - unfold writeKotlinManifestJson, fs.writeFileSync, mbind, M_bind.
    rewrite readKotlinManifestJson_run. cbn [files emit setFiles].
    rewrite lookup_insert_eq, Hrt. reflexivity.
  - split; reflexivity.
Qed.

Lemma manifest_write_read_witness :
  exists w',
    (writeKotlinManifestJson (Demo.platform None None) "/p/dist/.kotlin/src"
       {[ "index.kt" := "h1"; "a.kt" := "h2" ]};;
     readKotlinManifestJson (Demo.platform None None) "/p/dist/.kotlin/src")
      (Demo.world [("/p/dist/.kotlin/src/.manifest.json", "{ broken")])
    = (Ok (Some {[ "index.kt" := "h1"; "a.kt" := "h2" ]}), w').
Proof.
  destruct (manifest_write_read (Demo.platform None None) "/p/dist/.kotlin/src"
              {[ "index.kt" := "h1"; "a.kt" := "h2" ]}
              (Demo.world [("/p/dist/.kotlin/src/.manifest.json", "{ broken")]))
    as (w' & E & _).
  - vm_compute. reflexivity.
  - exists w'. exact E.
Defined.

(** After a failed cycle that rolled the manifest back, reading the manifest
    gives the rolled-back mapping: the entries of the changed files are gone
    for the next cycle, the others are as they were. *)
Theorem rolled_back_manifest_is_read_back
    (P : Platform) (options : Options.t) (result : Result.t) (w : World)
    (cs : list string) (r : DexResult.t) (w2 : World) (text : string)
    (manifest : Manifest) (outcome : Outcome Result.t) (w' : World) :
  driverCall P options result w = Some (cs, r, w2) ->
  dexSucceeded r = false ->
  Result.changed result <> [] ->
  files w2 !! manifestFile P (srcOutDir P options) = Some text ->
  JSON_parse P text = Some manifest ->
  JSON_parse P (JSON_stringify P (deleteKeys (Result.changed result) manifest))
  = Some (deleteKeys (Result.changed result) manifest) ->
  runKotlinDev P options result w = (outcome, w') ->
  readKotlinManifestJson P (srcOutDir P options) w'
  = (Ok (Some (deleteKeys (Result.changed result) manifest)), w').
Proof.
  intros Hcall Hfail Hch Hfile Hparse Hrt Hrun.
  rewrite (runKotlinDev_driverCall _ _ _ _ _ _ _ Hcall) in Hrun.
  rewrite (afterDriver_failure _ _ _ _ _ Hfail), dexFailure_run in Hrun.
  change (Result.changed (Result.setKotlinc true (Result.setType "kotlin" result)))
    with (Result.changed result) in Hrun.
  assert (Hcons : exists f l, Result.changed result = f :: l).
  { destruct (Result.changed result) as [|f l]; [contradiction|eauto]. }
  destruct Hcons as (f & l & Ech). rewrite Ech in Hrun.
  rewrite Hfile, Hparse in Hrun. cbv zeta in Hrun. injection Hrun as _ <-.
  change (deleteKeys l (delete f manifest)) with (deleteKeys (f :: l) manifest).
  rewrite <- Ech.
  rewrite readKotlinManifestJson_run, logMessage_files. cbn [files emit setFiles].
  rewrite lookup_insert_eq, Hrt. reflexivity.
Qed.

Lemma rolled_back_manifest_is_read_back_witness :
  exists w',
    readKotlinManifestJson (Demo.platform None (Some Demo.failingServer))
      "/p/dist/.kotlin/src"
      (runKotlinDev (Demo.platform None (Some Demo.failingServer)) Demo.options
         (Demo.result ["c.kt"] None)
         (Demo.world
            [("/p/dist/.kotlin/src/index.kt", "fun main() {}");
             ("/p/dist/.kotlin/src/.manifest.json",
              FlatJSON.stringify {[ "index.kt" := "h1"; "c.kt" := "h2" ]})])).2
    = (Ok (Some {[ "index.kt" := "h1" ]}), w').
Proof.
  set (P0 := Demo.platform None _).
  set (w0 := Demo.world _).
  destruct (driverCall P0 Demo.options (Demo.result ["c.kt"] None) w0)
    as [[[cs r] w2]|] eqn:Ecall; [|vm_compute in Ecall; discriminate].
  destruct (runKotlinDev P0 Demo.options (Demo.result ["c.kt"] None) w0)
    as [outcome w'] eqn:Erun.
  exists w'.
  refine (eq_trans
            (rolled_back_manifest_is_read_back P0 Demo.options (Demo.result ["c.kt"] None)
               w0 cs r w2 (FlatJSON.stringify {[ "index.kt" := "h1"; "c.kt" := "h2" ]})
               {[ "index.kt" := "h1"; "c.kt" := "h2" ]} outcome w'
               Ecall _ _ _ _ _ Erun) _).
  - vm_compute in Ecall. injection Ecall as _ <- _. reflexivity.
  - discriminate.
  - vm_compute in Ecall. injection Ecall as _ _ <-. vm_compute. reflexivity.
  - vm_compute. reflexivity.
  - vm_compute. reflexivity.
  - apply (f_equal (fun m : Manifest => (Ok (Some m), w'))). vm_compute. reflexivity.
Defined.

(** * Further properties of the cycle *)

(** The result a completed cycle returns: its type is [kotlin], its file
    name and chunks are the transpiler's; when the driver was called its
    [kotlinc] flag is set and its [changed] list is the driver's dex list on
    success and empty on failure; when the driver was not called the flag
    and the list are the transpiler's. *)
Theorem completed_cycle_result
    (P : Platform) (options : Options.t) (result result' : Result.t) (w w' : World) :
  runKotlinDev P options result w = (Ok result', w') ->
  Result.type result' = Some "kotlin"
  /\ Result.filename result' = Result.filename result
  /\ Result.chunks result' = Result.chunks result
  /\ match driverCall P options result w with
     | Some (_, r, _) =>
         Result.kotlinc result' = true
         /\ Result.changed result'
            = (if dexSucceeded r then default [] (DexResult.data r) else [])
     | None =>
         Result.kotlinc result' = Result.kotlinc result
         /\ Result.changed result' = Result.changed result
     end.
Proof.
  intros Hrun.
  destruct (driverCall P options result w) as [[[cs r] w2]|] eqn:Ecall.
  - rewrite (runKotlinDev_driverCall _ _ _ _ _ _ _ Ecall) in Hrun.
    destruct (dexSucceeded r) eqn:Es.
    + pose proof Es as Es'. apply dexSucceeded_true in Es' as (Hc & dexList & Hd).
      rewrite (afterDriver_success _ _ _ _ _ _ Hc Hd) in Hrun.
      destruct (syncDexList P dexList _ _ w2) as [[[]|e] w3]; [|discriminate].
      injection Hrun as <- _. rewrite Hd. repeat split.
    + rewrite (afterDriver_failure _ _ _ _ _ Es), dexFailure_run in Hrun.
      destruct (Result.changed _) as [|f l] eqn:Ech.
      { injection Hrun as <- _. repeat split. exact Ech. }
      destruct (files w2 !! _) as [text|].
      * destruct (JSON_parse P text); [|discriminate].
        injection Hrun as <- _. repeat split.
      * injection Hrun as <- _. repeat split.
  - rewrite runKotlinDev_unfold in Hrun. unfold driverCall in Ecall.
    destruct (resolveChangeSet P options result w) as [[cs|e] w1]; [|discriminate].
    destruct (Result.filename result) as [filename|] eqn:Efn; [|discriminate].
    destruct (negb (length cs =? 0)%nat && _) eqn:Eguard.
    + destruct (getCompilerServer P) as [server|]; [|discriminate].
      unfold compileDex in Ecall.
      destruct (compile server _ _ (files w1)) as [r disk]. discriminate.
    + injection Hrun as <- _. repeat split. exact Efn.
Qed.

Lemma completed_cycle_result_witness :
  exists result' w',
    runKotlinDev (Demo.platform None (Some Demo.failingServer)) Demo.options
      (Demo.result ["c.kt"] None)
      (Demo.world [("/p/dist/.kotlin/src/index.kt", "fun main() {}")])
    = (Ok result', w')
    /\ Result.type result' = Some "kotlin"
    /\ Result.filename result' = Some "index.kt"
    /\ Result.kotlinc result' = true
    /\ Result.changed result' = [].
Proof.
  set (P0 := Demo.platform None _).
  set (w0 := Demo.world _).
  destruct (runKotlinDev P0 Demo.options (Demo.result ["c.kt"] None) w0)
    as [[result'|e] w'] eqn:Erun; [|vm_compute in Erun; discriminate].
  exists result', w'. split; [reflexivity|].
  destruct (completed_cycle_result P0 Demo.options (Demo.result ["c.kt"] None) result'
              w0 w' Erun) as (Hty & Hfn & _ & Hcall).
  split; [exact Hty|]. split; [exact Hfn|].
  destruct (driverCall P0 Demo.options (Demo.result ["c.kt"] None) w0)
    as [[[cs r] w2]|] eqn:Ecall; [|vm_compute in Ecall; discriminate].
  destruct Hcall as (Hk & Hch). split; [exact Hk|]. rewrite Hch.
  vm_compute in Ecall. injection Ecall as _ <- _. reflexivity.
Defined.

(** * File names of the cache

    Resolving a plain file name against a directory gives a path that ends
    with that name, whatever the directory; so the paths the pipeline
    derives can be told apart by their last character. *)

Lemma split_nonempty sep s : Str.split sep s <> [].
Proof.
  destruct s as [|c s]; simpl; [discriminate|].
  destruct (Ascii.eqb c sep); [discriminate|].
  destruct (Str.split sep s); discriminate.
Qed.

Lemma split_app sep a b :
  Str.split sep (a +:+ String sep b) = Str.split sep a ++ Str.split sep b.
Proof.
  induction a as [|c a IH].
  - change (EmptyString +:+ String sep b) with (String sep b).
    change (Str.split sep (String sep b))
      with (if Ascii.eqb sep sep then EmptyString :: Str.split sep b
            else match Str.split sep b with
                 | [] => [String sep EmptyString]
                 | seg :: segs => String sep seg :: segs
                 end).
    now rewrite Ascii.eqb_refl.
  - change (String c a +:+ String sep b) with (String c (a +:+ String sep b)).
    change (Str.split sep (String c (a +:+ String sep b)))
      with (if Ascii.eqb c sep then EmptyString :: Str.split sep (a +:+ String sep b)
            else match Str.split sep (a +:+ String sep b) with
                 | [] => [String c EmptyString]
                 | seg :: segs => String c seg :: segs
                 end).
    change (Str.split sep (String c a))
      with (if Ascii.eqb c sep then EmptyString :: Str.split sep a
            else match Str.split sep a with
                 | [] => [String c EmptyString]
                 | seg :: segs => String c seg :: segs
                 end).
    rewrite IH.
    destruct (Ascii.eqb c sep); [reflexivity|].
    pose proof (split_nonempty sep a) as Hne.
    destruct (Str.split sep a) as [|seg segs]; [contradiction|reflexivity].
Qed.

Lemma lastChar_app a b : b <> EmptyString -> lastChar (a +:+ b) = lastChar b.
Proof.
  intros Hb. induction a as [|c a IH]; [reflexivity|].
  change (String c a +:+ b) with (String c (a +:+ b)). cbn [lastChar].
  destruct (a +:+ b) eqn:E; [|exact IH].
  destruct a; [|discriminate]. contradiction.
Qed.

Lemma append_cons c a b : String c a +:+ b = String c (a +:+ b).
Proof. reflexivity. Qed.

Lemma append_nil_r s : s +:+ EmptyString = s.
Proof. induction s as [|c s IH]; [reflexivity|]. now rewrite append_cons, IH. Qed.

Lemma append_assoc a b c : (a +:+ b) +:+ c = a +:+ (b +:+ c).
Proof. induction a as [|x a IH]; [reflexivity|]. now rewrite !append_cons, IH. Qed.

Lemma join_snoc sep segs seg :
  Str.join sep (segs ++ [seg])
  = match segs with
    | [] => seg
    | _ :: _ => Str.join sep segs +:+ sep +:+ seg
    end.
Proof.
  induction segs as [|s segs IH]; [reflexivity|].
  cbn [app]. destruct segs as [|s' segs'].
  - reflexivity.
  - change (Str.join sep (s :: (s' :: segs') ++ [seg]))
      with (s +:+ sep +:+ Str.join sep ((s' :: segs') ++ [seg])).
    rewrite IH.
    change (Str.join sep (s :: s' :: segs')) with (s +:+ sep +:+ Str.join sep (s' :: segs')).
    now rewrite !append_assoc.
Qed.

Lemma normalizeSegment_plain allow res name :
  plainName name -> NodePath.normalizeSegment allow res name = name :: res.
Proof.
  intros (_ & H1 & H2 & H3). unfold NodePath.normalizeSegment.
  now rewrite H1, H2, H3.
Qed.

(** Normalizing [dir/name] or [dir/name/] keeps [name] as the last segment. *)
Lemma normalizeString_plain_last dir name allow tail :
  plainName name ->
  tail = EmptyString \/ tail = "/" ->
  exists pre,
    NodePath.normalizeString (dir +:+ "/" +:+ name +:+ tail) allow = pre +:+ name.
Proof.
  intros Hplain Htail. unfold NodePath.normalizeString.
  change (dir +:+ "/" +:+ name +:+ tail) with (dir +:+ String "/" (name +:+ tail)).
  rewrite split_app, fold_left_app.
  set (res := fold_left (NodePath.normalizeSegment allow) (Str.split "/" dir) []).
  assert (Hfold : fold_left (NodePath.normalizeSegment allow)
                    (Str.split "/" (name +:+ tail)) res = name :: res).
  { destruct Htail as [->| ->].
    - rewrite append_nil_r. pose proof Hplain as (Hs & _). rewrite Hs. cbn [fold_left].
      now apply normalizeSegment_plain.
    - change (name +:+ "/") with (name +:+ String "/" EmptyString).
      rewrite split_app. pose proof Hplain as (Hs & _). rewrite Hs.
      change (Str.split "/" EmptyString) with [EmptyString].
      cbn [app fold_left].
      rewrite (normalizeSegment_plain _ _ name) by assumption. reflexivity. }
  rewrite Hfold. cbn [rev]. rewrite join_snoc.
  destruct (rev res) as [|s segs].
  - exists EmptyString. reflexivity.
  - eexists. rewrite <- append_assoc. reflexivity.
Qed.

Lemma normalizeString_plain_only name allow tail :
  plainName name ->
  tail = EmptyString \/ tail = "/" ->
  NodePath.normalizeString (name +:+ tail) allow = name.
Proof.
  intros Hplain Htail. unfold NodePath.normalizeString.
  assert (Hfold : fold_left (NodePath.normalizeSegment allow)
                    (Str.split "/" (name +:+ tail)) [] = [name]).
  { destruct Htail as [->| ->].
    - rewrite append_nil_r. pose proof Hplain as (Hs & _). rewrite Hs. cbn [fold_left].
      now apply normalizeSegment_plain.
    - change (name +:+ "/") with (name +:+ String "/" EmptyString).
      rewrite split_app. pose proof Hplain as (Hs & _). rewrite Hs.
      change (Str.split "/" EmptyString) with [EmptyString].
      cbn [app fold_left].
      rewrite (normalizeSegment_plain _ _ name) by assumption. reflexivity. }
  rewrite Hfold. reflexivity.
Qed.

(** The loop of [path.resolve] only prepends: what it has accumulated stays
    at the end, after a slash if anything was prepended. *)
Lemma resolveLoop_suffix cwd revArgs acc :
  (NodePath.resolveLoop cwd revArgs acc).1 = acc
  \/ exists pre, (NodePath.resolveLoop cwd revArgs acc).1 = pre +:+ "/" +:+ acc.
Proof.
  revert acc. induction revArgs as [|p rest IH]; intros acc; cbn [NodePath.resolveLoop].
  - destruct (Str.isEmpty cwd); [now left|right; eauto].
  - destruct (Str.isEmpty p); [apply IH|].
    destruct (NodePath.isAbsolute p); [right; eauto|].
    destruct (IH (p +:+ "/" +:+ acc)) as [->|(pre & ->)].
    + right. eauto.
    + right. exists (pre +:+ "/" +:+ p). now rewrite !append_assoc.
Qed.

Lemma plainName_not_absolute name : plainName name -> NodePath.isAbsolute name = false.
Proof.
  intros (Hs & He & _). destruct name as [|c name]; [reflexivity|].
  simpl. simpl in Hs. destruct (Ascii.eqb c "/"); [discriminate|reflexivity].
Qed.

Lemma plainName_nonempty name : plainName name -> name <> EmptyString.
Proof. intros (_ & He & _) ->. discriminate. Qed.

(** [path.resolve(dir, name)] ends with [name]. *)
Lemma resolve_plain_last cwd dir name :
  plainName name ->
  exists pre, NodePath.resolve cwd [dir; name] = pre +:+ name.
Proof.
  intros Hplain. unfold NodePath.resolve. cbn [rev app].
  destruct Hplain as (Hs & He & Hd & Hdd).
  assert (Hplain : plainName name) by (repeat split; assumption).
  change (NodePath.resolveLoop cwd [name; dir] EmptyString)
    with (if Str.isEmpty name then NodePath.resolveLoop cwd [dir] EmptyString
          else if NodePath.isAbsolute name then (name +:+ "/" +:+ EmptyString, true)
          else NodePath.resolveLoop cwd [dir] (name +:+ "/" +:+ EmptyString)).
  rewrite He, (plainName_not_absolute _ Hplain).
  pose proof (resolveLoop_suffix cwd [dir] (name +:+ "/" +:+ EmptyString)) as Hsuf.
  destruct (NodePath.resolveLoop cwd [dir] (name +:+ "/" +:+ EmptyString)) as [rp abs].
  cbn [fst] in Hsuf.
  assert (Hn : exists pre, NodePath.normalizeString rp (negb abs) = pre +:+ name).
  { destruct Hsuf as [->|(pre & ->)].
    - exists EmptyString. apply (normalizeString_plain_only name _ "/"); auto.
    - apply (normalizeString_plain_last pre name _ "/"); auto. }
  destruct Hn as (pre & Hn). rewrite Hn.
  destruct abs.
  - exists ("/" +:+ pre). reflexivity.
  - destruct (Str.isEmpty (pre +:+ name)) eqn:E; [|eauto].
    destruct pre; [|discriminate]. change (EmptyString +:+ name) with name in E. congruence.
Qed.

Lemma endsWith_lastChar c s :
  Str.endsWith (String c EmptyString) s = true -> lastChar s = Some c.
Proof.
  induction s as [|a s IH]; cbn [Str.endsWith]; intros H.
  - discriminate.
  - apply orb_true_iff in H as [H|H].
    + apply String.eqb_eq in H. injection H as <- <-. reflexivity.
    + specialize (IH H). destruct s; [discriminate|exact IH].
Qed.

(** [path.join(dir, name)] ends with [name]. *)
Lemma join_plain_last dir name :
  plainName name ->
  lastChar name <> Some "/"%char ->
  exists pre, NodePath.join [dir; name] = pre +:+ name.
Proof.
  intros Hplain Hlast. unfold NodePath.join.
  pose proof (plainName_nonempty _ Hplain) as Hne.
  assert (Hnorm : forall p, (p = name \/ exists d, p = d +:+ "/" +:+ name) ->
            exists pre, NodePath.normalize p = pre +:+ name).
  { intros p Hp. unfold NodePath.normalize.
    assert (Hpne : Str.isEmpty p = false).
    { destruct Hp as [->|(d & ->)]; [now destruct Hplain as (_ & ? & _)|].
      destruct d; reflexivity. }
    rewrite Hpne.
    assert (Htr : Str.endsWith "/" p = false).
    { destruct (Str.endsWith "/" p) eqn:E; [|reflexivity].
      apply endsWith_lastChar in E. exfalso. apply Hlast. rewrite <- E.
      destruct Hp as [->|(d & ->)]; [reflexivity|].
      symmetry. rewrite <- append_assoc. now apply lastChar_app. }
    rewrite Htr.
    assert (Hn : exists pre, NodePath.normalizeString p (negb (NodePath.isAbsolute p))
                             = pre +:+ name).
    { destruct Hp as [->|(d & ->)].
      - exists EmptyString.
        pose proof (normalizeString_plain_only name (negb (NodePath.isAbsolute name))
                      EmptyString Hplain (or_introl eq_refl)) as H.
        now rewrite append_nil_r in H.
      - destruct (normalizeString_plain_last d name
                    (negb (NodePath.isAbsolute (d +:+ "/" +:+ name)))
                    EmptyString Hplain (or_introl eq_refl)) as (pre & H).
        rewrite append_nil_r in H. eauto. }
    destruct Hn as (pre & ->).
    destruct (Str.isEmpty (pre +:+ name)) eqn:E.
    { destruct pre; [|discriminate]. change (EmptyString +:+ name) with name in E.
      destruct Hplain as (_ & He & _). congruence. }
    destruct (NodePath.isAbsolute p); [exists ("/" +:+ pre); reflexivity|eauto]. }
  pose proof Hplain as (_ & He & _).
  rewrite filter_cons, (filter_cons _ name), filter_nil.
  rewrite (decide_True (P := Str.isEmpty name = false)) by assumption.
  destruct (decide (Str.isEmpty dir = false)) as [Hd|Hd].
  - apply Hnorm. right. exists dir. reflexivity.
  - apply Hnorm. now left.
Qed.

Lemma plainName_src : plainName "src".
Proof. repeat split. Qed.
Lemma plainName_dex : plainName "dex".
Proof. repeat split. Qed.
Lemma plainName_class : plainName "class".
Proof. repeat split. Qed.
Lemma plainName_manifest : plainName ".manifest.json".
Proof. repeat split. Qed.
Lemma plainName_classes_dex : plainName "classes.dex".
Proof. repeat split. Qed.

(** The three cache directories end with [src], [dex] and [class], whatever
    the cache root and the working directory are; so no two of them
    coincide, even for different roots. *)
Theorem cache_directories_are_distinct (P : Platform) (root : string) :
  (exists pre, kotlinSrcDir P root = pre +:+ "src")
  /\ (exists pre, kotlinDexDir P root = pre +:+ "dex")
  /\ (exists pre, kotlinClassDir P root = pre +:+ "class")
  /\ (forall root', kotlinSrcDir P root <> kotlinDexDir P root')
  /\ (forall root', kotlinSrcDir P root <> kotlinClassDir P root')
  /\ (forall root', kotlinDexDir P root <> kotlinClassDir P root').
Proof.
  assert (Hs : forall k, lastChar (kotlinSrcDir P k) = Some "c"%char).
  { intros k. destruct (resolve_plain_last (cwd P) k "src" plainName_src) as (pre & H).
    unfold kotlinSrcDir, path_resolve. rewrite H. now apply lastChar_app. }
  assert (Hd : forall k, lastChar (kotlinDexDir P k) = Some "x"%char).
  { intros k. destruct (resolve_plain_last (cwd P) k "dex" plainName_dex) as (pre & H).
    unfold kotlinDexDir, path_resolve. rewrite H. now apply lastChar_app. }
  assert (Hc : forall k, lastChar (kotlinClassDir P k) = Some "s"%char).
  { intros k. destruct (resolve_plain_last (cwd P) k "class" plainName_class) as (pre & H).
    unfold kotlinClassDir, path_resolve. rewrite H. now apply lastChar_app. }
  split; [apply (resolve_plain_last (cwd P) root "src" plainName_src)|].
  split; [apply (resolve_plain_last (cwd P) root "dex" plainName_dex)|].
  split; [apply (resolve_plain_last (cwd P) root "class" plainName_class)|].
  repeat split; intros root' Heq;
    pose proof (Hs root) as H1; pose proof (Hd root) as H2; pose proof (Hc root') as H3;
    pose proof (Hd root') as H4; rewrite Heq in *; congruence.
Qed.

Lemma dexPath_lastChar (P : Platform) (dir kotlinFile : string) :
  lastChar (resolveDexByKotlinFile P dir kotlinFile) = Some "x"%char.
Proof.
  destruct (join_plain_last
              (Str.replace ".kt" EmptyString (path_resolve P [dir; kotlinFile]))
              "classes.dex" plainName_classes_dex) as (pre & H); [discriminate|].
  unfold resolveDexByKotlinFile. rewrite H. now apply lastChar_app.
Qed.

Lemma manifestFile_lastChar (P : Platform) (kotlinSrcOutDir : string) :
  lastChar (manifestFile P kotlinSrcOutDir) = Some "n"%char.
Proof.
  destruct (resolve_plain_last (cwd P) kotlinSrcOutDir ".manifest.json" plainName_manifest)
    as (pre & H).
  unfold manifestFile, path_resolve. rewrite H. now apply lastChar_app.
Qed.

Lemma dexPath_neq_manifest (P : Platform) (dir kotlinFile kotlinSrcOutDir : string) :
  resolveDexByKotlinFile P dir kotlinFile <> manifestFile P kotlinSrcOutDir.
Proof.
  intros Heq. pose proof (dexPath_lastChar P dir kotlinFile) as H1.
  rewrite Heq, manifestFile_lastChar in H1. discriminate.
Qed.

(** The path of a dex artifact ends with [classes.dex] and the path of the
    manifest with [.manifest.json], for all directories and files: no dex
    artifact path is ever the manifest's. *)
Theorem artifact_path_is_never_the_manifest
    (P : Platform) (dir kotlinFile kotlinSrcOutDir : string) :
  (exists pre, resolveDexByKotlinFile P dir kotlinFile = pre +:+ "classes.dex")
  /\ (exists pre, manifestFile P kotlinSrcOutDir = pre +:+ ".manifest.json")
  /\ resolveDexByKotlinFile P dir kotlinFile <> manifestFile P kotlinSrcOutDir.
Proof.
  pose proof (join_plain_last
                (Str.replace ".kt" EmptyString (path_resolve P [dir; kotlinFile]))
                "classes.dex" plainName_classes_dex) as Hdex.
  destruct Hdex as (pre1 & H1); [discriminate|].
  destruct (resolve_plain_last (cwd P) kotlinSrcOutDir ".manifest.json" plainName_manifest)
    as (pre2 & H2).
  split; [now exists pre1|]. split; [now exists pre2|].
  unfold resolveDexByKotlinFile, manifestFile, path_resolve in *. rewrite H1, H2.
  intros Heq. apply (f_equal lastChar) in Heq.
  rewrite !lastChar_app in Heq by discriminate. discriminate.
Qed.

(** The resolver never creates, changes or removes a manifest file. *)
Lemma resolver_keeps_manifest
    (P : Platform) (result : Result.t)
    (kotlinSrcOutDir kotlinDexOutDir outputDir : string) (w : World)
    (cs : list string) (w' : World) (dir : string) :
  parseKotlinChangedFiles P result kotlinSrcOutDir kotlinDexOutDir outputDir w = (Ok cs, w') ->
  files w' !! manifestFile P dir = files w !! manifestFile P dir.
Proof.
  intros E.
  destruct (parseKotlinChangedFiles_run P result kotlinSrcOutDir kotlinDexOutDir outputDir w)
    as (cs0 & w0 & E0 & (_ & Hmono & Hnew & _)).
  rewrite E in E0. injection E0 as <- <-.
  assert (Hsweep : files (staleSweep P kotlinDexOutDir (Result.changed result) w)
                     !! manifestFile P dir = files w !! manifestFile P dir).
  { rewrite files_staleSweep. rewrite decide_False; [reflexivity|].
    intros Hin. apply list_elem_of_fmap in Hin as (f & Heq & _).
    symmetry in Heq. now apply dexPath_neq_manifest in Heq. }
  rewrite <- Hsweep.
  destruct (files (staleSweep P kotlinDexOutDir (Result.changed result) w)
              !! manifestFile P dir) as [content|] eqn:Em.
  - now apply Hmono.
  - destruct (files w' !! manifestFile P dir) as [content|] eqn:Em'; [|reflexivity].
    destruct (Hnew _ Em) as (c & _ & Heq); [eauto|].
    symmetry in Heq. now apply dexPath_neq_manifest in Heq.
Qed.

(** In a cycle whose driver fails, the two halves write to different files:
    the resolver leaves every manifest file as it was, and the failure
    branch leaves every dex artifact path as the driver left it, in the
    cache and in the output directory alike. *)
Theorem failed_cycle_writes_are_separate
    (P : Platform) (options : Options.t) (result : Result.t) (w : World)
    (cs : list string) (r : DexResult.t) (w2 : World)
    (outcome : Outcome Result.t) (w' : World) :
  driverCall P options result w = Some (cs, r, w2) ->
  dexSucceeded r = false ->
  runKotlinDev P options result w = (outcome, w') ->
  (forall w1 dir,
     resolveChangeSet P options result w = (Ok cs, w1) ->
     files w1 !! manifestFile P dir = files w !! manifestFile P dir)
  /\ (forall dir kotlinFile,
        files w' !! resolveDexByKotlinFile P dir kotlinFile
        = files w2 !! resolveDexByKotlinFile P dir kotlinFile).
Proof.
  intros Hcall Hfail Hrun. split.
  - intros w1 dir E. unfold resolveChangeSet in E.
    eapply resolver_keeps_manifest; eauto.
  - intros dir kotlinFile.
    rewrite (runKotlinDev_driverCall _ _ _ _ _ _ _ Hcall) in Hrun.
    rewrite (afterDriver_failure _ _ _ _ _ Hfail), dexFailure_run in Hrun.
    destruct (Result.changed _) as [|f l].
    { injection Hrun as _ <-. now rewrite logMessage_files. }
    destruct (files w2 !! manifestFile P (srcOutDir P options)) as [text|].
    + destruct (JSON_parse P text) as [manifest|].
      * injection Hrun as _ <-. rewrite logMessage_files. cbn [files emit setFiles].
        apply lookup_insert_ne. intros Heq. symmetry in Heq.
        now apply dexPath_neq_manifest in Heq.
      * now injection Hrun as _ <-.
    + injection Hrun as _ <-. now rewrite logMessage_files.
Qed.

Lemma failed_cycle_writes_are_separate_witness :
  files
    (runKotlinDev (Demo.platform None (Some Demo.failingServer)) Demo.options
       (Demo.result ["c.kt"] None)
       (Demo.world
          [("/p/dist/.kotlin/src/index.kt", "fun main() {}");
           ("/p/dist/.kotlin/src/.manifest.json", FlatJSON.stringify {[ "c.kt" := "h2" ]});
           ("/p/dist/.kotlin/dex/index/classes.dex", "dex:index");
           ("/p/dist/dev/index/classes.dex", "dex:index")])).2
  !! "/p/dist/dev/index/classes.dex" = Some "dex:index".
Proof.
  set (P0 := Demo.platform None _).
  set (w0 := Demo.world _).
  destruct (driverCall P0 Demo.options (Demo.result ["c.kt"] None) w0)
    as [[[cs r] w2]|] eqn:Ecall; [|vm_compute in Ecall; discriminate].
  destruct (runKotlinDev P0 Demo.options (Demo.result ["c.kt"] None) w0)
    as [outcome w'] eqn:Erun.
  destruct (failed_cycle_writes_are_separate P0 Demo.options (Demo.result ["c.kt"] None)
              w0 cs r w2 outcome w' Ecall) as (_ & Hart).
  - vm_compute in Ecall. injection Ecall as _ <- _. reflexivity.
  - exact Erun.
  - refine (eq_trans (Hart "/p/dist/dev" "index.kt") _).
    vm_compute in Ecall. injection Ecall as _ _ <-. vm_compute. reflexivity.
Defined.

(** * The dex artifact path, in general *)

Lemma indexOf_unfold pat s :
  indexOf pat s
  = if Str.startsWith pat s then Some 0
    else match s with
         | EmptyString => None
         | String _ s' => S <$> indexOf pat s'
         end.
Proof. destruct s; reflexivity. Qed.

(** [replace] with a string pattern cuts at [indexOf]: the text before the
    first occurrence, the replacement, the text after it; without an
    occurrence the string is returned as it is. *)
Lemma replace_indexOf pat rep s :
  Str.replace pat rep s
  = match indexOf pat s with
    | Some i => String.substring 0 i s +:+ rep +:+ Str.slice (i + String.length pat) s
    | None => s
    end.
Proof.
  induction s as [|c s IH]; rewrite replace_unfold, indexOf_unfold.
  - destruct (Str.startsWith pat EmptyString); reflexivity.
  - destruct (Str.startsWith pat (String c s)); [reflexivity|].
    rewrite IH. destruct (indexOf pat s) as [i|]; reflexivity.
Qed.

(** [resolveDexByKotlinFile] cuts the first [.kt] of the resolved path, where
    [indexOf] finds it, and appends [classes.dex]; a resolved path without
    [.kt] is kept whole. *)
Theorem resolveDexByKotlinFile_cuts_at_indexOf
    (P : Platform) (kotlinDexOutDir kotlinFile : string) :
  resolveDexByKotlinFile P kotlinDexOutDir kotlinFile
  = match indexOf ".kt" (path_resolve P [kotlinDexOutDir; kotlinFile]) with
    | Some i =>
        NodePath.join
          [String.substring 0 i (path_resolve P [kotlinDexOutDir; kotlinFile])
           +:+ Str.slice (i + 3) (path_resolve P [kotlinDexOutDir; kotlinFile]);
           "classes.dex"]
    | None =>
        NodePath.join [path_resolve P [kotlinDexOutDir; kotlinFile]; "classes.dex"]
    end.
Proof.
  unfold resolveDexByKotlinFile. rewrite replace_indexOf.
  destruct (indexOf ".kt" (path_resolve P [kotlinDexOutDir; kotlinFile])); reflexivity.
Qed.

(** * The mini-program plugin *)

Lemma startsWith_inv p s : Str.startsWith p s = true -> exists rest, s = p +:+ rest.
Proof.
  revert s. induction p as [|a p IH]; intros s H.
  - exists s. reflexivity.
  - destruct s as [|b s]; [discriminate|]. cbn [Str.startsWith] in H.
    destruct (Ascii.eqb_spec a b) as [->|]; [|discriminate].
    destruct (IH s H) as (rest & ->). exists rest. reflexivity.
Qed.

(** [normalizeName] turns the prefix [wx-] into [weixin-] and nothing else:
    a later [wx-] in the name stays, a name without the prefix is returned
    as it is; the result never starts with [wx-], so normalizing twice is
    normalizing once. *)
Theorem normalizeName_prefix :
  (forall rest, normalizeName ("wx-" +:+ rest) = "weixin-" +:+ rest)
  /\ (forall name, Str.startsWith "wx-" name = false -> normalizeName name = name)
  /\ (forall name, Str.startsWith "wx-" (normalizeName name) = false)
  /\ (forall name, normalizeName (normalizeName name) = normalizeName name).
Proof.
  assert (H1 : forall rest, normalizeName ("wx-" +:+ rest) = "weixin-" +:+ rest).
  { intros rest. unfold normalizeName.
    rewrite startsWith_app, replace_unfold, startsWith_app, slice_app. reflexivity. }
  assert (H2 : forall name, Str.startsWith "wx-" name = false -> normalizeName name = name).
  { intros name H. unfold normalizeName. now rewrite H. }
  assert (H3 : forall name, Str.startsWith "wx-" (normalizeName name) = false).
  { intros name. destruct (Str.startsWith "wx-" name) eqn:E.
    - apply startsWith_inv in E as (rest & ->). rewrite H1. reflexivity.
    - now rewrite H2. }
  repeat split; auto.
Qed.

(** *** [uniad_app_json] *)

Lemma ensurePlugin_lookup key value obj k :
  ensurePlugin key value obj !! k
  = if decide (k = key) then Some (default value (obj !! key)) else obj !! k.
Proof.
  unfold ensurePlugin. destruct (obj !! key) as [v|] eqn:E.
  - destruct (decide (k = key)) as [->|]; [exact E|reflexivity].
  - destruct (decide (k = key)) as [->|Hne].
    + apply lookup_insert_eq.
    + now apply lookup_insert_ne.
Qed.

Lemma ensureComponent_lookup key value obj k :
  ensureComponent key value obj !! k
  = if decide (k = key)
    then Some (if truthyString (obj !! key) then default value (obj !! key) else value)
    else obj !! k.
Proof.
  unfold ensureComponent. destruct (truthyString (obj !! key)) eqn:E.
  - destruct (decide (k = key)) as [->|]; [|reflexivity].
    destruct (obj !! key); [reflexivity|discriminate].
  - destruct (decide (k = key)) as [->|Hne].
    + apply lookup_insert_eq.
    + now apply lookup_insert_ne.
Qed.

(** After [uniad_app_json] the two ad plugins and the ad component are
    declared. What the application declared itself is kept: an entry that
    was there for one of the plugins, a non-empty path for the component,
    and every other plugin and component. *)
Theorem uniad_app_json_declares_and_keeps (a : AppJson.t) :
  exists plugins components,
    AppJson.plugins (uniad_app_json a) = Some plugins
    /\ AppJson.usingComponents (uniad_app_json a) = Some components
    /\ is_Some (plugins !! "uni-ad")
    /\ is_Some (plugins !! "coral-adv")
    /\ truthyString (components !! "uniad-plugin") = true
    /\ (forall k v, default ∅ (AppJson.plugins a) !! k = Some v -> plugins !! k = Some v)
    /\ (forall k, k <> "uni-ad" -> k <> "coral-adv" ->
          plugins !! k = default ∅ (AppJson.plugins a) !! k)
    /\ (forall k v, default ∅ (AppJson.usingComponents a) !! k = Some v ->
          Str.isEmpty v = false -> components !! k = Some v)
    /\ (forall k, k <> "uniad-plugin" ->
          components !! k = default ∅ (AppJson.usingComponents a) !! k).
Proof.
  do 2 eexists. split; [reflexivity|]. split; [reflexivity|].
  set (p0 := default ∅ (AppJson.plugins a)).
  set (c0 := default ∅ (AppJson.usingComponents a)).
  split_and!.
  - rewrite !ensurePlugin_lookup. rewrite decide_False by discriminate.
    rewrite decide_True by reflexivity. eauto.
  - rewrite ensurePlugin_lookup, decide_True by reflexivity. eauto.
  - rewrite ensureComponent_lookup, decide_True by reflexivity.
    destruct (truthyString (c0 !! "uniad-plugin")) eqn:E; [|reflexivity].
    destruct (c0 !! "uniad-plugin"); [exact E|discriminate].
  - intros k v Hk. rewrite !ensurePlugin_lookup.
    destruct (decide (k = "coral-adv")) as [->|H1].
    + rewrite decide_False by discriminate. now rewrite Hk.
    + destruct (decide (k = "uni-ad")) as [->|H2]; [now rewrite Hk|exact Hk].
  - intros k H1 H2. rewrite !ensurePlugin_lookup.
    now rewrite !decide_False by assumption.
  - intros k v Hk Hv. rewrite ensureComponent_lookup.
    destruct (decide (k = "uniad-plugin")) as [->|Hne]; [|exact Hk].
    rewrite Hk. cbn [truthyString default]. now rewrite Hv.
  - intros k Hne. rewrite ensureComponent_lookup. now rewrite decide_False.
Qed.

Lemma ensurePlugin_present key value obj :
  is_Some (obj !! key) -> ensurePlugin key value obj = obj.
Proof. intros [v Hv]. unfold ensurePlugin. now rewrite Hv. Qed.

Lemma ensurePlugin_is_Some key value obj k :
  k = key \/ is_Some (obj !! k) -> is_Some (ensurePlugin key value obj !! k).
Proof.
  intros H. rewrite ensurePlugin_lookup.
  destruct (decide (k = key)) as [->|Hne]; [eauto|].
  destruct H as [H|H]; [contradiction|exact H].
Qed.

Lemma ensureComponent_present key value obj :
  truthyString (obj !! key) = true -> ensureComponent key value obj = obj.
Proof. intros H. unfold ensureComponent. now rewrite H. Qed.

Lemma ensureComponent_truthy key value obj :
  Str.isEmpty value = false ->
  truthyString (ensureComponent key value obj !! key) = true.
Proof.
  intros Hv. unfold ensureComponent.
  destruct (truthyString (obj !! key)) eqn:E; [exact E|].
  rewrite lookup_insert_eq. cbn [truthyString]. now rewrite Hv.
Qed.

(** [uniad_app_json] is idempotent: a second call changes nothing. *)
Theorem uniad_app_json_idempotent (a : AppJson.t) :
  uniad_app_json (uniad_app_json a) = uniad_app_json a.
Proof.
  unfold uniad_app_json. cbn [AppJson.plugins AppJson.usingComponents default].
  f_equal.
  - f_equal.
    rewrite (ensurePlugin_present "uni-ad").
    + apply ensurePlugin_present. apply ensurePlugin_is_Some. now left.
    + apply ensurePlugin_is_Some. right. apply ensurePlugin_is_Some. now left.
  - f_equal. apply ensureComponent_present. now apply ensureComponent_truthy.
Qed.

(** *** [transformAd] *)

Lemma transformAd_state (node : Node.t) (st : AdState) :
  (transformAd node st).2
  = if appJsonUniadFlag st then st
    else if isAdNode node
         then {| appJsonUniadFlag := true; appJson := uniad_app_json (appJson st) |}
         else st.
Proof.
  unfold transformAd, isAdNode.
  destruct (Node.isElementNode node); cbn [negb andb];
    [|destruct (appJsonUniadFlag st); reflexivity].
  destruct (appJsonUniadFlag st);
    [destruct (String.eqb (Node.tag node) "ad" && Node.adpidProp node); reflexivity|].
  destruct (String.eqb (Node.tag node) "ad" && Node.adpidProp node) eqn:Ead.
  - cbn [Node.tag snd]. rewrite orb_true_r. reflexivity.
  - rewrite orb_false_r. destruct (bool_decide (Node.tag node ∈ AD_COMPONENTS)); reflexivity.
Qed.

Lemma transformAd_node (node : Node.t) (st st0 : AdState) :
  (transformAd node st).1 = (transformAd node st0).1.
Proof.
  unfold transformAd. destruct (negb (Node.isElementNode node)); [reflexivity|].
  destruct (appJsonUniadFlag st), (appJsonUniadFlag st0);
    repeat match goal with |- context [if ?b then _ else _] => destruct b end; reflexivity.
Qed.

(** Over a whole traversal, [transformAd] declares the ad plugins in
    [app.json] once, and only if some element node is an ad component or an
    [ad] tag with an [adpid] prop; once the flag is set, [app.json] is never
    touched again. The renaming of the nodes does not depend on the flag. *)
Theorem transformAds_declares_once (nodes : list Node.t) (st : AdState) :
  (transformAds nodes st).2
  = (if appJsonUniadFlag st then st
     else if existsb isAdNode nodes
          then {| appJsonUniadFlag := true; appJson := uniad_app_json (appJson st) |}
          else st)
  /\ (transformAds nodes st).1 = map (fun node => (transformAd node st).1) nodes.
Proof.
  revert st. induction nodes as [|node nodes IH]; intros st.
  - split; [|reflexivity]. cbn. destruct (appJsonUniadFlag st); reflexivity.
  - cbn [transformAds existsb map].
    pose proof (transformAd_state node st) as Hst.
    destruct (transformAd node st) as [node' st'] eqn:E. cbn [snd] in Hst.
    destruct (IH st') as (IH2 & IH1).
    destruct (transformAds nodes st') as [rest' st''] eqn:E'. cbn [fst snd] in *.
    split.
    + rewrite IH2, Hst. destruct (appJsonUniadFlag st) eqn:Ef; [now rewrite Ef|].
      destruct (isAdNode node); cbn [orb appJsonUniadFlag]; [reflexivity|].
      now rewrite Ef.
    + rewrite IH1. f_equal. apply map_ext. intros n. apply transformAd_node.
Qed.

(** * [compileApp] *)

(** Outside development mode, and whenever the transpiler returns nothing or
    an error, [compileApp] adds nothing to what the transpiler did: the
    driver is not called, no artifact is unlinked or copied, the manifest is
    not written. It returns [undefined], or throws the syntax error built
    from the transpiler's error and the input directory. *)
Theorem compileApp_outside_development
    (P : Platform) (T : Transpiler) (entry : string) (options : Options.t) (w : World)
    (answer : option BundleAnswer) (disk : Files) :
  bundle T (bundleOptions P T entry options) (files w) = (answer, disk) ->
  isProd T = true \/ (forall result, answer <> Some (BundleResult result)) ->
  compileApp P T entry options w
  = (match answer with
     | Some (BundleError error) => Raised (UTSSyntaxError error (Options.inputDir options))
     | _ => Returned None
     end,
     {| files := disk; events := events w |}).
Proof.
  intros Hb Hor. unfold compileApp. rewrite Hb.
  destruct answer as [[error|result]|]; try reflexivity.
  destruct Hor as [Hprod|Hno]; [|now contradiction (Hno result)].
  rewrite Hprod. reflexivity.
Qed.

Lemma compileApp_outside_development_witness :
  compileApp (Demo.platform None (Some Demo.workingServer))
    {| NODE_ENV := Some "production";
       UNI_AUTOMATOR_WS_ENDPOINT := None;
       resolveUniAppXSourceMapPath := fun dir => dir +:+ "/sourcemap";
       bundle := fun o disk =>
         (Some (BundleResult (Demo.result ["index.kt"] None)),
          <[BundleOptions.outDir o +:+ "/index.kt" := "fun main() {}"]> disk) |}
    "main.uts" Demo.options (Demo.world [])
  = (Returned None,
     Demo.world [("/p/dist/dev/.uniappx/android/src/index.kt", "fun main() {}")]).
Proof.
  refine (eq_trans
            (compileApp_outside_development _ _ "main.uts" Demo.options (Demo.world [])
               (Some (BundleResult (Demo.result ["index.kt"] None)))
               (list_to_map [("/p/dist/dev/.uniappx/android/src/index.kt", "fun main() {}")])
               _ _) _).
  - vm_compute. reflexivity.
  - left. reflexivity.
  - reflexivity.
Defined.

(** In development mode the transpiler is told to write into the source
    directory of the cycle, the one whose manifest and entry file
    [runKotlinDev] reads; and when it reports nothing as changed while
    [index.kt] and every chunk have their artifact in the cache and in the
    output directory, [compileApp] returns the transpiler's result, typed
    [kotlin], and touches nothing the transpiler did not. *)
Theorem compileApp_development_up_to_date
    (P : Platform) (T : Transpiler) (entry : string) (options : Options.t) (w : World)
    (result : Result.t) (disk : Files) (filename : string) :
  isProd T = false ->
  bundle T (bundleOptions P T entry options) (files w) = (Some (BundleResult result), disk) ->
  Result.filename result = Some filename ->
  Result.changed result = [] ->
  (forall c, c ∈ chunkList result ->
     is_Some (disk !! resolveDexByKotlinFile P (dexOutDir P options) c)
     /\ is_Some (disk !! resolveDexByKotlinFile P (Options.outputDir options) c)) ->
  BundleOptions.outDir (bundleOptions P T entry options) = srcOutDir P options
  /\ compileApp P T entry options w
     = (Returned (Some (Result.setType "kotlin" result)),
        {| files := disk; events := events w |}).
Proof.
  intros Hdev Hb Hfn Hch Hall. split.
  - unfold bundleOptions. cbn [BundleOptions.outDir]. now rewrite Hdev.
  - unfold compileApp. rewrite Hb, Hdev.
    assert (E : resolveChangeSet P options result (setFiles disk w) = (Ok [], setFiles disk w)).
    { unfold resolveChangeSet, parseKotlinChangedFiles.
      rewrite (bind_ok _ _ _ _ _ (mapM_changedFile_run P _ _ _ (setFiles disk w))).
      change (Result.changed (Result.setType "kotlin" result)) with (Result.changed result).
      rewrite Hch. cbn [map staleSweep fold_left].
      now apply chunkLoop_all_deployed. }
    rewrite runKotlinDev_unfold, E, Hfn. reflexivity.
Qed.

Lemma compileApp_development_up_to_date_witness :
  compileApp (Demo.platform None (Some Demo.workingServer))
    {| NODE_ENV := Some "development";
       UNI_AUTOMATOR_WS_ENDPOINT := None;
       resolveUniAppXSourceMapPath := fun dir => dir +:+ "/sourcemap";
       bundle := fun o disk => (Some (BundleResult (Demo.result [] None)), disk) |}
    "main.uts" Demo.options
    (Demo.world
       [("/p/dist/.kotlin/dex/index/classes.dex", "dex:index");
        ("/p/dist/dev/index/classes.dex", "dex:index")])
  = (Returned (Some (Result.setType "kotlin" (Demo.result [] None))),
     Demo.world
       [("/p/dist/.kotlin/dex/index/classes.dex", "dex:index");
        ("/p/dist/dev/index/classes.dex", "dex:index")]).
Proof.
  set (T0 := {| NODE_ENV := Some "development";
                UNI_AUTOMATOR_WS_ENDPOINT := None;
                resolveUniAppXSourceMapPath := fun dir => dir +:+ "/sourcemap";
                bundle := fun (_ : BundleOptions.t) (disk : Files) =>
                  (Some (BundleResult (Demo.result [] None)), disk) |}).
  set (w0 := Demo.world _).
  refine (eq_trans
            (proj2 (compileApp_development_up_to_date
                      (Demo.platform None (Some Demo.workingServer))
                      T0 "main.uts" Demo.options w0 (Demo.result [] None) (files w0)
                      "index.kt" _ _ _ _ _)) _).
  - reflexivity.
  - reflexivity.
  - reflexivity.
  - reflexivity.
  - intros c Hc. apply list_elem_of_singleton in Hc as ->. split; vm_compute; eauto.
  - reflexivity.
Defined.

Lemma normalizeName_prefix_witness :
  normalizeName "wx-wx-button" = "weixin-wx-button" /\ normalizeName "view" = "view".
Proof.
  destruct normalizeName_prefix as (Hwx & Hother & _).
  split; [exact (Hwx "wx-button")|apply Hother; reflexivity].
Defined.

Lemma uniad_app_json_declares_and_keeps_witness :
  exists plugins,
    AppJson.plugins
      (uniad_app_json
         {| AppJson.plugins :=
              Some {[ "uni-ad" := {| AppJson.version := "9.9.9";
                                     AppJson.provider := "wx-own" |} ]};
            AppJson.usingComponents := None |}) = Some plugins
    /\ plugins !! "uni-ad"
       = Some {| AppJson.version := "9.9.9"; AppJson.provider := "wx-own" |}
    /\ is_Some (plugins !! "coral-adv").
Proof.
  destruct (uniad_app_json_declares_and_keeps
              {| AppJson.plugins :=
                   Some {[ "uni-ad" := {| AppJson.version := "9.9.9";
                                          AppJson.provider := "wx-own" |} ]};
                 AppJson.usingComponents := None |})
    as (plugins & components & Hp & _ & _ & Hcoral & _ & Hkeep & _).
  exists plugins. split; [exact Hp|]. split; [|exact Hcoral].
  apply Hkeep. vm_compute. reflexivity.
Defined.
